(** * SharePoint folder-size calculator: a shallow embedding of the tree walk

    The repository holds three variants of the same recursive walk:

    - [sharepoint_folder_size.py]    (module [FolderSize]):   Graph API, folders addressed by item id;
    - [sharepoint_graph_api.py]      (module [GraphApi]):     Graph API, folders addressed by path;
    - [sharepoint_folder_size_v2.py] (module [FolderSizeV2]): SharePoint REST, folders addressed by
      server-relative URL.

    Modelling conventions.

    - A JSON object received from the backend is a record whose fields are
      [option]s: [None] is a key that is absent (so [d.get(k, dflt)] is
      [get_or dflt] and [d[k]] raises [KeyError] on [None]).  Values carry the
      types of the backend schema (names and URLs are strings, the sizes of
      the Graph API are integers); Python [int] is [Z].  The ['Length'] of the
      REST API is kept as the JSON value that arrives, since the schema of
      [odata=verbose] makes it a string and the walk adds it to a number.
    - [requests.get] is a function from the URL to a [Response]: either the
      call raises, or it answers with a status code and a decoded body.  The
      backend answers a URL in the same way throughout a walk.  Every
      function that calls it also returns the list of URLs it requested, in
      order (the request log).
    - The [while] loop over pages and the recursion over folders need not
      terminate on an arbitrary backend, so both take a [fuel] argument;
      [None] means that the budget ran out before the Python function would
      have returned.
    - [print] and the human-readable [format_size] strings do not influence any
      returned value and are left out of the walk: standard output is taken
      to accept every text, and sizes to stay below the [2^1024] from which
      on [format_size] cannot turn them into a float.  The recursion limit of
      the interpreter is not modelled either. *)

From Stdlib Require Import String Ascii List ZArith Lia Bool Sorted Permutation.
From Stdlib Require DecimalString DecimalZ DecimalPos DecimalFacts.
Import ListNotations.

Set Warnings "-register-all".
Local Open Scope Z_scope.
Local Open Scope list_scope.

(** ** Python helpers *)

(** [d.get(k, dflt)] on a field that may be absent. *)
Definition get_or {A : Type} (dflt : A) (o : option A) : A :=
  match o with Some a => a | None => dflt end.

(** Truth value of an optional string: [None] and [''] are falsy. *)
Definition truthy (s : option string) : bool :=
  match s with
  | Some s => negb (String.eqb s EmptyString)
  | None => false
  end.

(** [s.startswith(p)] *)
Definition startswith (s p : string) : bool := String.prefix p s.

(** The system-folder test that all three variants spell out:
    [name.startswith('_') or name == 'Forms']. *)
Definition is_system_name (n : string) : bool :=
  startswith n "_" || String.eqb n "Forms".

(** [s.split('/')] *)
Fixpoint split_slash (s : string) : list string :=
  match s with
  | EmptyString => [EmptyString]
  | String c s' =>
      if Ascii.eqb c "/" then EmptyString :: split_slash s'
      else match split_slash s' with
           | h :: t => String c h :: t
           | [] => [String c EmptyString]
           end
  end.

(** ['/'.join(parts)] *)
Fixpoint join_slash (parts : list string) : string :=
  match parts with
  | [] => EmptyString
  | [x] => x
  | x :: rest => (x ++ "/" ++ join_slash rest)%string
  end.

(** [s.lstrip('/')], [s.rstrip('/')] and [s.strip('/')] *)
Fixpoint lstrip_slash (s : string) : string :=
  match s with
  | String c s' => if Ascii.eqb c "/" then lstrip_slash s' else s
  | EmptyString => EmptyString
  end.

Fixpoint rstrip_slash (s : string) : string :=
  match s with
  | String c s' =>
      match rstrip_slash s' with
      | EmptyString => if Ascii.eqb c "/" then EmptyString else String c EmptyString
      | t => String c t
      end
  | EmptyString => EmptyString
  end.

Definition strip_slash (s : string) : string := rstrip_slash (lstrip_slash s).

(** [os.path.basename(p)]: what follows the last ['/']. *)
Definition basename (p : string) : string := last (split_slash p) EmptyString.

(** [s in [...]] for a list of string literals. *)
Definition in_strings (s : string) (l : list string) : bool :=
  existsb (String.eqb s) l.

(** The three lines that every variant uses to drop a ['/sites/<name>/']
    prefix:
    [parts = p.split('/'); p = '/'.join(parts[3:]) if len(parts) > 3 else '']. *)
Definition drop_site_prefix (folder_path : string) : string :=
  let parts := split_slash folder_path in
  if (3 <? length parts)%nat then join_slash (skipn 3 parts) else EmptyString.

(** [sum(...)] over integers. *)
Definition zsum (l : list Z) : Z := fold_right Z.add 0 l.

(** ** Report model *)

(** The [file_info] dict built for every file. *)
Record FileInfo := mkFileInfo {
  f_name : string;
  f_size : Z;
  f_last_modified : string;
  f_path : string
}.

(** The [result] dict of [calculate_folder_size].  The ['id'] key exists only
    in [sharepoint_folder_size.py]; the two other variants leave it out, which
    is modelled by [None]. *)
Inductive ReportNode := Node {
  node_id : option string;
  path : string;
  name : string;
  total_size : Z;
  file_count : Z;
  folder_count : Z;
  files : list FileInfo;
  subfolders : list ReportNode
}.

(** Every node of a report tree, the root first. *)
Fixpoint nodes (n : ReportNode) : list ReportNode :=
  n :: flat_map nodes (subfolders n).

(** [result['files'].append(file_info)]; [result['total_size'] += size];
    [result['file_count'] += 1]. *)
Definition add_file (result : ReportNode) (file_info : FileInfo) : ReportNode :=
  Node (node_id result) (path result) (name result)
       (total_size result + f_size file_info)
       (file_count result + 1)
       (folder_count result)
       (files result ++ [file_info])
       (subfolders result).

(** [result['subfolders'].append(sub)] followed by the three [+=] lines that
    fold the child's totals into the parent. *)
Definition add_subfolder (result sub : ReportNode) : ReportNode :=
  Node (node_id result) (path result) (name result)
       (total_size result + total_size sub)
       (file_count result + file_count sub)
       (folder_count result + folder_count sub)
       (files result)
       (subfolders result ++ [sub]).

(** [result['folder_count'] = v] *)
Definition set_folder_count (result : ReportNode) (v : Z) : ReportNode :=
  Node (node_id result) (path result) (name result)
       (total_size result) (file_count result) v
       (files result) (subfolders result).

(** [result['folder_count'] += 1] *)
Definition incr_folder_count (result : ReportNode) : ReportNode :=
  set_folder_count result (folder_count result + 1).

(** One round of the subfolder loop of the two path-addressed variants:
    [folder_count += 1], then the child is appended and folded in. *)
Definition add_counted_subfolder (result sub : ReportNode) : ReportNode :=
  add_subfolder (incr_folder_count result) sub.

(** The tail of [main()], alike in the three variants:
    [if result: ... else: ...; sys.exit(1)].  A result dict is never empty,
    hence truthy; the value is the exit status of the process. *)
Definition main_exit_status {A : Type} (result : option A) : Z :=
  match result with
  | Some _ => 0
  | None => 1
  end.

(** The three equations of the aggregation law at one node. *)
Definition aggregation_law (n : ReportNode) : Prop :=
  total_size n = zsum (map f_size (files n)) + zsum (map total_size (subfolders n))
  /\ file_count n = Z.of_nat (length (files n)) + zsum (map file_count (subfolders n))
  /\ folder_count n = Z.of_nat (length (subfolders n)) + zsum (map folder_count (subfolders n)).

(** ** Graph API wire model (shared by [FolderSize] and [GraphApi]) *)

(** A driveItem as the code inspects it. *)
Record Item := mkItem {
  has_folder : bool;                         (* 'folder' in item *)
  has_file : bool;                           (* 'file' in item *)
  it_name : option string;                   (* item['name'] *)
  it_id : option string;                     (* item['id'] *)
  it_size : option Z;                        (* item['size'] *)
  it_lastModifiedDateTime : option string;
  it_webUrl : option string
}.

(** The decoded body of a listing answer: [data.get('value', [])] and
    [data.get('@odata.nextLink')]. *)
Record Page := mkPage {
  value : list Item;
  nextLink : option string
}.

(** What [requests.get(url)] followed by [response.json()] does; [A] is the
    shape of the decoded body. *)
Inductive Response (A : Type) :=
| Raises                                     (* an exception is raised *)
| Status (status_code : Z) (data : A).

Arguments Raises {A}.
Arguments Status {A} status_code data.

(** The listing endpoints of the Graph API. *)
Definition Backend := string -> Response Page.

(** The [file_info] dict of the two Graph variants. *)
Definition file_info_of (file : Item) : FileInfo :=
  mkFileInfo (get_or EmptyString (it_name file))
             (get_or 0 (it_size file))
             (get_or EmptyString (it_lastModifiedDateTime file))
             (get_or EmptyString (it_webUrl file)).

(** ** Site and drive lookup (shared by [FolderSize] and [GraphApi]) *)

(** The decoded body of [GET /sites/{hostname}:/{site_path}]. *)
Record Site := mkSite {
  st_id : option string;                     (* site_data.get('id') *)
  st_displayName : option string             (* only printed *)
}.

(** An entry of the ['value'] list of [GET /sites/{site_id}/drives]. *)
Record Drive := mkDrive {
  dr_name : option string;                   (* drive.get('name') *)
  dr_id : option string                      (* drive.get('id') *)
}.

(** [s.replace('https://', '')]: every occurrence is removed, from left to
    right; [skip] counts the characters of an occurrence that are still to
    be dropped. *)
Fixpoint remove_https_from (skip : nat) (s : string) : string :=
  match s with
  | EmptyString => EmptyString
  | String c s' =>
      match skip with
      | S k => remove_https_from k s'
      | O =>
          if String.prefix "https://" s then remove_https_from 7 s'
          else String c (remove_https_from 0 s')
      end
  end.

Definition remove_https (s : string) : string := remove_https_from 0 s.

(** What an f-string makes of a value that may be [None]. *)
Definition fstring (o : option string) : string := get_or "None"%string o.

(** The address of the site: [parts = site_url.replace('https://', '').split('/')],
    [hostname = parts[0]], [site_path = '/'.join(parts[1:])] and the f-string
    that both variants build from them. *)
Definition site_api_url (site_url : string) : string :=
  let parts := split_slash (remove_https site_url) in
  let hostname := hd EmptyString parts in
  let site_path := join_slash (tl parts) in
  ("https://graph.microsoft.com/v1.0/sites/" ++ hostname ++ ":/" ++ site_path)%string.

(** The address of the drives of a site. *)
Definition drives_url (site_id : option string) : string :=
  ("https://graph.microsoft.com/v1.0/sites/" ++ fstring site_id ++ "/drives")%string.

(** [drive.get('name') in ['Documents', 'Shared Documents']] *)
Definition is_document_library (drive : Drive) : bool :=
  match dr_name drive with
  | Some n => in_strings n ["Documents"; "Shared Documents"]%string
  | None => false
  end.

(** The [for drive in drives] loop, which returns at the first document
    library, followed by [if drives: ... drives[0]]: the drive that both
    variants settle on, if any. *)
Definition pick_drive (drives : list Drive) : option Drive :=
  match find is_document_library drives with
  | Some drive => Some drive
  | None =>
      match drives with
      | first :: _ => Some first
      | [] => None
      end
  end.

(** ** sharepoint_folder_size.py *)

Module FolderSize.
Section Walk.

Variable backend : Backend.
Variables site_id drive_id : string.

(** The f-string of [get_folder_children]. *)
Definition children_url (folder_id : string) : string :=
  ("https://graph.microsoft.com/v1.0/sites/" ++ site_id ++ "/drives/" ++ drive_id
     ++ "/items/" ++ folder_id ++ "/children")%string.

(** The [for item in items] loop of one page.  [files] and [folders] are the
    two lists being appended to; the boolean tells whether [item['name']]
    raised, in which case the lists keep what was appended before. *)
Fixpoint scan_items (items : list Item) (files folders : list Item)
  : list Item * list Item * bool :=
  match items with
  | [] => (files, folders, false)
  | item :: rest =>
      if has_folder item then
        match it_name item with
        | None => (files, folders, true)
        | Some n =>
            if negb (is_system_name n)
            then scan_items rest files (folders ++ [item])
            else scan_items rest files folders
        end
      else if has_file item then scan_items rest (files ++ [item]) folders
      else scan_items rest files folders
  end.

(** The [while api_url] loop inside the [try].  Any exception leaves the loop
    through the handler, which prints and falls through to the [return]. *)
Fixpoint page_loop (fuel : nat) (api_url : option string)
         (files folders : list Item) (log : list string)
  : option (list Item * list Item * list string) :=
  match fuel with
  | O => None
  | S fuel' =>
      match api_url with
      | Some url =>
          if truthy api_url then
            match backend url with
            | Raises => Some (files, folders, log ++ [url])
            | Status code data =>
                if code =? 200 then
                  match scan_items (value data) files folders with
                  | (files', folders', true) => Some (files', folders', log ++ [url])
                  | (files', folders', false) =>
                      page_loop fuel' (nextLink data) files' folders' (log ++ [url])
                  end
                else Some (files, folders, log ++ [url])
            end
          else Some (files, folders, log)
      | None => Some (files, folders, log)
      end
  end.

Definition get_folder_children (fuel : nat) (folder_id : string)
  : option (list Item * list Item * list string) :=
  page_loop fuel (Some (children_url folder_id)) [] [] [].

(** The [for folder in folders] loop; [rec] is the recursive call. *)
Fixpoint process_subfolders (rec : Item -> option (ReportNode * list string))
         (folders : list Item) (result : ReportNode) (log : list string)
  : option (ReportNode * list string) :=
  match folders with
  | [] => Some (result, log)
  | folder :: rest =>
      match rec folder with
      | None => None
      | Some (subfolder_result, sublog) =>
          process_subfolders rec rest (add_subfolder result subfolder_result)
                             (log ++ sublog)
      end
  end.

(** The initial [result] dict. *)
Definition empty_result (folder_item : Item) : ReportNode :=
  Node (it_id folder_item)
       (get_or EmptyString (it_webUrl folder_item))
       (get_or "Unknown"%string (it_name folder_item))
       0 0 0 [] [].

(** [calculate_folder_size].  On items typed as above no statement of its
    [try] block can raise ([get_folder_children] has its own handler), so the
    handler of this function is never entered. *)
Fixpoint calculate_folder_size (fuel : nat) (folder_item : Item)
  : option (ReportNode * list string) :=
  match fuel with
  | O => None
  | S fuel' =>
      let result := empty_result folder_item in
      let folder_id := it_id folder_item in
      if negb (truthy folder_id) then Some (result, [])
      else
        match get_folder_children fuel' (get_or EmptyString folder_id) with
        | None => None
        | Some (files, folders, log) =>
            let result := fold_left add_file (map file_info_of files) result in
            let result := set_folder_count result (Z.of_nat (length folders)) in
            process_subfolders (calculate_folder_size fuel') folders result log
        end
  end.

End Walk.
(** [FolderSizeCalculator.analyze_site] and the path resolution it relies
    on.  The answer of [get_site_and_drive] (two GETs decoded into a triple,
    all [None] on any failure) is taken as it comes; [quote] is
    [urllib.parse.quote].  The outer [option] of [analyze_site] is the fuel of
    the walk, the inner one is Python's [Optional]: [None] is the explicit
    failure that [main] turns into exit status 1. *)
Section Analyze.

Variable backend : Backend.
Variable item_backend : string -> Response (option Item).
Variable get_site_and_drive : string -> option string * option string * option string.
Variable quote : string -> string.

Definition get_drive_item_by_path (site_id drive_id item_path : string) : option Item :=
  let api_url :=
    if negb (truthy (Some item_path)) || String.eqb item_path "/" then
      ("https://graph.microsoft.com/v1.0/sites/" ++ site_id ++ "/drives/" ++ drive_id
         ++ "/root")%string
    else
      ("https://graph.microsoft.com/v1.0/sites/" ++ site_id ++ "/drives/" ++ drive_id
         ++ "/root:/" ++ quote item_path)%string in
  match item_backend api_url with
  | Raises => None
  | Status code body => if code =? 200 then body else None
  end.

Definition analyze_site (fuel : nat) (site_url folder_path : string)
  : option (option ReportNode) :=
  let '(site_id, drive_id, drive_name) := get_site_and_drive site_url in
  if negb (truthy site_id) || negb (truthy drive_id) then Some None
  else
    let site_id := get_or EmptyString site_id in
    let drive_id := get_or EmptyString drive_id in
    let folder_path :=
      if truthy (Some folder_path) then
        let folder_path :=
          if startswith folder_path "/sites/" then drop_site_prefix folder_path
          else folder_path in
        strip_slash folder_path
      else folder_path in
    let folder_item :=
      if negb (truthy (Some folder_path))
         || in_strings folder_path [EmptyString; "Shared Documents"; "Documents"]%string
      then get_drive_item_by_path site_id drive_id EmptyString
      else get_drive_item_by_path site_id drive_id folder_path in
    match folder_item with
    | None => Some None
    | Some folder_item =>
        match calculate_folder_size backend site_id drive_id fuel folder_item with
        | None => None
        | Some (result, _) => Some (Some result)
        end
    end.

End Analyze.

(** The row stream of [export_to_csv].  A cell is what [writer.writerow]
    receives: a string or an integer.  [format_size] works on floats and is
    kept abstract. *)
Inductive Cell :=
| CStr (s : string)
| CInt (z : Z).

Definition Row := list Cell.

Section CsvExport.

Variable format_size : Z -> string.

Definition header_row : Row :=
  [CStr "Path"; CStr "Name"; CStr "Type"; CStr "Size (bytes)";
   CStr "Size (formatted)"; CStr "File Count"; CStr "Folder Count"]%string.

Definition folder_row (folder_data : ReportNode) : Row :=
  [CStr (path folder_data); CStr (name folder_data); CStr "Folder";
   CInt (total_size folder_data); CStr (format_size (total_size folder_data));
   CInt (file_count folder_data); CInt (folder_count folder_data)].

Definition file_row (file : FileInfo) : Row :=
  [CStr (f_path file); CStr (f_name file); CStr "File";
   CInt (f_size file); CStr (format_size (f_size file));
   CInt 0; CInt 0].

(** [writer.writerow(row)] appends to the rows written so far. *)
Definition writerow (written : list Row) (row : Row) : list Row := written ++ [row].

(** The nested [write_folder_data]; the writer state is threaded through. *)
Fixpoint write_folder_data (folder_data : ReportNode) (written : list Row) : list Row :=
  let written := writerow written (folder_row folder_data) in
  let written := fold_left (fun w file => writerow w (file_row file))
                           (files folder_data) written in
  fold_left (fun w subfolder => write_folder_data subfolder w)
            (subfolders folder_data) written.

Definition export_to_csv (result : ReportNode) : list Row :=
  write_folder_data result (writerow [] header_row).

End CsvExport.

(** The pre-order flattening in the words of the specification: the row of
    the folder, then one row per direct file, then the rows of every
    subfolder in order. *)
Fixpoint preorder_rows (format_size : Z -> string) (n : ReportNode) : list Row :=
  folder_row format_size n
  :: map (file_row format_size) (files n)
  ++ flat_map (preorder_rows format_size) (subfolders n).

(** [export_to_json] hands the [result] dict to [json.dump(..., default=str)].
    Python values and JSON documents are kept apart: a tuple is written as an
    array and an object that [json] cannot encode is written as the string
    that [default=str] makes of it, so loading a dumped value need not give
    the value back.  The text layer of the [json] module (printing with
    [indent=2], parsing) is library code; it is modelled apart, in [PyJson]. *)
Inductive PyVal :=
| PyNone
| PyInt (z : Z)
| PyStr (s : string)
| PyList (items : list PyVal)
| PyTuple (items : list PyVal)
| PyDict (entries : list (string * PyVal))
| PyObject (str : string).                   (* anything else; [str] is [str(obj)] *)

Inductive Json :=
| JNull
| JNumber (z : Z)
| JString (s : string)
| JArray (items : list Json)
| JObject (members : list (string * Json)).

(** [json.dump(v, default=str)], up to the text layer. *)
Fixpoint json_dump (v : PyVal) : Json :=
  match v with
  | PyNone => JNull
  | PyInt z => JNumber z
  | PyStr s => JString s
  | PyList items => JArray (map json_dump items)
  | PyTuple items => JArray (map json_dump items)
  | PyDict entries => JObject (map (fun kv => (fst kv, json_dump (snd kv))) entries)
  | PyObject str => JString str
  end.

(** [json.load], up to the text layer. *)
Fixpoint json_load (j : Json) : PyVal :=
  match j with
  | JNull => PyNone
  | JNumber z => PyInt z
  | JString s => PyStr s
  | JArray items => PyList (map json_load items)
  | JObject members => PyDict (map (fun kv => (fst kv, json_load (snd kv))) members)
  end.

(** The [file_info] dict, keys in insertion order. *)
Definition file_dict (file : FileInfo) : PyVal :=
  PyDict [("name", PyStr (f_name file));
          ("size", PyInt (f_size file));
          ("last_modified", PyStr (f_last_modified file));
          ("path", PyStr (f_path file))]%string.

(** The [result] dict of [calculate_folder_size], keys in insertion order. *)
Fixpoint result_dict (result : ReportNode) : PyVal :=
  PyDict [("id", match node_id result with Some i => PyStr i | None => PyNone end);
          ("path", PyStr (path result));
          ("name", PyStr (name result));
          ("total_size", PyInt (total_size result));
          ("file_count", PyInt (file_count result));
          ("folder_count", PyInt (folder_count result));
          ("files", PyList (map file_dict (files result)));
          ("subfolders", PyList (map result_dict (subfolders result)))]%string.

Definition export_to_json (result : ReportNode) : Json :=
  json_dump (result_dict result).

(** [GraphClient.get_site_and_drive]: two GETs; every failure, an exception
    included, ends in [(None, None, None)]. *)
Section Lookup.

Variable site_backend : string -> Response Site.
Variable drives_backend : string -> Response (list Drive).

Definition get_site_and_drive (site_url : string)
  : option string * option string * option string :=
  match site_backend (site_api_url site_url) with
  | Raises => (None, None, None)
  | Status code site_data =>
      if code =? 200 then
        let site_id := st_id site_data in
        match drives_backend (drives_url site_id) with
        | Raises => (None, None, None)
        | Status drives_code drives =>
            if drives_code =? 200 then
              match pick_drive drives with
              | Some drive => (site_id, dr_id drive, dr_name drive)
              | None => (None, None, None)
              end
            else (None, None, None)
        end
      else (None, None, None)
  end.

End Lookup.

(** [analyze_site] on top of the lookup above: the whole of
    [FolderSizeCalculator.analyze_site] against the four endpoints it
    talks to. *)
Definition analyze_site_at (backend : Backend)
           (item_backend : string -> Response (option Item))
           (site_backend : string -> Response Site)
           (drives_backend : string -> Response (list Drive))
           (quote : string -> string)
           (fuel : nat) (site_url folder_path : string)
  : option (option ReportNode) :=
  analyze_site backend item_backend
               (get_site_and_drive site_backend drives_backend) quote
               fuel site_url folder_path.

End FolderSize.

(** ** sharepoint_graph_api.py *)

Module GraphApi.
Section Walk.

Variable backend : Backend.
Variables site_id drive_id : string.

(** The [for item in items] loop of [get_folder_items]: no filter here. *)
Fixpoint scan_items (items : list Item) (files folders : list Item)
  : list Item * list Item :=
  match items with
  | [] => (files, folders)
  | item :: rest =>
      if has_folder item then scan_items rest files (folders ++ [item])
      else if has_file item then scan_items rest (files ++ [item]) folders
      else scan_items rest files folders
  end.

Fixpoint page_loop (fuel : nat) (api_url : option string)
         (files folders : list Item) (log : list string)
  : option (list Item * list Item * list string) :=
  match fuel with
  | O => None
  | S fuel' =>
      match api_url with
      | Some url =>
          if truthy api_url then
            match backend url with
            | Raises => Some (files, folders, log ++ [url])
            | Status code data =>
                if code =? 200 then
                  let '(files', folders') := scan_items (value data) files folders in
                  page_loop fuel' (nextLink data) files' folders' (log ++ [url])
                else Some (files, folders, log ++ [url])
            end
          else Some (files, folders, log)
      | None => Some (files, folders, log)
      end
  end.

(** The URL that [get_folder_items] starts from. *)
Definition items_url (folder_path : string) : string :=
  let folder_path :=
    if startswith folder_path "/sites/" then drop_site_prefix folder_path
    else folder_path in
  if truthy (Some folder_path)
     && negb (in_strings folder_path ["/"; EmptyString; "Shared Documents"]%string)
  then ("https://graph.microsoft.com/v1.0/sites/" ++ site_id ++ "/drives/" ++ drive_id
          ++ "/root:/" ++ folder_path ++ ":/children")%string
  else ("https://graph.microsoft.com/v1.0/sites/" ++ site_id ++ "/drives/" ++ drive_id
          ++ "/root/children")%string.

Definition get_folder_items (fuel : nat) (folder_path : string)
  : option (list Item * list Item * list string) :=
  page_loop fuel (Some (items_url folder_path)) [] [] [].

(** The [for folder in folders] loop; [rec path name] is the recursive call. *)
Fixpoint process_subfolders
         (rec : string -> option string -> option (ReportNode * list string))
         (folders : list Item) (result : ReportNode) (log : list string)
  : option (ReportNode * list string) :=
  match folders with
  | [] => Some (result, log)
  | folder :: rest =>
      let folder_name := get_or EmptyString (it_name folder) in
      if is_system_name folder_name then process_subfolders rec rest result log
      else
        let result := incr_folder_count result in
        let subfolder_path := folder_name in
        match rec subfolder_path (Some folder_name) with
        | None => None
        | Some (subfolder_result, sublog) =>
            process_subfolders rec rest (add_subfolder result subfolder_result)
                               (log ++ sublog)
        end
  end.

(** [folder_name or os.path.basename(folder_path) or 'Root'] *)
Definition display_name (folder_path : string) (folder_name : option string) : string :=
  if truthy folder_name then get_or EmptyString folder_name
  else if truthy (Some (basename folder_path)) then basename folder_path
  else "Root"%string.

Definition empty_result (folder_path : string) (folder_name : option string) : ReportNode :=
  Node None folder_path (display_name folder_path folder_name) 0 0 0 [] [].

(** [calculate_folder_size]; as in [FolderSize] nothing inside its [try]
    block raises on typed items. *)
Fixpoint calculate_folder_size (fuel : nat) (folder_path : string)
         (folder_name : option string) : option (ReportNode * list string) :=
  match fuel with
  | O => None
  | S fuel' =>
      let result := empty_result folder_path folder_name in
      match get_folder_items fuel' folder_path with
      | None => None
      | Some (files, folders, log) =>
          let result := fold_left add_file (map file_info_of files) result in
          process_subfolders (calculate_folder_size fuel') folders result log
      end
  end.

End Walk.

(** [GraphClient.get_site_id] and [GraphClient.get_drive_id]: [None] on a
    status other than 200 and on any exception. *)
Section Lookup.

Variable site_backend : string -> Response Site.
Variable drives_backend : string -> Response (list Drive).

Definition get_site_id (site_url : string) : option string :=
  match site_backend (site_api_url site_url) with
  | Raises => None
  | Status code site_data => if code =? 200 then st_id site_data else None
  end.

Definition get_drive_id (site_id : string) : option string :=
  match drives_backend (drives_url (Some site_id)) with
  | Raises => None
  | Status code drives =>
      if code =? 200 then
        match pick_drive drives with
        | Some drive => dr_id drive
        | None => None
        end
      else None
  end.

End Lookup.

(** [FolderSizeCalculator.analyze_site]; [get_site_id] and [get_drive_id] are
    taken as they answer ([None] on failure). *)
Definition analyze_site (backend : Backend)
           (get_site_id : string -> option string)
           (get_drive_id : string -> option string)
           (fuel : nat) (site_url folder_path : string)
  : option (option ReportNode) :=
  let site_id := get_site_id site_url in
  if negb (truthy site_id) then Some None
  else
    let site_id := get_or EmptyString site_id in
    let drive_id := get_drive_id site_id in
    if negb (truthy drive_id) then Some None
    else
      let drive_id := get_or EmptyString drive_id in
      let folder_path :=
        if startswith folder_path "/sites/" then drop_site_prefix folder_path
        else folder_path in
      match calculate_folder_size backend site_id drive_id fuel folder_path None with
      | None => None
      | Some (result, _) => Some (Some result)
      end.

(** [analyze_site] on top of the two lookups. *)
Definition analyze_site_at (backend : Backend)
           (site_backend : string -> Response Site)
           (drives_backend : string -> Response (list Drive))
           (fuel : nat) (site_url folder_path : string)
  : option (option ReportNode) :=
  analyze_site backend (get_site_id site_backend) (get_drive_id drives_backend)
               fuel site_url folder_path.

End GraphApi.

(** ** sharepoint_folder_size_v2.py *)

Module FolderSizeV2.

(** An entry of the ['d']['results'] list of the SharePoint REST API, file or
    folder.  ['Length'] is kept as the JSON value that arrived: the client
    asks for [odata=verbose], in which the API writes a length as a string,
    and the code uses the value as it comes. *)
Record RestItem := mkRestItem {
  Name : option string;
  Length : option FolderSize.Json;
  TimeLastModified : option string;
  ServerRelativeUrl : option string
}.

Definition RestBackend := string -> Response (list RestItem).

(** The [file_info] dict of this variant: ['size'] holds whatever ['Length']
    held. *)
Record FileInfo := mkFileInfo {
  f_name : string;
  f_size : FolderSize.Json;
  f_last_modified : string;
  f_path : string
}.

(** The [result] dict of this variant; it has no ['id'] key.  The counters
    start at [0] and only numbers are ever added to them. *)
Inductive ReportNode := Node {
  path : string;
  name : string;
  total_size : Z;
  file_count : Z;
  folder_count : Z;
  files : list FileInfo;
  subfolders : list ReportNode
}.

(** Every node of a report tree, the root first. *)
Fixpoint nodes (n : ReportNode) : list ReportNode :=
  n :: flat_map nodes (subfolders n).

(** [result['files'].append(file_info)] *)
Definition append_file (result : ReportNode) (file_info : FileInfo) : ReportNode :=
  Node (path result) (name result)
       (total_size result) (file_count result) (folder_count result)
       (files result ++ [file_info])
       (subfolders result).

(** [result['total_size'] += size] for a number [size], then
    [result['file_count'] += 1]. *)
Definition count_file (result : ReportNode) (size : Z) : ReportNode :=
  Node (path result) (name result)
       (total_size result + size) (file_count result + 1) (folder_count result)
       (files result)
       (subfolders result).

(** [result['folder_count'] += 1] *)
Definition incr_folder_count (result : ReportNode) : ReportNode :=
  Node (path result) (name result)
       (total_size result) (file_count result) (folder_count result + 1)
       (files result)
       (subfolders result).

(** [result['subfolders'].append(sub)] followed by the three [+=] lines that
    fold the child's totals into the parent. *)
Definition add_subfolder (result sub : ReportNode) : ReportNode :=
  Node (path result) (name result)
       (total_size result + total_size sub)
       (file_count result + file_count sub)
       (folder_count result + folder_count sub)
       (files result)
       (subfolders result ++ [sub]).

(** One round of the subfolder loop: [folder_count += 1], then the child is
    appended and folded in. *)
Definition add_counted_subfolder (result sub : ReportNode) : ReportNode :=
  add_subfolder (incr_folder_count result) sub.

(** A call either returns or raises. *)
Inductive outcome (A : Type) :=
| Raised
| Returned (a : A).

Arguments Raised {A}.
Arguments Returned {A} a.

(** How a loop over the mutable [result] ends: it runs through, or an
    exception leaves it.  [result] is as the loop left it in both cases. *)
Inductive loop_end :=
| Completed (result : ReportNode)
| Interrupted (result : ReportNode).

Section Walk.

Variable backend : RestBackend.
Variable site_url : string.
Variable quote : string -> string.

Definition files_url (folder_path : string) : string :=
  (site_url ++ "/_api/web/GetFolderByServerRelativeUrl('" ++ quote folder_path
     ++ "')/Files")%string.

Definition folders_url (folder_path : string) : string :=
  (site_url ++ "/_api/web/GetFolderByServerRelativeUrl('" ++ quote folder_path
     ++ "')/Folders")%string.

(** [[f for f in folders if not f['Name'].startswith('_') and f['Name'] != 'Forms']];
    a folder without ['Name'] raises [KeyError]. *)
Fixpoint filter_system_folders (folders : list RestItem) : outcome (list RestItem) :=
  match folders with
  | [] => Returned []
  | f :: rest =>
      match Name f with
      | None => Raised
      | Some n =>
          match filter_system_folders rest with
          | Raised => Raised
          | Returned kept =>
              if negb (startswith n "_") && negb (String.eqb n "Forms")
              then Returned (f :: kept) else Returned kept
          end
      end
  end.

(** [get_folder_items]: no handler of its own, so an exception of either
    request or of the filter leaves the function. *)
Definition get_folder_items (folder_path : string)
  : outcome (list RestItem * list RestItem) * list string :=
  match backend (files_url folder_path) with
  | Raises => (Raised, [files_url folder_path])
  | Status fcode fdata =>
      let files := if fcode =? 200 then fdata else [] in
      let log := [files_url folder_path; folders_url folder_path] in
      match backend (folders_url folder_path) with
      | Raises => (Raised, log)
      | Status dcode ddata =>
          if dcode =? 200 then
            match filter_system_folders ddata with
            | Raised => (Raised, log)
            | Returned folders => (Returned (files, folders), log)
            end
          else (Returned (files, []), log)
      end
  end.

Definition file_info_of (file : RestItem) : FileInfo :=
  mkFileInfo (get_or EmptyString (Name file))
             (get_or (FolderSize.JNumber 0) (Length file))
             (get_or EmptyString (TimeLastModified file))
             (get_or EmptyString (ServerRelativeUrl file)).

(** The [for file in files] loop.  The file is appended first; then
    [result['total_size'] += file_info['size']] adds a number, and raises
    [TypeError] on a string, on [None], on a list and on a dict, with the
    file already in [result['files']] and not yet counted. *)
Fixpoint process_files (file_entries : list RestItem) (result : ReportNode) : loop_end :=
  match file_entries with
  | [] => Completed result
  | file :: rest =>
      let file_info := file_info_of file in
      let result := append_file result file_info in
      match f_size file_info with
      | FolderSize.JNumber size => process_files rest (count_file result size)
      | _ => Interrupted result
      end
  end.

(** The [for folder in folders] loop; [rec] is the recursive call. *)
Fixpoint process_subfolders (rec : string -> option (ReportNode * list string))
         (folders : list RestItem) (result : ReportNode) (log : list string)
  : option (ReportNode * list string) :=
  match folders with
  | [] => Some (result, log)
  | folder :: rest =>
      let folder_path := get_or EmptyString (ServerRelativeUrl folder) in
      let result := incr_folder_count result in
      match rec folder_path with
      | None => None
      | Some (subfolder_result, sublog) =>
          process_subfolders rec rest (add_subfolder result subfolder_result)
                             (log ++ sublog)
      end
  end.

Definition empty_result (folder_path : string) : ReportNode :=
  Node folder_path
       (if truthy (Some (basename folder_path)) then basename folder_path
        else "Root"%string)
       0 0 0 [] [].

(** [calculate_folder_size]: one [try] block holds the listing and the two
    loops, and its handler only prints, so [result] is returned as the
    exception found it: untouched when [get_folder_items] raises, with the
    files appended so far when the file loop raises, the subfolders not
    walked in either case. *)
Fixpoint calculate_folder_size (fuel : nat) (folder_path : string)
  : option (ReportNode * list string) :=
  match fuel with
  | O => None
  | S fuel' =>
      let result := empty_result folder_path in
      match get_folder_items folder_path with
      | (Raised, log) => Some (result, log)
      | (Returned (file_entries, folders), log) =>
          match process_files file_entries result with
          | Interrupted result => Some (result, log)
          | Completed result =>
              process_subfolders (calculate_folder_size fuel') folders result log
          end
      end
  end.

(** [FolderSizeCalculator.analyze_folder] *)
Definition analyze_folder (fuel : nat) (folder_path : string)
  : option (option ReportNode) :=
  match calculate_folder_size fuel folder_path with
  | None => None
  | Some (result, _) => Some (Some result)
  end.

End Walk.

(** The aggregation law at a node of this variant: the sizes of its files
    are numbers and the three equations hold. *)
Definition aggregation_law (n : ReportNode) : Prop :=
  exists sizes : list Z,
    map f_size (files n) = map FolderSize.JNumber sizes
    /\ total_size n = zsum sizes + zsum (map total_size (subfolders n))
    /\ file_count n = Z.of_nat (length (files n)) + zsum (map file_count (subfolders n))
    /\ folder_count n
       = Z.of_nat (length (subfolders n)) + zsum (map folder_count (subfolders n)).

(** A node as the handler returns it after the file loop was left at a size
    that is not a number: that file is the last of [files], the counters
    count the files before it, and there is no subfolder. *)
Definition interrupted_node (n : ReportNode) : Prop :=
  exists counted stray sizes,
    files n = counted ++ [stray]
    /\ map f_size counted = map FolderSize.JNumber sizes
    /\ (forall z, f_size stray <> FolderSize.JNumber z)
    /\ total_size n = zsum sizes
    /\ file_count n = Z.of_nat (length counted)
    /\ folder_count n = 0
    /\ subfolders n = [].

End FolderSizeV2.

(** ** The text layer of Python's [json] module

    [json.dump(obj, fp, indent=2, default=str)] writes the text of the
    document that [FolderSize.json_dump] makes of [obj]; this is the pure
    Python encoder of [json/encoder.py] ([_make_iterencode]), which is the one
    in use when [indent] is given.  [json.load] parses a text.

    - A character stands for a code point below 256.  With [ensure_ascii]
      (the default) every character outside [' '..'~'] is written as an
      escape; an escape [\uXXXX] above 255 is not read.
    - Numbers are integers and there are no booleans: a report holds neither
      floats nor [True]/[False], and the reader rejects them. *)
Module PyJson.

Import Decimal DecimalString.
Import FolderSize.

(** *** Printing *)

Definition dquote : ascii := "034"%char.
Definition backslash : ascii := "092"%char.
Definition newline : ascii := "010"%char.

(** ['\\u{0:04x}'.format(n)] for a code point below 256. *)
Definition hex_digit (n : N) : ascii :=
  if (n <? 10)%N then ascii_of_N (48 + n) else ascii_of_N (87 + n).

Definition unicode_escape (c : ascii) : string :=
  let n := N_of_ascii c in
  String backslash (String "u" (String "0" (String "0"
    (String (hex_digit (n / 16)) (String (hex_digit (n mod 16)) EmptyString))))).

(** [ESCAPE_DCT] and [ESCAPE_ASCII] of [json.encoder]. *)
Definition escape_char (c : ascii) : string :=
  if Ascii.eqb c backslash then String backslash (String backslash EmptyString)
  else if Ascii.eqb c dquote then String backslash (String dquote EmptyString)
  else if Ascii.eqb c "008" then String backslash (String "b" EmptyString)
  else if Ascii.eqb c "012" then String backslash (String "f" EmptyString)
  else if Ascii.eqb c "010" then String backslash (String "n" EmptyString)
  else if Ascii.eqb c "013" then String backslash (String "r" EmptyString)
  else if Ascii.eqb c "009" then String backslash (String "t" EmptyString)
  else if (N_of_ascii c <? 32)%N || (126 <? N_of_ascii c)%N then unicode_escape c
  else String c EmptyString.

Fixpoint escape_string (s : string) : string :=
  match s with
  | EmptyString => EmptyString
  | String c s' => (escape_char c ++ escape_string s')%string
  end.

Definition encode_string (s : string) : string :=
  String dquote (escape_string s ++ String dquote EmptyString).

Definition print_int (z : Z) : string := NilEmpty.string_of_int (Z.to_int z).

Fixpoint spaces (n : nat) : string :=
  match n with O => EmptyString | S n' => String " " (spaces n') end.

(** ['\n' + ' ' * (indent * level)] with [indent = 2]. *)
Definition newline_indent (level : nat) : string :=
  String newline (spaces (2 * level)).

(** [',' + newline_indent]: what comes between two elements. *)
Definition item_separator (level : nat) : string :=
  String "," (newline_indent level).

(** The elements after the first: each comes after [sep]. *)
Fixpoint print_more (pr : Json -> string) (sep : string) (l : list Json) : string :=
  match l with
  | [] => EmptyString
  | x :: l' => (sep ++ pr x ++ print_more pr sep l')%string
  end.

Definition print_member (pr : Json -> string) (kv : string * Json) : string :=
  (encode_string (fst kv) ++ ": " ++ pr (snd kv))%string.

Fixpoint print_more_members (pr : Json -> string) (sep : string)
         (l : list (string * Json)) : string :=
  match l with
  | [] => EmptyString
  | kv :: l' => (sep ++ print_member pr kv ++ print_more_members pr sep l')%string
  end.

(** [json.dumps(j, indent=2)]: [_iterencode] at nesting depth [level]. *)
Fixpoint print_json (level : nat) (j : Json) : string :=
  match j with
  | JNull => "null"
  | JNumber z => print_int z
  | JString s => encode_string s
  | JArray [] => "[]"
  | JArray (first :: others) =>
      ("[" ++ newline_indent (S level) ++ print_json (S level) first
       ++ print_more (print_json (S level)) (item_separator (S level)) others
       ++ newline_indent level ++ "]")%string
  | JObject [] => "{}"
  | JObject (first :: others) =>
      ("{" ++ newline_indent (S level) ++ print_member (print_json (S level)) first
       ++ print_more_members (print_json (S level)) (item_separator (S level)) others
       ++ newline_indent level ++ "}")%string
  end.

(** *** Parsing *)

Definition is_ws (c : ascii) : bool :=
  Ascii.eqb c " " || Ascii.eqb c "009" || Ascii.eqb c "010" || Ascii.eqb c "013".

Fixpoint skip_ws (s : string) : string :=
  match s with
  | String c s' => if is_ws c then skip_ws s' else s
  | EmptyString => EmptyString
  end.

Definition digit_of (c : ascii) : option (uint -> uint) :=
  if Ascii.eqb c "0" then Some D0 else if Ascii.eqb c "1" then Some D1
  else if Ascii.eqb c "2" then Some D2 else if Ascii.eqb c "3" then Some D3
  else if Ascii.eqb c "4" then Some D4 else if Ascii.eqb c "5" then Some D5
  else if Ascii.eqb c "6" then Some D6 else if Ascii.eqb c "7" then Some D7
  else if Ascii.eqb c "8" then Some D8 else if Ascii.eqb c "9" then Some D9
  else None.

(** The longest run of digits at the head of [s]. *)
Fixpoint read_digits (s : string) : uint * string :=
  match s with
  | String c s' =>
      match digit_of c with
      | Some digit => let (d, rest) := read_digits s' in (digit d, rest)
      | None => (Nil, s)
      end
  | EmptyString => (Nil, EmptyString)
  end.

(** An integer literal: an optional sign and digits without a leading zero. *)
Definition parse_number (s : string) : option (Z * string) :=
  match s with
  | String c s' =>
      if Ascii.eqb c "-" then
        let (d, rest) := read_digits s' in
        if uint_beq (unorm d) d then Some (Z.of_int (Neg d), rest) else None
      else
        let (d, rest) := read_digits s in
        if uint_beq (unorm d) d then Some (Z.of_int (Pos d), rest) else None
  | EmptyString => None
  end.

Definition hex_value (c : ascii) : option N :=
  let n := N_of_ascii c in
  if (48 <=? n)%N && (n <=? 57)%N then Some (n - 48)%N
  else if (97 <=? n)%N && (n <=? 102)%N then Some (n - 87)%N
  else if (65 <=? n)%N && (n <=? 70)%N then Some (n - 55)%N
  else None.

Definition hex4 (h1 h2 h3 h4 : ascii) : option N :=
  match hex_value h1, hex_value h2, hex_value h3, hex_value h4 with
  | Some a, Some b, Some c, Some d => Some (((a * 16 + b) * 16 + c) * 16 + d)%N
  | _, _, _, _ => None
  end.

Definition cons_char (c : ascii) (r : option (string * string)) : option (string * string) :=
  match r with
  | Some (s, rest) => Some (String c s, rest)
  | None => None
  end.

(** The body of a string literal, after the opening quote. *)
Fixpoint parse_string (s : string) : option (string * string) :=
  match s with
  | EmptyString => None
  | String c s' =>
      if Ascii.eqb c dquote then Some (EmptyString, s')
      else if Ascii.eqb c backslash then
        match s' with
        | String e s'' =>
            if Ascii.eqb e dquote then cons_char dquote (parse_string s'')
            else if Ascii.eqb e backslash then cons_char backslash (parse_string s'')
            else if Ascii.eqb e "/" then cons_char "/" (parse_string s'')
            else if Ascii.eqb e "b" then cons_char "008" (parse_string s'')
            else if Ascii.eqb e "f" then cons_char "012" (parse_string s'')
            else if Ascii.eqb e "n" then cons_char "010" (parse_string s'')
            else if Ascii.eqb e "r" then cons_char "013" (parse_string s'')
            else if Ascii.eqb e "t" then cons_char "009" (parse_string s'')
            else if Ascii.eqb e "u" then
              match s'' with
              | String h1 (String h2 (String h3 (String h4 s3))) =>
                  match hex4 h1 h2 h3 h4 with
                  | Some n =>
                      if (n <? 256)%N then cons_char (ascii_of_N n) (parse_string s3)
                      else None
                  | None => None
                  end
              | _ => None
              end
            else None
        | EmptyString => None
        end
      else if (N_of_ascii c <? 32)%N then None
      else cons_char c (parse_string s')
  end.

(** [s] starts with [lit]: what is left of [s]. *)
Fixpoint expect (lit s : string) : option string :=
  match lit with
  | EmptyString => Some s
  | String c lit' =>
      match s with
      | String c' s' => if Ascii.eqb c c' then expect lit' s' else None
      | EmptyString => None
      end
  end.

Fixpoint parse_value (fuel : nat) (s : string) : option (Json * string) :=
  match fuel with
  | O => None
  | S fuel' =>
      match skip_ws s with
      | EmptyString => None
      | String c rest =>
          if Ascii.eqb c "n" then
            match expect "ull" rest with Some r => Some (JNull, r) | None => None end
          else if Ascii.eqb c dquote then
            match parse_string rest with
            | Some (str, r) => Some (JString str, r)
            | None => None
            end
          else if Ascii.eqb c "[" then
            match skip_ws rest with
            | String c' rest' =>
                if Ascii.eqb c' "]" then Some (JArray [], rest')
                else match parse_elements fuel' (String c' rest') with
                     | Some (items, r) => Some (JArray items, r)
                     | None => None
                     end
            | EmptyString => None
            end
          else if Ascii.eqb c "{" then
            match skip_ws rest with
            | String c' rest' =>
                if Ascii.eqb c' "}" then Some (JObject [], rest')
                else match parse_members fuel' (String c' rest') with
                     | Some (members, r) => Some (JObject members, r)
                     | None => None
                     end
            | EmptyString => None
            end
          else
            match parse_number (String c rest) with
            | Some (z, r) => Some (JNumber z, r)
            | None => None
            end
      end
  end
with parse_elements (fuel : nat) (s : string) : option (list Json * string) :=
  match fuel with
  | O => None
  | S fuel' =>
      match parse_value fuel' s with
      | Some (v, rest) =>
          match skip_ws rest with
          | String c rest' =>
              if Ascii.eqb c "," then
                match parse_elements fuel' rest' with
                | Some (vs, r) => Some (v :: vs, r)
                | None => None
                end
              else if Ascii.eqb c "]" then Some ([v], rest')
              else None
          | EmptyString => None
          end
      | None => None
      end
  end
with parse_members (fuel : nat) (s : string) : option (list (string * Json) * string) :=
  match fuel with
  | O => None
  | S fuel' =>
      match skip_ws s with
      | String q rest =>
          if Ascii.eqb q dquote then
            match parse_string rest with
            | Some (key, rest1) =>
                match skip_ws rest1 with
                | String colon rest2 =>
                    if Ascii.eqb colon ":" then
                      match parse_value fuel' rest2 with
                      | Some (v, rest3) =>
                          match skip_ws rest3 with
                          | String c rest4 =>
                              if Ascii.eqb c "," then
                                match parse_members fuel' rest4 with
                                | Some (ms, r) => Some ((key, v) :: ms, r)
                                | None => None
                                end
                              else if Ascii.eqb c "}" then Some ([(key, v)], rest4)
                              else None
                          | EmptyString => None
                          end
                      | None => None
                      end
                    else None
                | EmptyString => None
                end
            | None => None
            end
          else None
      | EmptyString => None
      end
  end.

(** A whole document: one value and nothing but white space after it. *)
Definition json_parse (fuel : nat) (s : string) : option Json :=
  match parse_value fuel s with
  | Some (j, rest) =>
      match skip_ws rest with
      | EmptyString => Some j
      | _ => None
      end
  | None => None
  end.

(** [json.dumps(obj, indent=2, default=str)]: the text that [json.dump]
    writes. *)
Definition dumps (obj : PyVal) : string := print_json 0 (json_dump obj).

(** [json.loads(text)]; [None] is a [JSONDecodeError].  The budget of the
    parser is the length of the text, which is enough for every text that
    [print_json] writes. *)
Definition loads (text : string) : option PyVal :=
  option_map json_load (json_parse (String.length text) text).

(** The text that [export_to_json] writes to [jsonfile]. *)
Definition export_to_json_text (result : ReportNode) : string :=
  dumps (result_dict result).

(** A text with every double quote shown as an apostrophe, for display. *)
Fixpoint apostrophes (s : string) : string :=
  match s with
  | EmptyString => EmptyString
  | String c s' => String (if Ascii.eqb c dquote then "'"%char else c) (apostrophes s')
  end.

(** *** Vocabulary of the round trip *)

(** A budget that is enough to parse the text of [j]. *)
Fixpoint json_fuel (j : Json) : nat :=
  match j with
  | JArray items => S (fold_right (fun x acc => S (json_fuel x + acc)) 0 items)%nat
  | JObject members =>
      S (fold_right (fun kv acc => S (json_fuel (snd kv) + acc)) 0 members)%nat
  | _ => 1%nat
  end.

(** [s] does not go on with a digit. *)
Definition no_digit_head (s : string) : Prop :=
  match s with
  | String c _ => digit_of c = None
  | EmptyString => True
  end.

(** The first character of a number. *)
Definition is_number_head (c : ascii) : bool :=
  match digit_of c with
  | Some _ => true
  | None => Ascii.eqb c "-"
  end.

(** A printed value starts with a character that is neither white space nor
    a closing bracket. *)
Definition is_value_head (c : ascii) : bool :=
  negb (is_ws c) && negb (Ascii.eqb c "]") && negb (Ascii.eqb c "}").

Definition elements_fuel (items : list Json) : nat :=
  fold_right (fun x acc => S (json_fuel x + acc))%nat 0%nat items.

Definition members_fuel (members : list (string * Json)) : nat :=
  fold_right (fun kv acc => S (json_fuel (snd kv) + acc))%nat 0%nat members.

(** What the round trip says of one value. *)
Definition parses_back (j : Json) : Prop :=
  forall level rest fuel,
    no_digit_head rest -> (json_fuel j <= fuel)%nat ->
    parse_value fuel (print_json level j ++ rest) = Some (j, rest).

End PyJson.

(** ** The text layer of Python's [csv] module

    [csv.writer(csvfile)] with the default dialect ([excel]: delimiter [','],
    the double quote as quote character, [doublequote], line terminator ['\r\n'],
    [QUOTE_MINIMAL]) and [csv.reader] with the same dialect, after
    [Modules/_csv.c] of CPython 3.11 and later (where no character is
    refused).  The file is opened with [newline=''], so the text is written
    as it is and read back line by line, a line ending at ['\n'], at ['\r']
    or at ['\r\n']. *)
Module PyCsv.

Definition quotechar : ascii := "034"%char.
Definition delimiter : ascii := ","%char.
Definition cr : ascii := "013"%char.
Definition lf : ascii := "010"%char.

Definition crlf : string := String cr (String lf EmptyString).

(** *** Writing *)

(** What [writerow] makes of a cell: a string as it is, a number through
    [str]. *)
Definition cell_text (c : FolderSize.Cell) : string :=
  match c with
  | FolderSize.CStr s => s
  | FolderSize.CInt z => PyJson.print_int z
  end.

(** The characters that make [QUOTE_MINIMAL] quote a field: the delimiter,
    the quote character and the characters of the line terminator. *)
Definition is_special (c : ascii) : bool :=
  Ascii.eqb c delimiter || Ascii.eqb c quotechar || Ascii.eqb c cr || Ascii.eqb c lf.

Fixpoint needs_quotes (s : string) : bool :=
  match s with
  | EmptyString => false
  | String c s' => is_special c || needs_quotes s'
  end.

(** [doublequote]: a quote character inside a field is written twice. *)
Fixpoint double_quotes (s : string) : string :=
  match s with
  | EmptyString => EmptyString
  | String c s' =>
      if Ascii.eqb c quotechar then String quotechar (String quotechar (double_quotes s'))
      else String c (double_quotes s')
  end.

(** [join_append]: one field of a record. *)
Definition write_field (s : string) : string :=
  if needs_quotes s then String quotechar (double_quotes s ++ String quotechar EmptyString)
  else s.

Fixpoint join_fields (fields : list string) : string :=
  match fields with
  | [] => EmptyString
  | [f] => f
  | f :: rest => f ++ String delimiter (join_fields rest)
  end.

(** [writerow]: the fields, the delimiter between them, the line
    terminator.  A record that would come out empty although it has a field
    (a single empty field) is written as a pair of quotes. *)
Definition write_record (fields : list string) : string :=
  match fields with
  | [EmptyString] => String quotechar (String quotechar crlf)
  | _ => join_fields (map write_field fields) ++ crlf
  end.

(** The text of a file written row by row. *)
Fixpoint csv_text (records : list (list string)) : string :=
  match records with
  | [] => EmptyString
  | record :: rest => write_record record ++ csv_text rest
  end.

(** The text that [export_to_csv] writes to [csvfile]. *)
Definition export_to_csv_text (format_size : Z -> string) (result : ReportNode) : string :=
  csv_text (map (map cell_text) (FolderSize.export_to_csv format_size result)).

(** *** Reading *)

(** The states of the parser ([ParserState]); the two states of an escape
    character are left out, the dialect has none. *)
Inductive State :=
| START_RECORD
| START_FIELD
| IN_FIELD
| IN_QUOTED_FIELD
| QUOTE_IN_QUOTED_FIELD
| EAT_CRNL.

(** The reader: its state, the fields of the record being read, the
    characters of the field being read, and the records returned so far. *)
Record Reader := mkReader {
  state : State;
  fields : list string;
  field : string;
  records : list (list string)
}.

Definition is_newline (c : ascii) : bool := Ascii.eqb c cr || Ascii.eqb c lf.

(** [parse_save_field], then the new state. *)
Definition save_field (r : Reader) (st : State) : Reader :=
  mkReader st (fields r ++ [field r]) EmptyString (records r).

(** [parse_add_char], then the new state. *)
Definition add_char (r : Reader) (c : ascii) (st : State) : Reader :=
  mkReader st (fields r) (field r ++ String c EmptyString) (records r).

Definition goto (r : Reader) (st : State) : Reader :=
  mkReader st (fields r) (field r) (records r).

(** The line is over with the parser back in [START_RECORD]: [__next__]
    returns the fields, and the next call starts afresh. *)
Definition return_record (r : Reader) : Reader :=
  mkReader START_RECORD [] EmptyString (records r ++ [fields r]).

(** The case [START_FIELD] of [parse_process_char]. *)
Definition start_field (r : Reader) (c : ascii) : Reader :=
  if is_newline c then save_field r EAT_CRNL
  else if Ascii.eqb c quotechar then goto r IN_QUOTED_FIELD
  else if Ascii.eqb c delimiter then save_field r START_FIELD
  else add_char r c IN_FIELD.

(** [parse_process_char] on a character of the line; [None] is the error
    of a character other than a line break in [EAT_CRNL]. *)
Definition process_char (r : Reader) (c : ascii) : option Reader :=
  match state r with
  | START_RECORD =>
      if is_newline c then Some (goto r EAT_CRNL) else Some (start_field r c)
  | START_FIELD => Some (start_field r c)
  | IN_FIELD =>
      if is_newline c then Some (save_field r EAT_CRNL)
      else if Ascii.eqb c delimiter then Some (save_field r START_FIELD)
      else Some (add_char r c IN_FIELD)
  | IN_QUOTED_FIELD =>
      if Ascii.eqb c quotechar then Some (goto r QUOTE_IN_QUOTED_FIELD)
      else Some (add_char r c IN_QUOTED_FIELD)
  | QUOTE_IN_QUOTED_FIELD =>
      if Ascii.eqb c quotechar then Some (add_char r c IN_QUOTED_FIELD)
      else if Ascii.eqb c delimiter then Some (save_field r START_FIELD)
      else if is_newline c then Some (save_field r EAT_CRNL)
      else Some (add_char r c IN_FIELD)
  | EAT_CRNL => if is_newline c then Some r else None
  end.

(** [parse_process_char] on the end of a line. *)
Definition process_eol (r : Reader) : Reader :=
  match state r with
  | START_RECORD => return_record r
  | START_FIELD | IN_FIELD | QUOTE_IN_QUOTED_FIELD =>
      return_record (save_field r START_RECORD)
  | IN_QUOTED_FIELD => r
  | EAT_CRNL => return_record r
  end.

(** [c] is the last character of a line of the file: a line feed, a carriage
    return that no line feed follows, or the last character of the text. *)
Definition is_line_end (c : ascii) (rest : string) : bool :=
  match rest with
  | EmptyString => true
  | String c' _ => Ascii.eqb c lf || (Ascii.eqb c cr && negb (Ascii.eqb c' lf))
  end.

(** The characters of the text are processed in turn, the end of a line
    after its last character. *)
Fixpoint feed (r : Reader) (text : string) : option Reader :=
  match text with
  | EmptyString => Some r
  | String c rest =>
      match process_char r c with
      | None => None
      | Some r1 =>
          if is_line_end c rest then feed (process_eol r1) rest
          else feed r1 rest
      end
  end.

(** [list(csv.reader(csvfile))].  A text that ends inside a quoted field
    yields the unfinished record as it stands. *)
Definition csv_reader (text : string) : option (list (list string)) :=
  match feed (mkReader START_RECORD [] EmptyString []) text with
  | None => None
  | Some r =>
      match state r with
      | IN_QUOTED_FIELD => Some (records r ++ [fields r ++ [field r]])
      | _ => Some (records r)
      end
  end.

End PyCsv.

(** ** [format_size] and [print_summary] (alike in the three variants) *)

(** The nearest integer to [a / b], for [b > 0], a tie going to the even
    neighbour: the rounding of ['.2f']. *)
Definition round_half_even (a b : Z) : Z :=
  let q := a / b in
  let r := a mod b in
  if 2 * r <? b then q
  else if b <? 2 * r then q + 1
  else if Z.even q then q else q + 1.

(** Two decimal digits. *)
Definition two_digits (n : Z) : string :=
  let pad := if n <? 10 then "0"%string else EmptyString in
  (pad ++ PyJson.print_int n)%string.

(** [f"{x:.2f}"] for the number [x = num / den], [den > 0]. *)
Definition format_2f (num den : Z) : string :=
  let hundredths := round_half_even (100 * Z.abs num) den in
  let sign := if num <? 0 then "-"%string else EmptyString in
  let whole := PyJson.print_int (hundredths / 100) in
  let cents := two_digits (hundredths mod 100) in
  (sign ++ whole ++ "." ++ cents)%string.

(** The [for unit in [...]] loop of [format_size].  [size_in_bytes] starts as
    an [int] and is a [float] after the first [/= 1024.0].  For a size below
    [2^53] that arithmetic is exact (the conversion to [float] loses nothing
    and a division by 1024 only changes the exponent), so the number is kept
    as the fraction [num / den]; [size_in_bytes < 1024.0] is [num < 1024 * den].
    Sizes from [2^53] on are outside this model. *)
Fixpoint format_size_from (units : list string) (num den : Z) : string :=
  match units with
  | unit :: rest =>
      if num <? 1024 * den then (format_2f num den ++ " " ++ unit)%string
      else format_size_from rest num (1024 * den)
  | [] => (format_2f num den ++ " PB")%string
  end.

Definition size_units : list string := ["B"; "KB"; "MB"; "GB"; "TB"]%string.

Definition format_size (size_in_bytes : Z) : string :=
  format_size_from size_units size_in_bytes 1.

(** [_get_all_files]: the files of the folder, then those of every subfolder
    in turn. *)
Fixpoint _get_all_files (result : ReportNode) : list FileInfo :=
  fold_left (fun all_files subfolder => all_files ++ _get_all_files subfolder)
            (subfolders result) (files result).




(** ** Vocabulary of the properties *)

(** A system folder entry: a folder whose name starts with ['_'] or is
    ['Forms']. *)
Definition is_system_folder (item : Item) : bool :=
  has_folder item &&
  match it_name item with
  | Some n => is_system_name n
  | None => false
  end.

(** A file entry: what the [elif 'file' in item] branch sees. *)
Definition is_file_entry (item : Item) : bool :=
  negb (has_folder item) && has_file item.

(** A folder entry that is not a system folder. *)
Definition is_admitted_folder (item : Item) : bool :=
  has_folder item && negb (is_system_folder item).


(** The listing of [url] fails before any page is returned. *)
Definition listing_fails (backend : Backend) (url : string) : Prop :=
  match backend url with
  | Raises => True
  | Status code _ => code <> 200
  end.

(** [cursor_chain backend url pages urls]: starting at [url] and following
    the cursors, the backend answers 200 with [pages], the last of which
    carries no cursor; [urls] are the addresses of the pages. *)
Inductive cursor_chain (backend : Backend) : string -> list Page -> list string -> Prop :=
| chain_last url page :
    backend url = Status 200 page ->
    truthy (nextLink page) = false ->
    cursor_chain backend url [page] [url]
| chain_next url page next pages urls :
    backend url = Status 200 page ->
    nextLink page = Some next ->
    truthy (Some next) = true ->
    cursor_chain backend next pages urls ->
    cursor_chain backend url (page :: pages) (url :: urls).

(** All entries of a list of pages, in page order. *)
Definition entries (pages : list Page) : list Item := concat (map value pages).

(** [served backend url item]: [item] is on a page reachable from [url] by
    following cursors through 200 answers. *)
Inductive served (backend : Backend) : string -> Item -> Prop :=
| served_here url page item :
    backend url = Status 200 page ->
    In item (value page) ->
    served backend url item
| served_next url page next item :
    backend url = Status 200 page ->
    nextLink page = Some next ->
    served backend next item ->
    served backend url item.

(** An entry that passed the folder branch of the scan. *)
Definition kept_folder (item : Item) : Prop :=
  has_folder item = true
  /\ exists n, it_name item = Some n /\ is_system_name n = false.


(** The cursors that start at [url] run out. *)
Inductive finite_listing (backend : Backend) : string -> Prop :=
| listing_raises url :
    backend url = Raises -> finite_listing backend url
| listing_status url code page :
    backend url = Status code page -> code <> 200 -> finite_listing backend url
| listing_end url page :
    backend url = Status 200 page -> truthy (nextLink page) = false ->
    finite_listing backend url
| listing_more url page next :
    backend url = Status 200 page -> nextLink page = Some next ->
    finite_listing backend next ->
    finite_listing backend url.

(** Sizes reported by the backend are non-negative (data model, RemoteEntry). *)
Definition sizes_nonneg (backend : Backend) : Prop :=
  forall url code page item,
    backend url = Status code page -> In item (value page) -> 0 <= get_or 0 (it_size item).

(** The three counters of a node are non-negative. *)
Definition counters_nonneg (n : ReportNode) : Prop :=
  0 <= total_size n /\ 0 <= file_count n /\ 0 <= folder_count n.

(** The same node with nothing in it. *)
Definition zero_node (n : ReportNode) : ReportNode :=
  Node (node_id n) (path n) (name n) 0 0 0 [] [].

(** [n] carries the identifier [x]. *)
Definition has_id (x : string) (n : ReportNode) : bool :=
  match node_id n with
  | Some i => String.eqb i x
  | None => false
  end.

(** [prune x n]: the tree [n] after every node whose id is [x] has been
    emptied and the totals of its ancestors have been aggregated again. *)
Fixpoint prune (x : string) (n : ReportNode) : ReportNode :=
  if has_id x n then zero_node n
  else
    let subs := map (prune x) (subfolders n) in
    Node (node_id n) (path n) (name n)
         (zsum (map f_size (files n)) + zsum (map total_size subs))
         (Z.of_nat (length (files n)) + zsum (map file_count subs))
         (Z.of_nat (length subs) + zsum (map folder_count subs))
         (files n) subs.

(** Two backends that answer alike everywhere but at [url0]. *)
Definition agree_except (backend backend' : Backend) (url0 : string) : Prop :=
  forall url, url <> url0 -> backend' url = backend url.

(** [url0] is never handed out as a cursor. *)
Definition never_cursor (backend : Backend) (url0 : string) : Prop :=
  forall url code page, backend url = Status code page -> nextLink page <> Some url0.

Module FolderSizeTermination.
Import FolderSize.
Section Finite.

Variable backend : Backend.
Variables site_id drive_id : string.

(** The folder hierarchy below [folder_item] is finite: its listing ends, and
    so does the hierarchy below every folder entry of the listing that the
    filter lets through. *)
Inductive finite_tree : Item -> Prop :=
| finite_tree_intro folder_item :
    (forall folder_id, it_id folder_item = Some folder_id ->
       finite_listing backend (children_url site_id drive_id folder_id)) ->
    (forall folder_id child, it_id folder_item = Some folder_id ->
       served backend (children_url site_id drive_id folder_id) child ->
       kept_folder child ->
       finite_tree child) ->
    finite_tree folder_item.

End Finite.
End FolderSizeTermination.

Module GraphApiTermination.
Import GraphApi.
Section Finite.

Variable backend : Backend.
Variables site_id drive_id : string.

(** The hierarchy that the path-addressed walk sees below [folder_path] is
    finite: the listing ends, and so does the hierarchy below the path that
    the walk derives from every folder entry it descends into. *)
Inductive finite_tree : string -> Prop :=
| finite_tree_intro folder_path :
    finite_listing backend (items_url site_id drive_id folder_path) ->
    (forall child,
       served backend (items_url site_id drive_id folder_path) child ->
       has_folder child = true ->
       is_system_name (get_or EmptyString (it_name child)) = false ->
       finite_tree (get_or EmptyString (it_name child))) ->
    finite_tree folder_path.

End Finite.
End GraphApiTermination.

Module FolderSizeV2Termination.
Import FolderSizeV2.

(** The three counters of a node are non-negative. *)
Definition counters_nonneg (n : ReportNode) : Prop :=
  0 <= total_size n /\ 0 <= file_count n /\ 0 <= folder_count n.

Section Finite.

Variable backend : RestBackend.
Variable site_url : string.
Variable quote : string -> string.

(** The folders that the REST backend lists below [folder_path]. *)
Definition listed_folders (folder_path : string) : list RestItem :=
  match backend (folders_url site_url quote folder_path) with
  | Status 200 folders => folders
  | _ => []
  end.

(** The hierarchy below [folder_path] is finite: so is the hierarchy below
    every listed folder that is not a system folder. *)
Inductive finite_tree : string -> Prop :=
| finite_tree_intro folder_path :
    (forall child n, In child (listed_folders folder_path) ->
       Name child = Some n -> is_system_name n = false ->
       finite_tree (get_or EmptyString (ServerRelativeUrl child))) ->
    finite_tree folder_path.

(** The lengths that the backend reports as numbers are non-negative. *)
Definition sizes_nonneg : Prop :=
  forall url code results item z,
    backend url = Status code results -> In item results ->
    Length item = Some (FolderSize.JNumber z) -> 0 <= z.

End Finite.
End FolderSizeV2Termination.

(** *** Vocabulary of the further properties *)

(** The [file_info] and [result] dicts of [sharepoint_folder_size_v2.py] whose
    sizes are the numbers of [f] and of [r]. *)
Definition numeric_file (f : FileInfo) : FolderSizeV2.FileInfo :=
  FolderSizeV2.mkFileInfo (f_name f) (FolderSize.JNumber (f_size f))
                          (f_last_modified f) (f_path f).

Fixpoint numeric_report (r : ReportNode) : FolderSizeV2.ReportNode :=
  FolderSizeV2.Node (path r) (name r)
                    (total_size r) (file_count r) (folder_count r)
                    (map numeric_file (files r))
                    (map numeric_report (subfolders r)).

(** [r] is the report of a walk of one of the three variants; a report of
    [sharepoint_folder_size_v2.py] is meant when all the sizes in it are
    numbers (its nodes carry no identifier). *)
Inductive walk_report : ReportNode -> Prop :=
| report_folder_size backend site_id drive_id fuel folder_item r log :
    FolderSize.calculate_folder_size backend site_id drive_id fuel folder_item
    = Some (r, log) ->
    walk_report r
| report_graph_api backend site_id drive_id fuel folder_path folder_name r log :
    GraphApi.calculate_folder_size backend site_id drive_id fuel folder_path folder_name
    = Some (r, log) ->
    walk_report r
| report_v2 backend site_url quote fuel folder_path r log :
    FolderSizeV2.calculate_folder_size backend site_url quote fuel folder_path
    = Some (numeric_report r, log) ->
    Forall (fun n => node_id n = None) (nodes r) ->
    walk_report r.

(** The rows of [export_to_csv] by their ['Type'] column. *)
Definition is_file_row (row : FolderSize.Row) : bool :=
  match nth_error row 2 with
  | Some (FolderSize.CStr type) => String.eqb type "File"
  | _ => false
  end.

Definition is_folder_row (row : FolderSize.Row) : bool :=
  match nth_error row 2 with
  | Some (FolderSize.CStr type) => String.eqb type "Folder"
  | _ => false
  end.


(** [c in s] *)
Fixpoint has_char (c : ascii) (s : string) : bool :=
  match s with
  | EmptyString => false
  | String c' s' => Ascii.eqb c' c || has_char c s'
  end.

(** The two addresses that the walk of [sharepoint_folder_size_v2.py] asks
    for a folder. *)
Definition v2_requests_of (site_url : string) (quote : string -> string)
           (n : FolderSizeV2.ReportNode) : list string :=
  [FolderSizeV2.files_url site_url quote (FolderSizeV2.path n);
   FolderSizeV2.folders_url site_url quote (FolderSizeV2.path n)].

(** The ['Length'] of a file entry is a number, or is absent (and defaults
    to [0]). *)
Definition has_number_length (file : FolderSizeV2.RestItem) : bool :=
  match FolderSizeV2.Length file with
  | None | Some (FolderSize.JNumber _) => true
  | Some _ => false
  end.

(** [broken_chain backend url pages urls]: starting at [url] and following
    the cursors, the backend answers 200 with [pages], and the request that
    follows the last of them fails (it raises or answers another status);
    [urls] are the addresses requested, the failing one last. *)
Inductive broken_chain (backend : Backend) : string -> list Page -> list string -> Prop :=
| chain_fails url :
    truthy (Some url) = true ->
    listing_fails backend url ->
    broken_chain backend url [] [url]
| chain_goes_on url page next pages urls :
    truthy (Some url) = true ->
    backend url = Status 200 page ->
    nextLink page = Some next ->
    broken_chain backend next pages urls ->
    broken_chain backend url (page :: pages) (url :: urls).

(** [url] was handed out as a cursor in the answer to one of [requests]. *)
Definition cursor_of (backend : Backend) (requests : list string) (url : string) : Prop :=
  exists previous page,
    In previous requests /\ backend previous = Status 200 page
    /\ nextLink page = Some url.

(** [endless_listing ok backend url]: following the cursors from [url] never
    ends: there is a set of addresses that holds [url] and in which every
    address is answered with 200, with a page that satisfies [ok], and with
    a cursor that is again in the set.  A cursor that leads back to its own
    page is the simplest case. *)
Definition endless_listing (ok : Page -> Prop) (backend : Backend) (url : string) : Prop :=
  exists visited : string -> Prop,
    visited url
    /\ forall u, visited u ->
         truthy (Some u) = true
         /\ exists page next,
              backend u = Status 200 page /\ ok page
              /\ nextLink page = Some next /\ visited next.

(** Every folder entry of the page carries a name. *)
Definition folders_named (page : Page) : Prop :=
  Forall (fun item => has_folder item = true -> it_name item <> None) (value page).

(** [prune_path x n]: the tree [n] of [sharepoint_folder_size_v2.py] after
    every node whose path is [x] has been emptied; the totals of its
    ancestors lose what the emptied nodes had brought in. *)
Fixpoint prune_path (x : string) (n : FolderSizeV2.ReportNode) : FolderSizeV2.ReportNode :=
  if String.eqb (FolderSizeV2.path n) x
  then FolderSizeV2.Node (FolderSizeV2.path n) (FolderSizeV2.name n) 0 0 0 [] []
  else
    let before := FolderSizeV2.subfolders n in
    let subs := map (prune_path x) before in
    FolderSizeV2.Node
      (FolderSizeV2.path n) (FolderSizeV2.name n)
      (FolderSizeV2.total_size n - zsum (map FolderSizeV2.total_size before)
       + zsum (map FolderSizeV2.total_size subs))
      (FolderSizeV2.file_count n - zsum (map FolderSizeV2.file_count before)
       + zsum (map FolderSizeV2.file_count subs))
      (Z.of_nat (length subs) + zsum (map FolderSizeV2.folder_count subs))
      (FolderSizeV2.files n) subs.

(** ** Example backends *)

Module Examples.

Local Open Scope string_scope.

Definition file_item (n : string) (size : Z) : Item :=
  mkItem false true (Some n) (Some ("id-" ++ n)) (Some size) None (Some ("https://sp/" ++ n)).

Definition folder_item (n : string) : Item :=
  mkItem true false (Some n) (Some ("id-" ++ n)) None None (Some ("https://sp/" ++ n)).

(** A folder entry that carries no ['id']. *)
Definition orphan_folder : Item :=
  mkItem true false (Some "Orphan") None None None (Some "https://sp/Orphan").

Definition not_found : Response Page := Status 404 (mkPage [] None).

(** Item-addressed store:
    - [A] holds [f1] (100 bytes), [B] and [_hidden]; [B] holds [f2] (200);
      [_hidden] holds [f3] (9999);
    - [P] is listed on three pages of 2, 2 and 1 entries;
    - [N] holds a folder entry without id and the file [n1] (10);
    - [T] holds [t1] (1) and [U]; [U] holds [V] and [u1] (2); [V] holds
      [v1] (3). *)
Definition id_backend : Backend := fun url =>
  if url =? FolderSize.children_url "S" "D" "id-A" then
    Status 200 (mkPage [file_item "f1" 100; folder_item "B"; folder_item "_hidden"] None)
  else if url =? FolderSize.children_url "S" "D" "id-B" then
    Status 200 (mkPage [file_item "f2" 200] None)
  else if url =? FolderSize.children_url "S" "D" "id-_hidden" then
    Status 200 (mkPage [file_item "f3" 9999] None)
  else if url =? FolderSize.children_url "S" "D" "id-P" then
    Status 200 (mkPage [file_item "p1" 1; folder_item "Q"] (Some "https://sp/next/2"))
  else if url =? "https://sp/next/2" then
    Status 200 (mkPage [file_item "p2" 2; file_item "p3" 3] (Some "https://sp/next/3"))
  else if url =? "https://sp/next/3" then
    Status 200 (mkPage [folder_item "R"] None)
  else if url =? FolderSize.children_url "S" "D" "id-N" then
    Status 200 (mkPage [orphan_folder; file_item "n1" 10] None)
  else if url =? FolderSize.children_url "S" "D" "id-T" then
    Status 200 (mkPage [file_item "t1" 1; folder_item "U"] None)
  else if url =? FolderSize.children_url "S" "D" "id-U" then
    Status 200 (mkPage [folder_item "V"; file_item "u1" 2] None)
  else if url =? FolderSize.children_url "S" "D" "id-V" then
    Status 200 (mkPage [file_item "v1" 3] None)
  else not_found.

(** The same store when the listing of [B] raises. *)
Definition id_backend_B_fails : Backend := fun url =>
  if url =? FolderSize.children_url "S" "D" "id-B" then Raises else id_backend url.

(** Path-addressed store: the root holds [A], [B] and [r1] (1 byte); [A]
    holds a folder [B] of its own and [a1] (10); [A/B] holds [ab1] (5); the
    top-level [B] holds [b1] (7) and a system folder [Forms]. *)
Definition path_backend : Backend := fun url =>
  if url =? GraphApi.items_url "S" "D" "" then
    Status 200 (mkPage [folder_item "A"; folder_item "B"; file_item "r1" 1] None)
  else if url =? GraphApi.items_url "S" "D" "A" then
    Status 200 (mkPage [folder_item "B"; file_item "a1" 10] None)
  else if url =? GraphApi.items_url "S" "D" "A/B" then
    Status 200 (mkPage [file_item "ab1" 5] None)
  else if url =? GraphApi.items_url "S" "D" "B" then
    Status 200 (mkPage [file_item "b1" 7; folder_item "Forms"] None)
  else if url =? GraphApi.items_url "S" "D" "P" then
    Status 200 (mkPage [file_item "p1" 1; folder_item "Q"] (Some "https://sp/next/2"))
  else if url =? "https://sp/next/2" then
    Status 200 (mkPage [file_item "p2" 2; file_item "p3" 3] (Some "https://sp/next/3"))
  else if url =? "https://sp/next/3" then
    Status 200 (mkPage [folder_item "R"] None)
  else not_found.

(** A backend on which every request fails. *)
Definition dead_backend : Backend := fun _ => not_found.

Definition rest_file (n : string) (size : Z) (url : string) : FolderSizeV2.RestItem :=
  FolderSizeV2.mkRestItem (Some n) (Some (FolderSize.JNumber size)) None (Some url).

(** A file entry as [odata=verbose] writes it: the length is a string. *)
Definition rest_file_verbose (n : string) (length : string) (url : string)
  : FolderSizeV2.RestItem :=
  FolderSizeV2.mkRestItem (Some n) (Some (FolderSize.JString length)) None (Some url).

Definition rest_folder (n : string) (url : string) : FolderSizeV2.RestItem :=
  FolderSizeV2.mkRestItem (Some n) None None (Some url).

(** [urllib.parse.quote] on paths that need no escaping. *)
Definition plain_quote (s : string) : string := s.

(** REST store: [/sites/X/Docs] holds [d1] (100), [Sub], [Forms] and
    [_private]; [Sub] holds [s1] (200). *)
Definition rest_backend : FolderSizeV2.RestBackend := fun url =>
  if url =? FolderSizeV2.files_url "https://t" plain_quote "/sites/X/Docs" then
    Status 200 [rest_file "d1" 100 "/sites/X/Docs/d1"]
  else if url =? FolderSizeV2.folders_url "https://t" plain_quote "/sites/X/Docs" then
    Status 200 [rest_folder "Sub" "/sites/X/Docs/Sub";
                rest_folder "Forms" "/sites/X/Docs/Forms";
                rest_folder "_private" "/sites/X/Docs/_private"]
  else if url =? FolderSizeV2.files_url "https://t" plain_quote "/sites/X/Docs/Sub" then
    Status 200 [rest_file "s1" 200 "/sites/X/Docs/Sub/s1"]
  else if url =? FolderSizeV2.folders_url "https://t" plain_quote "/sites/X/Docs/Sub" then
    Status 200 []
  else Status 404 [].

(** The same store with the lengths as [odata=verbose] writes them. *)
Definition rest_backend_verbose : FolderSizeV2.RestBackend := fun url =>
  if url =? FolderSizeV2.files_url "https://t" plain_quote "/sites/X/Docs" then
    Status 200 [rest_file_verbose "d1" "100" "/sites/X/Docs/d1"]
  else if url =? FolderSizeV2.folders_url "https://t" plain_quote "/sites/X/Docs" then
    Status 200 [rest_folder "Sub" "/sites/X/Docs/Sub";
                rest_folder "Forms" "/sites/X/Docs/Forms";
                rest_folder "_private" "/sites/X/Docs/_private"]
  else if url =? FolderSizeV2.files_url "https://t" plain_quote "/sites/X/Docs/Sub" then
    Status 200 [rest_file_verbose "s1" "200" "/sites/X/Docs/Sub/s1"]
  else if url =? FolderSizeV2.folders_url "https://t" plain_quote "/sites/X/Docs/Sub" then
    Status 200 []
  else Status 404 [].

(** A REST backend on which every request raises. *)
Definition dead_rest_backend : FolderSizeV2.RestBackend := fun _ => Raises.

(** The store [id_backend] when the third page of [P] answers 503. *)
Definition id_backend_page3_fails : Backend := fun url =>
  if url =? "https://sp/next/3" then Status 503 (mkPage [] None) else id_backend url.

(** The same for the path-addressed store. *)
Definition path_backend_page3_fails : Backend := fun url =>
  if url =? "https://sp/next/3" then Status 503 (mkPage [] None) else path_backend url.

(** The site [Sales], whose identifier is [S]. *)
Definition site_backend : string -> Response Site := fun url =>
  if url =? site_api_url "https://contoso.sharepoint.com/sites/Sales" then
    Status 200 (mkSite (Some "S") (Some "Sales"))
  else Status 404 (mkSite None None).

Definition archive_drive : Drive := mkDrive (Some "Archive") (Some "D0").
Definition documents_drive : Drive := mkDrive (Some "Documents") (Some "D").

(** The drives of [S]: the document library comes second. *)
Definition drives_backend : string -> Response (list Drive) := fun url =>
  if url =? drives_url (Some "S") then Status 200 [archive_drive; documents_drive]
  else Status 404 [].

(** The items of the library [D] by path: the root is [A], and there is a
    folder [T]. *)
Definition item_backend : string -> Response (option Item) := fun url =>
  if url =? "https://graph.microsoft.com/v1.0/sites/S/drives/D/root" then
    Status 200 (Some (folder_item "A"))
  else if url =? "https://graph.microsoft.com/v1.0/sites/S/drives/D/root:/T" then
    Status 200 (Some (folder_item "T"))
  else Status 404 None.


(** A store whose every page hands out its own address as cursor. *)
Definition loop_backend : Backend := fun url =>
  Status 200 (mkPage [file_item "again" 1] (Some url)).

(** The REST store when the Files request of [Sub] raises. *)
Definition rest_backend_sub_fails : FolderSizeV2.RestBackend := fun url =>
  if String.eqb url (FolderSizeV2.files_url "https://t" plain_quote "/sites/X/Docs/Sub")
  then Raises
  else rest_backend url.

End Examples.

(* ================================================================== *)
(** * Properties *)

(** Case analysis on which branch of an example backend answered. *)
Ltac backend_cases H :=
  repeat match type of H with
         | (if ?c then _ else _) = _ => destruct c
         end.

(** ** The Python helpers on sample inputs *)

Example split_slash_sample :
  split_slash "/sites/X/a/b" = [""; "sites"; "X"; "a"; "b"]%string
  /\ split_slash "" = [""%string].
Proof. split; reflexivity. Qed.

Example drop_site_prefix_sample :
  drop_site_prefix "/sites/X/a/b" = "a/b"%string
  /\ drop_site_prefix "/sites/X" = ""%string
  /\ drop_site_prefix "/sites/X/" = ""%string.
Proof. repeat split; reflexivity. Qed.

Example strip_slash_sample :
  strip_slash "/a/b//" = "a/b"%string /\ strip_slash "///" = ""%string.
Proof. split; reflexivity. Qed.

Example basename_sample :
  basename "/sites/X/Docs" = "Docs"%string
  /\ basename "Docs/" = ""%string
  /\ basename "" = ""%string.
Proof. repeat split; reflexivity. Qed.

Example is_system_name_sample :
  is_system_name "_archive" = true /\ is_system_name "Forms" = true
  /\ is_system_name "forms" = false /\ is_system_name "a_b" = false
  /\ is_system_name "" = false.
Proof. repeat split; reflexivity. Qed.

(** The scenario of the specification: [A] holds [f1] (100 bytes), [B] with
    [f2] (200 bytes) and [_hidden] with [f3] (9999 bytes). *)
Example folder_size_scenario :
  FolderSize.calculate_folder_size Examples.id_backend "S" "D" 4 (Examples.folder_item "A")
  = Some (Node (Some "id-A") "https://sp/A" "A" 300 2 1
               [mkFileInfo "f1" 100 "" "https://sp/f1"]
               [Node (Some "id-B") "https://sp/B" "B" 200 1 0
                     [mkFileInfo "f2" 200 "" "https://sp/f2"] []],
          [FolderSize.children_url "S" "D" "id-A";
           FolderSize.children_url "S" "D" "id-B"])%string.
Proof. vm_compute. reflexivity. Qed.

(** ** Folding files and subfolders into a node *)

Lemma zsum_app (l1 l2 : list Z) : zsum (l1 ++ l2) = zsum l1 + zsum l2.
Proof.
  unfold zsum. induction l1 as [|x l1 IH]; simpl; [reflexivity | rewrite IH; lia].
Qed.

(** What the file loop leaves in [result]. *)
Lemma fold_add_file (fis : list FileInfo) (r : ReportNode) :
  fold_left add_file fis r =
  Node (node_id r) (path r) (name r)
       (total_size r + zsum (map f_size fis))
       (file_count r + Z.of_nat (length fis))
       (folder_count r)
       (files r ++ fis)
       (subfolders r).
Proof.
  revert r. induction fis as [|fi fis IH]; intro r.
  - destruct r; simpl. rewrite !Z.add_0_r, app_nil_r. reflexivity.
  - cbn [fold_left]. rewrite IH. destruct r; cbn [add_file node_id path name total_size file_count folder_count files subfolders].
    cbn [map length zsum fold_right]. fold (zsum (map f_size fis)).
    rewrite <- app_assoc. f_equal; cbn [app]; try reflexivity; lia.
Qed.

(** What folding a list of finished children leaves in [result]. *)
Lemma fold_add_subfolder (subs : list ReportNode) (r : ReportNode) :
  fold_left add_subfolder subs r =
  Node (node_id r) (path r) (name r)
       (total_size r + zsum (map total_size subs))
       (file_count r + zsum (map file_count subs))
       (folder_count r + zsum (map folder_count subs))
       (files r)
       (subfolders r ++ subs).
Proof.
  revert r. induction subs as [|s subs IH]; intro r.
  - destruct r; simpl. rewrite !Z.add_0_r, app_nil_r. reflexivity.
  - cbn [fold_left]. rewrite IH. destruct r; cbn [add_subfolder node_id path name total_size file_count folder_count files subfolders].
    cbn [map zsum fold_right].
    fold (zsum (map total_size subs)) (zsum (map file_count subs)) (zsum (map folder_count subs)).
    rewrite <- app_assoc. f_equal; cbn [app]; try reflexivity; lia.
Qed.


(** Induction over report trees: the subfolders come with the hypothesis. *)
Lemma ReportNode_nested_ind (P : ReportNode -> Prop) :
  (forall n, Forall P (subfolders n) -> P n) -> forall n, P n.
Proof.
  intro step. fix IH 1. intro n. apply step.
  destruct n as [i p nm ts fc dc fs subs]. cbn [subfolders].
  induction subs as [|s subs IHs]; constructor; [apply IH | exact IHs].
Qed.

(** Pruning leaves alone a lawful tree in which [x] does not occur. *)
Lemma prune_untouched (x : string) : forall n,
  Forall aggregation_law (nodes n) ->
  Forall (fun m => has_id x m = false) (nodes n) ->
  prune x n = n.
Proof.
  induction n as [n IH] using ReportNode_nested_ind. intros Hlaw Hid.
  destruct n as [i p nm ts fc dc fs subs].
  cbn [nodes subfolders] in *.
  inversion Hlaw as [|? ? (Ht & Hf & Hd) Hlaws]; subst.
  inversion Hid as [|? ? Hx Hids]; subst.
  apply Forall_flat_map in Hlaws, Hids.
  cbn [prune]. rewrite Hx.
  cbn [node_id path name total_size file_count folder_count files subfolders] in *.
  assert (Hsubs : map (prune x) subs = subs).
  { clear - IH Hlaws Hids.
    induction subs as [|s subs IHs]; [reflexivity|].
    inversion IH; inversion Hlaws; inversion Hids; subst. simpl.
    f_equal; auto. }
  rewrite Hsubs. f_equal; congruence.
Qed.



(** ** Strings *)

Lemma string_length_append (a b : string) :
  String.length (a ++ b) = (String.length a + String.length b)%nat.
Proof. induction a as [|c a IH]; simpl; [reflexivity | now rewrite IH]. Qed.

Lemma string_append_inj_l (a x y : string) : (a ++ x = a ++ y)%string -> x = y.
Proof. induction a as [|c a IH]; simpl; intro H; [assumption | injection H; auto]. Qed.

Lemma string_append_inj_r (c : string) : forall x y, (x ++ c = y ++ c)%string -> x = y.
Proof.
  induction x as [|a x IH]; intros [|b y] H; simpl in H.
  - reflexivity.
  - apply (f_equal String.length) in H. simpl in H.
    rewrite string_length_append in H. lia.
  - apply (f_equal String.length) in H. simpl in H.
    rewrite string_length_append in H. lia.
  - injection H as -> H. f_equal. now apply IH.
Qed.

Lemma string_append_assoc (a b c : string) : ((a ++ b) ++ c = a ++ (b ++ c))%string.
Proof. induction a as [|x a IH]; simpl; [reflexivity | now rewrite IH]. Qed.

(** ** sharepoint_folder_size.py: the walk *)

Module FolderSizeFacts.
Import FolderSize.

#[local] Arguments children_url : simpl never.
Section Facts.

Variable backend : Backend.
Variables site_id drive_id : string.

Local Abbreviation calc := (calculate_folder_size backend site_id drive_id).
Local Abbreviation fetch := (get_folder_children backend site_id drive_id).

(** The subfolder loop returns the fold of the children's reports, each of
    them the answer of the recursive call on the folder at the same position. *)
Lemma fs_process_subfolders_spec rec folders r log r' log' :
  process_subfolders rec folders r log = Some (r', log') ->
  exists outs,
    Forall2 (fun folder out => rec folder = Some out) folders outs
    /\ r' = fold_left add_subfolder (map fst outs) r
    /\ log' = log ++ concat (map snd outs).
Proof.
  revert r log. induction folders as [|folder rest IH]; intros r log H; simpl in H.
  - injection H as <- <-. exists []. simpl. rewrite app_nil_r. repeat split. constructor.
  - destruct (rec folder) as [[sub sublog]|] eqn:E; [|discriminate].
    apply IH in H. destruct H as (outs & HF & -> & ->).
    exists ((sub, sublog) :: outs). simpl. rewrite app_assoc.
    repeat split. constructor; assumption.
Qed.

Lemma fs_law_all_nodes fuel :
  forall folder_item r log,
    calc fuel folder_item = Some (r, log) -> Forall aggregation_law (nodes r).
Proof.
  induction fuel as [|fuel IH]; intros it r log H; [discriminate|].
  cbn [calculate_folder_size] in H.
  destruct (negb (truthy (it_id it))).
  - injection H as <- <-. simpl. repeat constructor.
  - destruct (fetch fuel _) as [[[fs ds] l0]|]; [|discriminate].
    apply fs_process_subfolders_spec in H. destruct H as (outs & HF & -> & _).
    rewrite fold_add_subfolder, fold_add_file. cbn.
    constructor.
    + unfold aggregation_law; cbn.
      assert (length (map fst outs) = length ds) as ->
        by (rewrite length_map; symmetry; eapply Forall2_length; eassumption).
      repeat split; lia.
    + apply Forall_flat_map.
      clear - HF IH. induction HF as [|d [s l] ds outs Hd _ IHF]; simpl; constructor; eauto.
Qed.

(** *** The page fetcher *)

Lemma fs_scan_items_named items : forall files folders,
  Forall (fun item => has_folder item = true -> it_name item <> None) items ->
  scan_items items files folders
  = (files ++ filter is_file_entry items,
     folders ++ filter is_admitted_folder items, false).
Proof.
  induction items as [|item rest IH]; intros fs ds HN; simpl.
  - now rewrite !app_nil_r.
  - inversion HN as [|? ? Hitem Hrest]; subst.
    unfold is_file_entry, is_admitted_folder, is_system_folder.
    destruct (has_folder item) eqn:Hf; simpl.
    + destruct (it_name item) as [n|] eqn:Hn; [|now exfalso; apply Hitem].
      destruct (is_system_name n); simpl; rewrite IH by assumption.
      * reflexivity.
      * now rewrite <- app_assoc.
    + destruct (has_file item); simpl; rewrite IH by assumption.
      * now rewrite <- app_assoc.
      * reflexivity.
Qed.



Lemma fs_page_loop_chain url pages urls :
  cursor_chain backend url pages urls ->
  truthy (Some url) = true ->
  Forall (fun item => has_folder item = true -> it_name item <> None) (entries pages) ->
  forall fuel files folders log,
    (length pages < fuel)%nat ->
    page_loop backend fuel (Some url) files folders log
    = Some (files ++ filter is_file_entry (entries pages),
            folders ++ filter is_admitted_folder (entries pages),
            log ++ urls).
Proof.
  unfold entries.
  induction 1 as [url page Hb Hlast | url page next pages urls Hb Hnext Htn Hch IH];
    intros Hurl HN fuel fs ds log Hfuel; simpl in HN; apply Forall_app in HN as [HN1 HN2].
  - destruct fuel as [|[|fuel]]; simpl in Hfuel; try lia.
    cbn [page_loop]. rewrite Hurl, Hb. simpl (200 =? 200).
    rewrite fs_scan_items_named by assumption. cbn [page_loop concat map].
    rewrite app_nil_r.
    destruct (nextLink page) as [u|]; [|reflexivity]. now rewrite Hlast.
  - destruct fuel as [|fuel]; simpl in Hfuel; try lia.
    cbn [page_loop]. rewrite Hurl, Hb. simpl (200 =? 200).
    rewrite fs_scan_items_named by assumption. rewrite Hnext.
    rewrite IH by (assumption || lia).
    cbn [concat map]. rewrite !filter_app, <- !app_assoc. reflexivity.
Qed.

Lemma children_url_truthy folder_id :
  truthy (Some (children_url site_id drive_id folder_id)) = true.
Proof. reflexivity. Qed.



(** *** System folders are invisible *)




(** Identity of the node that a call returns. *)
Lemma fs_calc_identity fuel folder_item r log :
  calc fuel folder_item = Some (r, log) ->
  node_id r = it_id folder_item
  /\ path r = get_or EmptyString (it_webUrl folder_item)
  /\ name r = get_or "Unknown"%string (it_name folder_item).
Proof.
  destruct fuel as [|fuel]; [discriminate|]. cbn [calculate_folder_size].
  destruct (negb (truthy (it_id folder_item))).
  - intro H; injection H as <- <-. now simpl.
  - destruct (fetch fuel _) as [[[fs ds] l0]|]; [|discriminate].
    intro H. apply fs_process_subfolders_spec in H as (outs & _ & -> & _).
    rewrite fold_add_subfolder, fold_add_file. now simpl.
Qed.


Lemma children_url_inj x y :
  children_url site_id drive_id x = children_url site_id drive_id y -> x = y.
Proof.
  unfold children_url. intro H.
  rewrite <- !string_append_assoc in H.
  apply string_append_inj_r in H.
  now apply string_append_inj_l in H.
Qed.

(** The converse of [fs_process_subfolders_spec]. *)
Lemma fs_process_subfolders_build rec folders outs :
  Forall2 (fun folder out => rec folder = Some out) folders outs ->
  forall r log,
    process_subfolders rec folders r log
    = Some (fold_left add_subfolder (map fst outs) r, log ++ concat (map snd outs)).
Proof.
  induction 1 as [|folder [sub sublog] folders outs Hd _ IH]; intros r log; simpl.
  - now rewrite app_nil_r.
  - rewrite Hd, IH. now rewrite app_assoc.
Qed.

(** One call of the walk, unfolded: the listing of the folder's own
    identifier is fetched, the walk is called on every folder entry that the
    fetcher returned, and the answers are folded in listing order. *)
Lemma fs_calc_unfold fuel folder_item r log :
  calc (S fuel) folder_item = Some (r, log) ->
  truthy (it_id folder_item) = true ->
  exists folder_id files folders log0 outs,
    it_id folder_item = Some folder_id
    /\ fetch fuel folder_id = Some (files, folders, log0)
    /\ Forall2 (fun folder out => calc fuel folder = Some out) folders outs
    /\ r = fold_left add_subfolder (map fst outs)
             (set_folder_count
                (fold_left add_file (map file_info_of files) (empty_result folder_item))
                (Z.of_nat (length folders)))
    /\ log = log0 ++ concat (map snd outs).
Proof.
  cbn [calculate_folder_size]. intros H Hty. rewrite Hty in H. cbn [negb] in H.
  destruct (it_id folder_item) as [i|] eqn:Hi; [|discriminate]. cbn [get_or] in H.
  destruct (fetch fuel i) as [[[fs ds] l0]|] eqn:Hfetch; [|discriminate].
  apply fs_process_subfolders_spec in H as (outs & HF & -> & ->).
  exists i, fs, ds, l0, outs. repeat split; assumption.
Qed.

(** The subfolders of a node are the nodes of the folder entries that the
    fetcher returned, one for one, whether or not the entry has an id. *)
Lemma fs_subfolder_ids fuel folders outs :
  Forall2 (fun folder out => calc fuel folder = Some out) folders outs ->
  map node_id (map fst outs) = map it_id folders.
Proof.
  induction 1 as [|d [sub l] ds outs Hd _ IH]; simpl; [reflexivity|].
  apply fs_calc_identity in Hd as (-> & _). now rewrite IH.
Qed.

(** The page loop only ever adds to the request log, and its first request
    goes to the URL it is started with. *)
Lemma fs_page_loop_log fuel : forall api_url files folders log files' folders' log',
  page_loop backend fuel api_url files folders log = Some (files', folders', log') ->
  exists more, log' = log ++ more
               /\ (truthy api_url = true ->
                   exists rest, more = get_or EmptyString api_url :: rest).
Proof.
  induction fuel as [|fuel IH]; intros api fs ds log fs' ds' log' H; [discriminate|].
  cbn [page_loop] in H.
  destruct api as [url|].
  - destruct (truthy (Some url)) eqn:Hty.
    + assert (Hone : exists more, log ++ [url] = log ++ more
                       /\ (true = true -> exists rest, more = get_or EmptyString (Some url) :: rest))
        by (exists [url]; split; [reflexivity | intros _; exists []; reflexivity]).
      destruct (backend url) as [|code page]; [injection H as <- <- <-; exact Hone|].
      destruct (code =? 200); [|injection H as <- <- <-; exact Hone].
      destruct (scan_items (value page) fs ds) as [[fs0 ds0] [|]];
        [injection H as <- <- <-; exact Hone|].
      apply IH in H as (more & -> & _).
      exists (url :: more). rewrite <- app_assoc. split; [reflexivity|].
      intros _. exists more. reflexivity.
    + injection H as <- <- <-. exists []. rewrite app_nil_r. split; [reflexivity|discriminate].
  - injection H as <- <- <-. exists []. rewrite app_nil_r. split; [reflexivity|discriminate].
Qed.

(** The first request of a walk lists the children of the very identifier of
    the folder item it was called on. *)
Lemma fs_calc_first_request fuel folder_item r log :
  calc fuel folder_item = Some (r, log) ->
  truthy (it_id folder_item) = true ->
  exists rest,
    log = children_url site_id drive_id (get_or EmptyString (it_id folder_item)) :: rest.
Proof.
  destruct fuel as [|fuel]; [discriminate|]. intros H Hty.
  apply fs_calc_unfold in H as (i & fs & ds & l0 & outs & Hi & Hfetch & _ & _ & ->);
    [|exact Hty].
  rewrite Hi. cbn [get_or].
  apply fs_page_loop_log in Hfetch as (more & -> & Hfirst).
  destruct (Hfirst (children_url_truthy i)) as (rest & ->).
  cbn [app get_or]. eauto.
Qed.

End Facts.

(** *** One listing that fails *)

Section Isolation.

Variables backend backend' : Backend.
Variables site_id drive_id x : string.

Local Abbreviation url0 := (children_url site_id drive_id x).

Hypothesis Hagree : agree_except backend backend' url0.
Hypothesis Hfails : listing_fails backend' url0.
Hypothesis Hcursor : never_cursor backend url0.

Lemma fs_page_loop_agree fuel : forall api_url files folders log,
  api_url <> Some url0 ->
  page_loop backend' fuel api_url files folders log
  = page_loop backend fuel api_url files folders log.
Proof.
  induction fuel as [|fuel IH]; intros api fs ds log Hne; [reflexivity|].
  cbn [page_loop]. destruct api as [url|]; [|reflexivity].
  destruct (truthy (Some url)); [|reflexivity].
  rewrite Hagree by congruence.
  destruct (backend url) as [|code page] eqn:Hb; [reflexivity|].
  destruct (code =? 200); [|reflexivity].
  destruct (scan_items (value page) fs ds) as [[fs' ds'] [|]]; [reflexivity|].
  apply IH. eapply Hcursor; eassumption.
Qed.

Lemma fs_failed_listing fuel folder_id :
  listing_fails backend' (children_url site_id drive_id folder_id) ->
  get_folder_children backend' site_id drive_id (S fuel) folder_id
  = Some ([], [], [children_url site_id drive_id folder_id]).
Proof.
  unfold listing_fails, get_folder_children. cbn [page_loop].
  rewrite children_url_truthy.
  destruct (backend' _) as [|code page]; [reflexivity|].
  intro Hc. apply Z.eqb_neq in Hc. now rewrite Hc.
Qed.

Lemma prune_empty_result folder_item :
  prune x (empty_result folder_item) = empty_result folder_item.
Proof.
  unfold empty_result. cbn. destruct (has_id x _); reflexivity.
Qed.

Lemma fs_calc_isolated fuel : forall folder_item r log,
  calculate_folder_size backend site_id drive_id fuel folder_item = Some (r, log) ->
  exists log',
    calculate_folder_size backend' site_id drive_id fuel folder_item
    = Some (prune x r, log').
Proof.
  induction fuel as [|fuel IH]; intros it r log H; [discriminate|].
  pose proof (fs_calc_identity _ _ _ _ _ _ _ H) as (Hid & Hpath & Hname).
  cbn [calculate_folder_size] in H |- *.
  destruct (negb (truthy (it_id it))) eqn:Hty.
  - injection H as <- <-. rewrite prune_empty_result. eauto.
  - destruct (it_id it) as [i|] eqn:Hi; [|discriminate]. cbn [get_or] in *.
    destruct (get_folder_children backend site_id drive_id fuel i)
      as [[[fs ds] l0]|] eqn:Hfetch; [|discriminate].
    destruct (String.eqb_spec i x) as [->|Hix].
    + (* the folder whose listing fails *)
      destruct fuel as [|fuel]; [discriminate|].
      rewrite fs_failed_listing by exact Hfails.
      cbn [map fold_left length process_subfolders Z.of_nat].
      eexists. f_equal. f_equal.
      destruct r; cbn [node_id path name] in Hid, Hpath, Hname. subst.
      cbn [prune]. unfold has_id, zero_node, set_folder_count, empty_result.
      cbn [node_id path name total_size file_count folder_count files subfolders].
      rewrite Hi, String.eqb_refl. reflexivity.
    + (* any other folder *)
      unfold get_folder_children in *.
      rewrite fs_page_loop_agree
        by (intro E; apply Hix, (children_url_inj site_id drive_id); congruence).
      rewrite Hfetch.
      apply fs_process_subfolders_spec in H as (outs & HF & -> & _).
      assert (Houts : exists outs',
                 Forall2 (fun folder out =>
                            calculate_folder_size backend' site_id drive_id fuel folder
                            = Some out) ds outs'
                 /\ map fst outs' = map (prune x) (map fst outs)).
      { clear - HF IH. induction HF as [|d [s l] ds outs Hd _ (outs' & HF' & Hm)].
        - exists []. split; constructor.
        - apply IH in Hd as (l' & Hd). exists ((prune x s, l') :: outs').
          split; [constructor; assumption|]. simpl. now rewrite Hm. }
      destruct Houts as (outs' & HF' & Hm).
      rewrite (fs_process_subfolders_build _ _ _ HF'). eexists. f_equal. f_equal.
      rewrite Hm, !fold_add_subfolder, !fold_add_file. cbn.
      unfold has_id; cbn. rewrite Hi.
      apply String.eqb_neq in Hix. rewrite Hix.
      rewrite !length_map. rewrite (Forall2_length HF).
      f_equal; lia.
Qed.

End Isolation.

(** *** Termination and the sign of the counters *)

Section Totality.

Import FolderSizeTermination.

Variable backend : Backend.
Variables site_id drive_id : string.

Local Abbreviation calc := (calculate_folder_size backend site_id drive_id).







Hypothesis Hsizes : sizes_nonneg backend.


End Totality.

End FolderSizeFacts.

(** ** sharepoint_graph_api.py: the walk *)

Lemma fold_add_counted_subfolder (subs : list ReportNode) (r : ReportNode) :
  fold_left add_counted_subfolder subs r =
  Node (node_id r) (path r) (name r)
       (total_size r + zsum (map total_size subs))
       (file_count r + zsum (map file_count subs))
       (folder_count r + Z.of_nat (length subs) + zsum (map folder_count subs))
       (files r)
       (subfolders r ++ subs).
Proof.
  revert r. induction subs as [|s subs IH]; intro r.
  - destruct r; simpl. rewrite !Z.add_0_r, app_nil_r. reflexivity.
  - cbn [fold_left]. rewrite IH. destruct r.
    unfold add_counted_subfolder, add_subfolder, incr_folder_count, set_folder_count.
    cbn [node_id path name total_size file_count folder_count files subfolders].
    cbn [map length zsum fold_right].
    fold (zsum (map total_size subs)) (zsum (map file_count subs)) (zsum (map folder_count subs)).
    rewrite <- app_assoc. f_equal; cbn [app]; try reflexivity; lia.
Qed.

Module GraphApiFacts.
Import GraphApi.

#[local] Arguments items_url : simpl never.

Section Facts.

Variable backend : Backend.
Variables site_id drive_id : string.

Local Abbreviation calc := (calculate_folder_size backend site_id drive_id).

(** The folders of a listing that the subfolder loop descends into. *)
Local Abbreviation descended :=
  (filter (fun folder => negb (is_system_name (get_or EmptyString (it_name folder))))).

Lemma ga_scan_items_spec items : forall files folders,
  scan_items items files folders
  = (files ++ filter is_file_entry items, folders ++ filter has_folder items).
Proof.
  induction items as [|item rest IH]; intros fs ds; simpl.
  - now rewrite !app_nil_r.
  - unfold is_file_entry. destruct (has_folder item); simpl.
    + rewrite IH. now rewrite <- app_assoc.
    + destruct (has_file item); rewrite IH; [now rewrite <- app_assoc | reflexivity].
Qed.

Lemma items_url_truthy folder_path :
  truthy (Some (items_url site_id drive_id folder_path)) = true.
Proof. unfold items_url. destruct (_ && _); reflexivity. Qed.

Lemma ga_page_loop_chain url pages urls :
  cursor_chain backend url pages urls ->
  truthy (Some url) = true ->
  forall fuel files folders log,
    (length pages < fuel)%nat ->
    page_loop backend fuel (Some url) files folders log
    = Some (files ++ filter is_file_entry (entries pages),
            folders ++ filter has_folder (entries pages),
            log ++ urls).
Proof.
  unfold entries.
  induction 1 as [url page Hb Hlast | url page next pages urls Hb Hnext Htn Hch IH];
    intros Hurl fuel fs ds log Hfuel.
  - destruct fuel as [|[|fuel]]; simpl in Hfuel; try lia.
    cbn [page_loop]. rewrite Hurl, Hb. simpl (200 =? 200).
    rewrite ga_scan_items_spec. cbn [concat map]. rewrite app_nil_r.
    destruct (nextLink page) as [u|]; [|reflexivity]. now rewrite Hlast.
  - destruct fuel as [|fuel]; simpl in Hfuel; try lia.
    cbn [page_loop]. rewrite Hurl, Hb. simpl (200 =? 200).
    rewrite ga_scan_items_spec, Hnext.
    rewrite IH by (assumption || lia).
    cbn [concat map]. rewrite !filter_app, <- !app_assoc. reflexivity.
Qed.


(** The subfolder loop descends into the folders that are not system
    folders, calling itself on the bare name of each, and folds the answers. *)
Lemma ga_process_subfolders_spec rec folders : forall r log r' log',
  process_subfolders rec folders r log = Some (r', log') ->
  exists outs,
    Forall2 (fun folder out =>
               rec (get_or EmptyString (it_name folder))
                   (Some (get_or EmptyString (it_name folder))) = Some out)
            (descended folders) outs
    /\ r' = fold_left add_counted_subfolder (map fst outs) r
    /\ log' = log ++ concat (map snd outs).
Proof.
  induction folders as [|folder rest IH]; intros r log r' log' H; simpl in H.
  - injection H as <- <-. exists []. simpl. rewrite app_nil_r. repeat split. constructor.
  - simpl. destruct (is_system_name (get_or EmptyString (it_name folder))); simpl.
    + now apply IH.
    + destruct (rec _ _) as [[sub sublog]|] eqn:E; [|discriminate].
      apply IH in H as (outs & HF & -> & ->).
      exists ((sub, sublog) :: outs). simpl. rewrite app_assoc.
      repeat split. constructor; assumption.
Qed.



Lemma ga_law_all_nodes fuel : forall folder_path folder_name r log,
  calc fuel folder_path folder_name = Some (r, log) ->
  Forall aggregation_law (nodes r).
Proof.
  induction fuel as [|fuel IH]; intros p nm r log H; [discriminate|].
  cbn [calculate_folder_size] in H.
  destruct (get_folder_items backend site_id drive_id fuel _) as [[[fs ds] l0]|];
    [|discriminate].
  apply ga_process_subfolders_spec in H as (outs & HF & -> & _).
  rewrite fold_add_counted_subfolder, fold_add_file. cbn.
  constructor.
  - unfold aggregation_law; cbn. repeat split; lia.
  - apply Forall_flat_map.
    clear - HF IH. induction HF as [|d [s l] ds0 outs0 Hd _ IHF]; simpl; constructor; eauto.
Qed.



(** *** System folders are invisible *)

Local Abbreviation keep := (fun item : Item => negb (is_system_folder item)).







End Facts.
(** *** Termination and the sign of the counters *)

Section Totality.

Import GraphApiTermination.

Variable backend : Backend.
Variables site_id drive_id : string.

Local Abbreviation calc := (calculate_folder_size backend site_id drive_id).
Local Abbreviation descended :=
  (filter (fun folder => negb (is_system_name (get_or EmptyString (it_name folder))))).







Hypothesis Hsizes : sizes_nonneg backend.


End Totality.

End GraphApiFacts.

(** ** sharepoint_folder_size_v2.py: the walk *)

Module FolderSizeV2Facts.
Import FolderSizeV2 FolderSizeV2Termination.

#[local] Arguments files_url : simpl never.
#[local] Arguments folders_url : simpl never.

(** Induction over the report trees of this variant. *)
Lemma v2_nested_ind (P : ReportNode -> Prop) :
  (forall n, Forall P (subfolders n) -> P n) -> forall n, P n.
Proof.
  intro step. fix IH 1. intro n. apply step.
  destruct n as [p nm ts fc dc fs subs]. cbn [subfolders].
  induction subs as [|s subs IHs]; constructor; [apply IH | exact IHs].
Qed.

(** What folding a list of finished children leaves in [result]. *)
Lemma v2_fold_add_counted_subfolder (subs : list ReportNode) (r : ReportNode) :
  fold_left add_counted_subfolder subs r =
  Node (path r) (name r)
       (total_size r + zsum (map total_size subs))
       (file_count r + zsum (map file_count subs))
       (folder_count r + Z.of_nat (length subs) + zsum (map folder_count subs))
       (files r)
       (subfolders r ++ subs).
Proof.
  revert r. induction subs as [|s subs IH]; intro r.
  - destruct r; simpl. rewrite !Z.add_0_r, app_nil_r. reflexivity.
  - cbn [fold_left]. rewrite IH. destruct r.
    unfold add_counted_subfolder, add_subfolder, incr_folder_count.
    cbn [path name total_size file_count folder_count files subfolders].
    cbn [map zsum fold_right length].
    fold (zsum (map total_size subs)) (zsum (map file_count subs))
         (zsum (map folder_count subs)).
    rewrite <- app_assoc. f_equal; cbn [app]; try reflexivity; lia.
Qed.

(** The size that the file loop finds for an entry. *)
Local Abbreviation size_of := (fun file : RestItem => f_size (file_info_of file)).

(** The file loop over entries whose sizes are numbers runs through. *)
Lemma v2_process_files_numbers (file_entries : list RestItem) (sizes : list Z) :
  map size_of file_entries = map FolderSize.JNumber sizes ->
  forall r,
    process_files file_entries r
    = Completed (Node (path r) (name r)
                      (total_size r + zsum sizes)
                      (file_count r + Z.of_nat (length file_entries))
                      (folder_count r)
                      (files r ++ map file_info_of file_entries)
                      (subfolders r)).
Proof.
  revert sizes. induction file_entries as [|file rest IH]; intros sizes Hsizes r.
  - destruct sizes; [|discriminate]. destruct r; cbn.
    rewrite !Z.add_0_r, app_nil_r. reflexivity.
  - destruct sizes as [|z sizes]; [discriminate|]. cbn [map] in Hsizes.
    injection Hsizes as Hz Hrest.
    change (f_size (file_info_of file) = FolderSize.JNumber z) in Hz.
    cbn [process_files]. rewrite Hz. rewrite (IH _ Hrest).
    destruct r. unfold count_file, append_file.
    cbn [path name total_size file_count folder_count files subfolders].
    cbn [map length zsum fold_right]. fold (zsum sizes).
    rewrite <- app_assoc. f_equal. f_equal; cbn [app]; try reflexivity; lia.
Qed.

(** The file loop is left at the first entry whose size is not a number. *)
Lemma v2_process_files_stray (counted : list RestItem) (stray : RestItem)
      (rest : list RestItem) (sizes : list Z) :
  map size_of counted = map FolderSize.JNumber sizes ->
  (forall z, size_of stray <> FolderSize.JNumber z) ->
  forall r,
    process_files (counted ++ stray :: rest) r
    = Interrupted (Node (path r) (name r)
                        (total_size r + zsum sizes)
                        (file_count r + Z.of_nat (length counted))
                        (folder_count r)
                        (files r ++ map file_info_of (counted ++ [stray]))
                        (subfolders r)).
Proof.
  revert sizes. induction counted as [|file counted IH]; intros sizes Hsizes Hstray r.
  - destruct sizes; [|discriminate]. cbn [app process_files map].
    cbv beta in Hstray.
    destruct (f_size (file_info_of stray)) as [|z|s|items|members] eqn:Hs;
      try (destruct r; unfold append_file; cbn; rewrite !Z.add_0_r; reflexivity).
    now destruct (Hstray z).
  - destruct sizes as [|z sizes]; [discriminate|]. cbn [map] in Hsizes.
    injection Hsizes as Hz Hrest.
    change (f_size (file_info_of file) = FolderSize.JNumber z) in Hz.
    cbn [app process_files]. rewrite Hz. rewrite (IH _ Hrest Hstray).
    destruct r. unfold count_file, append_file.
    cbn [path name total_size file_count folder_count files subfolders].
    cbn [map length zsum fold_right app]. fold (zsum sizes).
    rewrite <- app_assoc. f_equal. f_equal; cbn [app]; try reflexivity; lia.
Qed.

(** A list of entries either has numbers for all its sizes or has a first
    entry whose size is not a number. *)
Lemma v2_first_stray (file_entries : list RestItem) :
  (exists sizes, map size_of file_entries = map FolderSize.JNumber sizes)
  \/ (exists counted stray rest sizes,
         file_entries = counted ++ stray :: rest
         /\ map size_of counted = map FolderSize.JNumber sizes
         /\ forall z, size_of stray <> FolderSize.JNumber z).
Proof.
  induction file_entries as [|file rest IH]; [left; now exists []|].
  destruct (f_size (file_info_of file)) as [|z|s|items|members] eqn:Hs;
    try (right; exists [], file, rest, []; repeat split; cbv beta; rewrite Hs; discriminate).
  destruct IH as [(sizes & Hsizes) | (counted & stray & more & sizes & -> & Hsizes & Hstray)].
  - left. exists (z :: sizes). cbn [map]. now rewrite Hs, Hsizes.
  - right. exists (file :: counted), stray, more, (z :: sizes).
    repeat split; [|exact Hstray]. cbn [map]. now rewrite Hs, Hsizes.
Qed.

Section Facts.

Variable backend : RestBackend.
Variable site_url : string.
Variable quote : string -> string.

Local Abbreviation calc := (calculate_folder_size backend site_url quote).
Local Abbreviation child_path :=
  (fun folder : RestItem => get_or EmptyString (ServerRelativeUrl folder)).

Lemma v2_process_subfolders_spec rec folders : forall r log r' log',
  process_subfolders rec folders r log = Some (r', log') ->
  exists outs,
    Forall2 (fun folder out => rec (child_path folder) = Some out) folders outs
    /\ r' = fold_left add_counted_subfolder (map fst outs) r
    /\ log' = log ++ concat (map snd outs).
Proof.
  induction folders as [|folder rest IH]; intros r log r' log' H; simpl in H.
  - injection H as <- <-. exists []. simpl. rewrite app_nil_r. repeat split. constructor.
  - destruct (rec _) as [[sub sublog]|] eqn:E; [|discriminate].
    apply IH in H as (outs & HF & -> & ->).
    exists ((sub, sublog) :: outs). simpl. rewrite app_assoc.
    repeat split. constructor; assumption.
Qed.

Lemma v2_process_subfolders_build rec folders outs :
  Forall2 (fun folder out => rec (child_path folder) = Some out) folders outs ->
  forall r log,
    process_subfolders rec folders r log
    = Some (fold_left add_counted_subfolder (map fst outs) r, log ++ concat (map snd outs)).
Proof.
  induction 1 as [|folder [sub sublog] folders outs Hd _ IH]; intros r log; simpl.
  - now rewrite app_nil_r.
  - cbv beta in Hd. rewrite Hd, IH. now rewrite app_assoc.
Qed.

(** The three shapes of a returned node, by the way the [try] block ended. *)
Lemma v2_calc_cases fuel folder_path r log :
  calc (S fuel) folder_path = Some (r, log) ->
  (* the listing raised *)
  (fst (get_folder_items backend site_url quote folder_path) = Raised
   /\ r = empty_result folder_path
   /\ log = snd (get_folder_items backend site_url quote folder_path))
  \/
  (* the file loop was left *)
  (exists file_entries folders counted stray rest sizes,
      get_folder_items backend site_url quote folder_path
      = (Returned (file_entries, folders), log)
      /\ file_entries = counted ++ stray :: rest
      /\ map size_of counted = map FolderSize.JNumber sizes
      /\ (forall z, size_of stray <> FolderSize.JNumber z)
      /\ r = Node folder_path (name (empty_result folder_path))
                  (zsum sizes) (Z.of_nat (length counted)) 0
                  (map file_info_of (counted ++ [stray])) [])
  \/
  (* both loops ran through *)
  (exists file_entries folders sizes outs log0,
      get_folder_items backend site_url quote folder_path
      = (Returned (file_entries, folders), log0)
      /\ map size_of file_entries = map FolderSize.JNumber sizes
      /\ Forall2 (fun folder out => calc fuel (child_path folder) = Some out) folders outs
      /\ r = Node folder_path (name (empty_result folder_path))
                  (zsum sizes + zsum (map total_size (map fst outs)))
                  (Z.of_nat (length file_entries) + zsum (map file_count (map fst outs)))
                  (Z.of_nat (length outs) + zsum (map folder_count (map fst outs)))
                  (map file_info_of file_entries)
                  (map fst outs)
      /\ log = log0 ++ concat (map snd outs)).
Proof.
  cbn [calculate_folder_size].
  destruct (get_folder_items backend site_url quote folder_path) as [[|[fs ds]] l0].
  - intros [= <- <-]. left. repeat split.
  - destruct (v2_first_stray fs)
      as [(sizes & Hsizes) | (counted & stray & more & sizes & -> & Hsizes & Hstray)].
    + rewrite (v2_process_files_numbers _ _ Hsizes). intro H.
      apply v2_process_subfolders_spec in H as (outs & HF & -> & ->).
      right. right. exists fs, ds, sizes, outs, l0.
      rewrite v2_fold_add_counted_subfolder.
      unfold empty_result.
      cbn [path name total_size file_count folder_count files subfolders app].
      rewrite !length_map. repeat split; [exact Hsizes | exact HF].
    + rewrite (v2_process_files_stray _ _ _ _ Hsizes Hstray). intros [= <- <-].
      right. left. exists (counted ++ stray :: more), ds, counted, stray, more, sizes.
      unfold empty_result.
      cbn [path name total_size file_count folder_count files subfolders app].
      repeat split; [exact Hsizes | exact Hstray].
Qed.

(** The path and the name of a returned node. *)
Lemma v2_calc_identity fuel folder_path r log :
  calc fuel folder_path = Some (r, log) ->
  path r = folder_path /\ name r = name (empty_result folder_path).
Proof.
  destruct fuel as [|fuel]; [discriminate|]. intro H.
  apply v2_calc_cases in H
    as [(_ & -> & _)
       | [(fs & ds & counted & stray & more & sizes & _ & _ & _ & _ & ->)
         | (fs & ds & sizes & outs & l0 & _ & _ & _ & -> & _)]];
    split; reflexivity.
Qed.

(** Every node of a returned tree satisfies the aggregation law, or is a
    node whose file loop was left at a size that is not a number. *)
Lemma v2_node_shapes fuel : forall folder_path r log,
  calc fuel folder_path = Some (r, log) ->
  Forall (fun n => aggregation_law n \/ interrupted_node n) (nodes r).
Proof.
  induction fuel as [|fuel IH]; intros p r log H; [discriminate|].
  apply v2_calc_cases in H
    as [(_ & -> & _)
       | [(fs & ds & counted & stray & more & sizes & _ & _ & Hsizes & Hstray & ->)
         | (fs & ds & sizes & outs & l0 & _ & Hsizes & HF & -> & _)]].
  - cbn [nodes subfolders empty_result flat_map]. constructor; [|constructor].
    left. exists []. repeat split.
  - cbn [nodes subfolders flat_map]. constructor; [|constructor].
    right. exists (map file_info_of counted), (file_info_of stray), sizes.
    cbn [files total_size file_count folder_count subfolders].
    rewrite map_app, length_map, map_map. repeat split; assumption.
  - cbn [nodes subfolders]. constructor.
    + left. exists sizes. cbn [files total_size file_count folder_count subfolders].
      rewrite !length_map, map_map. repeat split. exact Hsizes.
    + apply Forall_flat_map.
      clear - HF IH. induction HF as [|d [s l] ds0 outs0 Hd _ IHF]; simpl; constructor; eauto.
Qed.

(** The law of [folder_count] holds at every node, interrupted or not. *)
Lemma v2_folder_law fuel folder_path r log :
  calc fuel folder_path = Some (r, log) ->
  Forall (fun n => folder_count n
                   = Z.of_nat (length (subfolders n)) + zsum (map folder_count (subfolders n)))
         (nodes r).
Proof.
  intro H. apply v2_node_shapes in H. eapply Forall_impl; [|exact H].
  intros n [(sizes & _ & _ & _ & Hd) | (c & s & sizes & _ & _ & _ & _ & _ & Hd & Hsubs)].
  - exact Hd.
  - now rewrite Hd, Hsubs.
Qed.






Hypothesis Hsizes : sizes_nonneg backend.



End Facts.
End FolderSizeV2Facts.

(** ** Python's [json] module: a printed document is read back *)

Module PyJsonFacts.
Import Decimal DecimalString.
Import FolderSize PyJson.

Lemma Json_nested_ind (P : Json -> Prop) :
  P JNull -> (forall z, P (JNumber z)) ->
  (forall s, P (JString s)) ->
  (forall items, Forall P items -> P (JArray items)) ->
  (forall members, Forall (fun kv => P (snd kv)) members -> P (JObject members)) ->
  forall j, P j.
Proof.
  intros Hnull Hnum Hstr Harr Hobj. fix IH 1. intros [|z|s|items|members].
  - exact Hnull.
  - apply Hnum.
  - apply Hstr.
  - apply Harr. induction items as [|x items IHitems]; constructor; [apply IH | exact IHitems].
  - apply Hobj. induction members as [|[k v] members IHm]; constructor; [apply IH | exact IHm].
Qed.

Lemma parse_string_escape_char (c : ascii) (tail : string) :
  parse_string (escape_char c ++ tail) = cons_char c (parse_string tail).
Proof.
  destruct c as [[] [] [] [] [] [] [] []]; reflexivity.
Qed.

Lemma parse_string_escape (s rest : string) :
  parse_string (escape_string s ++ String dquote rest) = Some (s, rest).
Proof.
  induction s as [|c s IH]; [reflexivity|].
  cbn [escape_string]. rewrite string_append_assoc, parse_string_escape_char, IH. reflexivity.
Qed.

Lemma read_digits_print (d : uint) (rest : string) :
  no_digit_head rest ->
  read_digits (NilEmpty.string_of_uint d ++ rest) = (d, rest).
Proof.
  intro Hrest. induction d; cbn; try (rewrite IHd; reflexivity).
  destruct rest as [|c rest]; [reflexivity|]. cbn in *. now rewrite Hrest.
Qed.

Lemma uint_beq_refl (d : uint) : uint_beq d d = true.
Proof. induction d; simpl; auto. Qed.

(** The digits of an integer are in normal form. *)
Lemma to_int_normal (z : Z) :
  match Z.to_int z with
  | Pos d => unorm d = d /\ d <> Nil
  | Neg d => unorm d = d /\ d <> Nil
  end.
Proof.
  destruct z as [|p|p]; cbn.
  - split; [reflexivity | discriminate].
  - pose proof (DecimalPos.Unsigned.to_uint_nonnil p) as Hnil.
    pose proof (DecimalZ.to_of (Z.to_int (Z.pos p))) as Hnorm.
    rewrite DecimalZ.of_to in Hnorm. cbn in Hnorm. injection Hnorm as Hnorm.
    split; [now symmetry | exact Hnil].
  - pose proof (DecimalPos.Unsigned.to_uint_nonnil p) as Hnil.
    pose proof (DecimalZ.to_of (Z.to_int (Z.neg p))) as Hnorm.
    rewrite DecimalZ.of_to in Hnorm. cbn in Hnorm.
    split; [|exact Hnil].
    unfold unorm. destruct (nzhead (Pos.to_uint p)) eqn:E; try (injection Hnorm as <-; reflexivity).
    discriminate Hnorm.
Qed.

(** A printed digit string starts with a digit. *)
Lemma string_of_uint_head (d : uint) :
  d <> Nil ->
  exists c tail, NilEmpty.string_of_uint d = String c tail /\ digit_of c <> None.
Proof.
  destruct d; intro H; try contradiction; cbn; eexists; eexists; split;
    try reflexivity; discriminate.
Qed.

Lemma parse_number_print (z : Z) (rest : string) :
  no_digit_head rest ->
  parse_number (print_int z ++ rest) = Some (z, rest).
Proof.
  intro Hrest. unfold print_int.
  pose proof (to_int_normal z) as Hnormal.
  pose proof (DecimalZ.of_to z) as Hz.
  destruct (Z.to_int z) as [d|d]; destruct Hnormal as [Hnorm Hnil].
  - cbn [NilEmpty.string_of_int].
    destruct (string_of_uint_head d Hnil) as (c & tail & Hhead & Hdigit).
    pose proof (read_digits_print d rest Hrest) as Hread.
    rewrite Hhead in *. cbn [append] in *. unfold parse_number.
    assert (Hminus : Ascii.eqb c "-" = false).
    { destruct (Ascii.eqb_spec c "-") as [->|]; [|reflexivity]. now elim Hdigit. }
    rewrite Hminus, Hread, Hnorm, uint_beq_refl, Hz. reflexivity.
  - cbn [NilEmpty.string_of_int append]. unfold parse_number.
    rewrite Ascii.eqb_refl, (read_digits_print d rest Hrest), Hnorm, uint_beq_refl, Hz.
    reflexivity.
Qed.

Lemma skip_ws_spaces (n : nat) (s : string) : skip_ws (spaces n ++ s) = skip_ws s.
Proof. induction n as [|n IH]; [reflexivity | exact IH]. Qed.

Lemma skip_ws_newline_indent (level : nat) (s : string) :
  skip_ws (newline_indent level ++ s) = skip_ws s.
Proof. unfold newline_indent. cbn. apply skip_ws_spaces. Qed.

(** White space before a value, an element or a member is skipped. *)
Lemma parse_value_ws (fuel : nat) (s s' : string) :
  skip_ws s = skip_ws s' -> parse_value fuel s = parse_value fuel s'.
Proof. intro H. destruct fuel; [reflexivity|]. cbn [parse_value]. now rewrite H. Qed.

Lemma parse_elements_ws (fuel : nat) (s s' : string) :
  skip_ws s = skip_ws s' -> parse_elements fuel s = parse_elements fuel s'.
Proof.
  intro H. destruct fuel; [reflexivity|]. cbn [parse_elements].
  now rewrite (parse_value_ws fuel s s' H).
Qed.

Lemma parse_members_ws (fuel : nat) (s s' : string) :
  skip_ws s = skip_ws s' -> parse_members fuel s = parse_members fuel s'.
Proof. intro H. destruct fuel; [reflexivity|]. cbn [parse_members]. now rewrite H. Qed.

Lemma parse_value_space (fuel : nat) (s : string) :
  parse_value fuel (String " " s) = parse_value fuel s.
Proof. now apply parse_value_ws. Qed.

Lemma parse_value_number (fuel : nat) (c : ascii) (tail : string) :
  is_number_head c = true ->
  parse_value (S fuel) (String c tail)
  = match parse_number (String c tail) with
    | Some (z, r) => Some (JNumber z, r)
    | None => None
    end.
Proof.
  destruct c as [[] [] [] [] [] [] [] []]; intro H; try discriminate H; reflexivity.
Qed.

Lemma print_int_head (z : Z) (rest : string) :
  exists c tail, (print_int z ++ rest)%string = String c tail /\ is_number_head c = true.
Proof.
  unfold print_int. pose proof (to_int_normal z) as Hn.
  destruct (Z.to_int z) as [d|d]; destruct Hn as [_ Hnil]; cbn [NilEmpty.string_of_int].
  - destruct (string_of_uint_head d Hnil) as (c & tail & -> & Hd).
    exists c, (tail ++ rest)%string. split; [reflexivity|].
    unfold is_number_head. destruct (digit_of c); [reflexivity | contradiction].
  - eexists. eexists. split; reflexivity.
Qed.

Lemma is_number_head_value (c : ascii) : is_number_head c = true -> is_value_head c = true.
Proof.
  destruct c as [[] [] [] [] [] [] [] []]; intro H; try discriminate H; reflexivity.
Qed.

Lemma print_json_head (level : nat) (j : Json) (rest : string) :
  exists c tail, (print_json level j ++ rest)%string = String c tail /\ is_value_head c = true.
Proof.
  destruct j as [|z|s|[|x items]|[|kv members]];
    try (eexists; eexists; split; reflexivity).
  destruct (print_int_head z rest) as (c & tail & H & Hc).
  exists c, tail. split; [exact H | now apply is_number_head_value].
Qed.

Lemma skip_ws_value_head (c : ascii) (tail : string) :
  is_value_head c = true -> skip_ws (String c tail) = String c tail.
Proof.
  unfold is_value_head. intro H. cbn. destruct (is_ws c); [discriminate|reflexivity].
Qed.

(** The three openings that lead to a recursive descent. *)
Lemma parse_value_array (fuel : nat) (s : string) :
  parse_value (S fuel) (String "[" s)
  = match skip_ws s with
    | String c' rest' =>
        if Ascii.eqb c' "]" then Some (JArray [], rest')
        else match parse_elements fuel (String c' rest') with
             | Some (items, r) => Some (JArray items, r)
             | None => None
             end
    | EmptyString => None
    end.
Proof. reflexivity. Qed.

Lemma parse_value_object (fuel : nat) (s : string) :
  parse_value (S fuel) (String "{" s)
  = match skip_ws s with
    | String c' rest' =>
        if Ascii.eqb c' "}" then Some (JObject [], rest')
        else match parse_members fuel (String c' rest') with
             | Some (members, r) => Some (JObject members, r)
             | None => None
             end
    | EmptyString => None
    end.
Proof. reflexivity. Qed.

Lemma parse_value_string (fuel : nat) (s : string) :
  parse_value (S fuel) (String dquote s)
  = match parse_string s with
    | Some (str, r) => Some (JString str, r)
    | None => None
    end.
Proof. reflexivity. Qed.

(** A member: the key, a colon, the value. *)
Lemma parse_members_key (fuel : nat) (key rest : string) :
  parse_members (S fuel) (encode_string key ++ String ":" (String " " rest))
  = match parse_value fuel rest with
    | Some (v, rest3) =>
        match skip_ws rest3 with
        | String c rest4 =>
            if Ascii.eqb c "," then
              match parse_members fuel rest4 with
              | Some (ms, r) => Some ((key, v) :: ms, r)
              | None => None
              end
            else if Ascii.eqb c "}" then Some ([(key, v)], rest4)
            else None
        | EmptyString => None
        end
    | None => None
    end.
Proof.
  unfold encode_string. cbn [append]. rewrite string_append_assoc. cbn [append].
  change (parse_members (S fuel) (String dquote ?s))
    with (match parse_string s with
          | Some (key, rest1) =>
              match skip_ws rest1 with
              | String colon rest2 =>
                  if Ascii.eqb colon ":" then
                    match parse_value fuel rest2 with
                    | Some (v, rest3) =>
                        match skip_ws rest3 with
                        | String c rest4 =>
                            if Ascii.eqb c "," then
                              match parse_members fuel rest4 with
                              | Some (ms, r) => Some ((key, v) :: ms, r)
                              | None => None
                              end
                            else if Ascii.eqb c "}" then Some ([(key, v)], rest4)
                            else None
                        | EmptyString => None
                        end
                    | None => None
                    end
                  else None
              | EmptyString => None
              end
          | None => None
          end).
  rewrite parse_string_escape.
  cbn [skip_ws is_ws Ascii.eqb Bool.eqb orb].
  now rewrite parse_value_space.
Qed.

Lemma parse_elements_print (level : nat) (rest : string) :
  forall others first fuel,
    parses_back first -> Forall parses_back others ->
    (elements_fuel (first :: others) <= fuel)%nat ->
    parse_elements fuel
      (print_json (S level) first
       ++ print_more (print_json (S level)) (item_separator (S level)) others
       ++ newline_indent level ++ String "]" rest)
    = Some (first :: others, rest).
Proof.
  induction others as [|x others IH]; intros first fuel Hfirst Hothers Hfuel.
  - destruct fuel as [|fuel]; [cbn in Hfuel; lia|]. cbn [parse_elements print_more].
    rewrite Hfirst; [| reflexivity | cbn in Hfuel; lia].
    cbn [append]. rewrite skip_ws_newline_indent. reflexivity.
  - assert (Hsplit : (S (json_fuel first + elements_fuel (x :: others)) <= fuel)%nat)
      by exact Hfuel.
    destruct fuel as [|fuel]; [lia|]. cbn [parse_elements print_more].
    unfold item_separator at 1. rewrite !string_append_assoc. cbn [append].
    rewrite Hfirst; [| reflexivity | lia].
    cbn [skip_ws is_ws Ascii.eqb Bool.eqb orb].
    rewrite (parse_elements_ws fuel _ _ (skip_ws_newline_indent _ _)).
    inversion Hothers; subst.
    rewrite IH; [reflexivity | assumption | assumption | lia].
Qed.

Lemma parse_members_print (level : nat) (rest : string) :
  forall others first fuel,
    parses_back (snd first) -> Forall (fun kv => parses_back (snd kv)) others ->
    (members_fuel (first :: others) <= fuel)%nat ->
    parse_members fuel
      (print_member (print_json (S level)) first
       ++ print_more_members (print_json (S level)) (item_separator (S level)) others
       ++ newline_indent level ++ String "}" rest)
    = Some (first :: others, rest).
Proof.
  induction others as [|x others IH]; intros [key val] fuel Hfirst Hothers Hfuel;
    cbn [snd] in Hfirst.
  - destruct fuel as [|fuel]; [cbn in Hfuel; lia|].
    cbn [print_more_members]. unfold print_member. cbn [fst snd].
    rewrite !string_append_assoc. cbn [append].
    rewrite parse_members_key.
    rewrite Hfirst; [| reflexivity | cbn in Hfuel; lia].
    rewrite skip_ws_newline_indent. reflexivity.
  - assert (Hsplit : (S (json_fuel val + members_fuel (x :: others)) <= fuel)%nat)
      by exact Hfuel.
    destruct fuel as [|fuel]; [lia|].
    cbn [print_more_members]. unfold print_member at 1. cbn [fst snd].
    unfold item_separator at 1.
    rewrite !string_append_assoc. cbn [append].
    rewrite parse_members_key.
    rewrite Hfirst; [| reflexivity | lia].
    cbn [skip_ws is_ws Ascii.eqb Bool.eqb orb].
    rewrite (parse_members_ws fuel _ _ (skip_ws_newline_indent _ _)).
    inversion Hothers; subst.
    rewrite IH; [reflexivity | assumption | assumption | lia].
Qed.

Theorem parse_print : forall j, parses_back j.
Proof.
  induction j as [|z|s|items IH|members IH] using Json_nested_ind;
    intros level rest fuel Hrest Hfuel;
    (destruct fuel as [|fuel]; [cbn in Hfuel; lia|]).
  - reflexivity.
  - cbn [print_json].
    destruct (print_int_head z rest) as (c & tail & Hhead & Hc).
    pose proof (parse_number_print z rest Hrest) as Hnum.
    rewrite Hhead in *. rewrite (parse_value_number fuel c tail Hc), Hnum. reflexivity.
  - cbn [print_json]. unfold encode_string. cbn [append].
    rewrite parse_value_string, string_append_assoc. cbn [append].
    now rewrite parse_string_escape.
  - destruct items as [|first others]; [reflexivity|].
    cbn [print_json]. rewrite !string_append_assoc. cbn [append].
    rewrite parse_value_array, skip_ws_newline_indent.
    set (body := (print_json (S level) first ++ _)%string).
    pose proof (parse_elements_print level rest others first fuel) as Helems.
    inversion IH as [|? ? Hfirst Hothers]; subst.
    specialize (Helems Hfirst Hothers).
    destruct (print_json_head (S level) first
                (print_more (print_json (S level)) (item_separator (S level)) others
                 ++ newline_indent level ++ String "]" rest))
      as (c & tail & Hhead & Hc).
    fold body in Helems, Hhead. rewrite Hhead in *.
    rewrite (skip_ws_value_head c tail Hc).
    unfold is_value_head in Hc.
    apply andb_true_iff in Hc as [Hc _]. apply andb_true_iff in Hc as [_ Hc].
    apply negb_true_iff in Hc. rewrite Hc.
    rewrite Helems; [reflexivity|].
    cbn [json_fuel] in Hfuel. fold (elements_fuel (first :: others)) in Hfuel. lia.
  - destruct members as [|first others]; [reflexivity|].
    cbn [print_json]. rewrite !string_append_assoc. cbn [append].
    rewrite parse_value_object, skip_ws_newline_indent.
    set (body := (print_member (print_json (S level)) first ++ _)%string).
    pose proof (parse_members_print level rest others first fuel) as Hmem.
    inversion IH as [|? ? Hfirst Hothers]; subst.
    specialize (Hmem Hfirst Hothers). fold body in Hmem.
    assert (Hhead : exists tail, body = String dquote tail).
    { subst body. destruct first as [key val]. unfold print_member, encode_string.
      cbn [fst append]. eauto. }
    destruct Hhead as (tail & Hhead). rewrite Hhead in *.
    cbn [skip_ws is_ws dquote Ascii.eqb Bool.eqb orb].
    fold dquote. rewrite Hmem; [reflexivity|].
    cbn [json_fuel] in Hfuel. fold (members_fuel (first :: others)) in Hfuel. lia.
Qed.

Theorem json_parse_print (j : Json) (fuel : nat) :
  (json_fuel j <= fuel)%nat -> json_parse fuel (print_json 0 j) = Some j.
Proof.
  intro Hfuel. unfold json_parse.
  pose proof (parse_print j 0%nat EmptyString fuel I Hfuel) as H.
  assert (Hnil : forall s : string, (s ++ "")%string = s)
    by (induction s as [|c s IH]; simpl; [reflexivity | now rewrite IH]).
  rewrite Hnil in H. now rewrite H.
Qed.

Lemma print_json_fuel : forall j level,
  (json_fuel j <= String.length (print_json level j))%nat.
Proof.
  induction j as [|z|s|items IH|members IH] using Json_nested_ind; intro level.
  - cbn. lia.
  - cbn [print_json json_fuel].
    destruct (print_int_head z EmptyString) as (c & tail & Hhead & _).
    apply (f_equal String.length) in Hhead. rewrite string_length_append in Hhead.
    cbn in Hhead. lia.
  - cbn [print_json json_fuel]. unfold encode_string. cbn. lia.
  - destruct items as [|first others]; [cbn; lia|].
    cbn [print_json json_fuel]. fold (elements_fuel (first :: others)).
    rewrite !string_length_append. cbn [String.length newline_indent].
    assert (Hmore : forall l, Forall (fun j => forall level,
                       (json_fuel j <= String.length (print_json level j))%nat) l ->
              (elements_fuel l
               <= String.length (print_more (print_json (S level))
                                            (item_separator (S level)) l))%nat).
    { induction 1 as [|x l Hx _ IHl]; [cbn; lia|].
      unfold elements_fuel in *. cbn [fold_right print_more].
      rewrite !string_length_append. unfold item_separator at 1.
      cbn [String.length newline_indent]. specialize (Hx (S level)). lia. }
    inversion IH as [|? ? Hfirst Hothers]; subst.
    specialize (Hmore others Hothers). specialize (Hfirst (S level)).
    unfold elements_fuel in *. cbn [fold_right]. lia.
  - destruct members as [|first others]; [cbn; lia|].
    cbn [print_json json_fuel]. fold (members_fuel (first :: others)).
    rewrite !string_length_append. cbn [String.length newline_indent].
    assert (Hmore : forall l, Forall (fun kv => forall level,
                       (json_fuel (snd kv) <= String.length (print_json level (snd kv)))%nat) l ->
              (members_fuel l
               <= String.length (print_more_members (print_json (S level))
                                                    (item_separator (S level)) l))%nat).
    { induction 1 as [|x l Hx _ IHl]; [cbn; lia|].
      unfold members_fuel in *. cbn [fold_right print_more_members].
      rewrite !string_length_append. unfold item_separator at 1, print_member.
      rewrite !string_length_append.
      cbn [String.length newline_indent]. specialize (Hx (S level)). lia. }
    inversion IH as [|? ? Hfirst Hothers]; subst.
    specialize (Hmore others Hothers). specialize (Hfirst (S level)).
    unfold members_fuel in *. cbn [fold_right]. unfold print_member.
    rewrite !string_length_append. lia.
Qed.

Local Open Scope string_scope.

(** The file of a folder with one file, as [json.dump] lays it out. *)
Example export_to_json_text_sample :
  apostrophes (export_to_json_text
                 (Node (Some "i") "p" "n" 5 1 0 [mkFileInfo "a" 5 "t" "u"] []))
  = "{
  'id': 'i',
  'path': 'p',
  'name': 'n',
  'total_size': 5,
  'file_count': 1,
  'folder_count': 0,
  'files': [
    {
      'name': 'a',
      'size': 5,
      'last_modified': 't',
      'path': 'u'
    }
  ],
  'subfolders': []
}"%string.
Proof. reflexivity. Qed.

(** Escapes: a quote, a backslash, a line break and a character above 126. *)
Example escape_string_sample :
  apostrophes (encode_string (String dquote (String backslash (String newline
                 (String (ascii_of_nat 233) "/ a"%string)))))
  = "'\'\\\n\u00e9/ a'"%string.
Proof. reflexivity. Qed.

End PyJsonFacts.

(** ** sharepoint_folder_size.py: the exporters *)

Module ExportFacts.
Import FolderSize.

Lemma file_dict_round_trip (file : FileInfo) :
  json_load (json_dump (file_dict file)) = file_dict file.
Proof. reflexivity. Qed.

Lemma file_dict_inj (f g : FileInfo) : file_dict f = file_dict g -> f = g.
Proof.
  destruct f, g. unfold file_dict. cbn [f_name f_size f_last_modified f_path].
  intro H. injection H as -> -> -> ->. reflexivity.
Qed.

Lemma map_inj {A B : Type} (f : A -> B) (l : list A) :
  Forall (fun a => forall a', f a = f a' -> a = a') l ->
  forall l', map f l = map f l' -> l = l'.
Proof.
  induction 1 as [|a l Ha _ IH]; intros [|a' l'] H; simpl in H; try discriminate.
  - reflexivity.
  - injection H as H1 H2. f_equal; auto.
Qed.

Lemma result_dict_round_trip : forall n,
  json_load (json_dump (result_dict n)) = result_dict n.
Proof.
  induction n as [n IH] using ReportNode_nested_ind.
  destruct n as [i p nm ts fc dc fs subs]. cbn [subfolders] in IH.
  cbn [result_dict json_dump json_load map fst snd node_id path name total_size
       file_count folder_count files subfolders].
  do 2 f_equal; [destruct i; reflexivity|].
  do 5 f_equal. f_equal; [|f_equal].
  - do 2 f_equal. rewrite !map_map. apply map_ext. intro f. reflexivity.
  - do 2 f_equal. rewrite !map_map. apply map_ext_Forall. exact IH.
Qed.

Lemma result_dict_inj : forall n m, result_dict n = result_dict m -> n = m.
Proof.
  induction n as [n IH] using ReportNode_nested_ind.
  destruct n as [i p nm ts fc dc fs subs]. cbn [subfolders] in IH.
  intros [i' p' nm' ts' fc' dc' fs' subs'].
  cbn [result_dict node_id path name total_size file_count folder_count files subfolders].
  intro H. injection H as Hi -> -> -> -> -> Hfs Hsubs.
  f_equal.
  - destruct i, i'; congruence.
  - apply (map_inj file_dict); [|exact Hfs].
    apply Forall_forall. intros f _ g. apply file_dict_inj.
  - apply (map_inj result_dict); assumption.
Qed.

(** The dump is not the identity on every Python value: a tuple comes back
    as a list. *)
Lemma json_tuple_does_not_round_trip :
  json_load (json_dump (PyTuple [PyInt 1])) <> PyTuple [PyInt 1].
Proof. discriminate. Qed.

(** *** The row stream *)

Section Csv.

Variable format_size : Z -> string.

Lemma write_files_spec (fs : list FileInfo) : forall written,
  fold_left (fun w file => writerow w (file_row format_size file)) fs written
  = written ++ map (file_row format_size) fs.
Proof.
  induction fs as [|f fs IH]; intro w; simpl.
  - now rewrite app_nil_r.
  - rewrite IH. unfold writerow. now rewrite <- app_assoc.
Qed.

Lemma write_folder_data_spec : forall n written,
  write_folder_data format_size n written = written ++ preorder_rows format_size n.
Proof.
  induction n as [n IH] using ReportNode_nested_ind.
  destruct n as [i p nm ts fc dc fs subs]. cbn [subfolders] in IH.
  intro w. cbn [write_folder_data preorder_rows files subfolders].
  assert (Hsubs : forall acc,
             fold_left (fun w subfolder => write_folder_data format_size subfolder w)
                       subs acc
             = acc ++ flat_map (preorder_rows format_size) subs).
  { clear - IH. induction IH as [|s subs Hs _ IHsubs]; intro acc; simpl.
    - now rewrite app_nil_r.
    - rewrite Hs, IHsubs. now rewrite <- app_assoc. }
  rewrite Hsubs, write_files_spec. unfold writerow.
  rewrite <- !app_assoc. reflexivity.
Qed.

End Csv.
End ExportFacts.

(** ** Listings without end *)

Module EndlessListing.

Section Facts.
Variable backend : Backend.
Variables site_id drive_id : string.

Lemma fs_page_loop_endless (visited : string -> Prop) :
  (forall u, visited u ->
     truthy (Some u) = true
     /\ exists page next,
          backend u = Status 200 page /\ folders_named page
          /\ nextLink page = Some next /\ visited next) ->
  forall fuel url files folders log,
    visited url ->
    FolderSize.page_loop backend fuel (Some url) files folders log = None.
Proof.
  intros Hstep. induction fuel as [|fuel IH]; intros url fs ds log Hurl; [reflexivity|].
  destruct (Hstep url Hurl) as (Hty & page & next & Hb & Hok & Hnext & Hvisited).
  cbn [FolderSize.page_loop]. rewrite Hty, Hb. cbn [Z.eqb Pos.eqb].
  rewrite (FolderSizeFacts.fs_scan_items_named _ _ _ Hok), Hnext.
  now apply IH.
Qed.

Lemma ga_page_loop_endless (visited : string -> Prop) :
  (forall u, visited u ->
     truthy (Some u) = true
     /\ exists page next,
          backend u = Status 200 page /\ True
          /\ nextLink page = Some next /\ visited next) ->
  forall fuel url files folders log,
    visited url ->
    GraphApi.page_loop backend fuel (Some url) files folders log = None.
Proof.
  intros Hstep. induction fuel as [|fuel IH]; intros url fs ds log Hurl; [reflexivity|].
  destruct (Hstep url Hurl) as (Hty & page & next & Hb & _ & Hnext & Hvisited).
  cbn [GraphApi.page_loop]. rewrite Hty, Hb. cbn [Z.eqb Pos.eqb].
  rewrite GraphApiFacts.ga_scan_items_spec, Hnext.
  now apply IH.
Qed.

End Facts.



End EndlessListing.

Lemma loop_backend_endless (ok : Page -> Prop) (url : string) :
  truthy (Some url) = true ->
  ok (mkPage [Examples.file_item "again" 1] (Some url)) ->
  endless_listing ok Examples.loop_backend url.
Proof.
  intros Hurl Hok. exists (fun u => u = url). split; [reflexivity|].
  intros u ->. split; [exact Hurl|].
  exists (mkPage [Examples.file_item "again" 1] (Some url)), url. repeat split. exact Hok.
Qed.

(* ================================================================== *)
(** * The claims *)

Import Examples.

Local Open Scope string_scope.
Local Open Scope Z_scope.
Local Open Scope list_scope.

(** ** C1 *)

(** C1 (aggregation law), where the code departs from it.  The walk of
    [sharepoint_folder_size.py] keeps the law at every node: [total_size n]
    is the sum of the sizes of [files n] plus the sum of the [total_size] of
    [subfolders n], [file_count n] is [len (files n)] plus the sum of the
    [file_count] of the subfolders, and [folder_count n] is
    [len (subfolders n)] plus the sum of the [folder_count] of the
    subfolders.  The walk of [sharepoint_folder_size_v2.py] keeps it at the
    nodes whose sizes are numbers, and nowhere else: a file is appended to
    [files] before its size is added, so at a size that is not a number the
    addition raises with the file in the list and out of the counters, the
    handler of the walk swallows the exception, and the node comes back with
    one file more than [file_count] counts and without its subfolders.  With
    the lengths as [odata=verbose] writes them, as strings, the walk of
    [Docs] returns the file [d1], a [file_count] and a [total_size] of [0]
    and no subfolder, [Sub] never being visited. *)
Theorem c1_aggregation_law :
  (forall backend site_id drive_id fuel folder_item r log n,
      FolderSize.calculate_folder_size backend site_id drive_id fuel folder_item
      = Some (r, log) ->
      In n (nodes r) -> aggregation_law n)
  /\
  (forall backend site_url quote fuel folder_path r log n,
      FolderSizeV2.calculate_folder_size backend site_url quote fuel folder_path
      = Some (r, log) ->
      In n (FolderSizeV2.nodes r) ->
      FolderSizeV2.aggregation_law n \/ FolderSizeV2.interrupted_node n)
  /\
  (forall n,
      FolderSizeV2.interrupted_node n ->
      ~ FolderSizeV2.aggregation_law n
      /\ FolderSizeV2.file_count n
         = Z.of_nat (length (FolderSizeV2.files n)) - 1
           + zsum (map FolderSizeV2.file_count (FolderSizeV2.subfolders n)))
  /\
  FolderSizeV2.calculate_folder_size rest_backend_verbose "https://t" plain_quote 3
                                     "/sites/X/Docs"
  = Some (FolderSizeV2.Node
            "/sites/X/Docs" "Docs" 0 0 0
            [FolderSizeV2.mkFileInfo "d1" (FolderSize.JString "100") ""
                                     "/sites/X/Docs/d1"]
            [],
          [FolderSizeV2.files_url "https://t" plain_quote "/sites/X/Docs";
           FolderSizeV2.folders_url "https://t" plain_quote "/sites/X/Docs"]).
Proof.
  split; [|split; [|split]].
  - intros backend site_id drive_id fuel it r log n H Hn.
    apply FolderSizeFacts.fs_law_all_nodes in H.
    rewrite Forall_forall in H. now apply H.
  - intros backend site_url quote fuel p r log n H Hn.
    apply FolderSizeV2Facts.v2_node_shapes in H.
    rewrite Forall_forall in H. now apply H.
  - intros n (counted & stray & sizes & Hfiles & _ & Hstray & _ & Hcount & _ & Hsubs).
    split.
    + intros (sizes' & Hsizes' & _).
      assert (Hin : In (FolderSizeV2.f_size stray)
                       (map FolderSizeV2.f_size (FolderSizeV2.files n))).
      { rewrite Hfiles. apply in_map, in_or_app. right. now left. }
      rewrite Hsizes' in Hin. apply in_map_iff in Hin as (z & Hz & _).
      exact (Hstray z (eq_sym Hz)).
    + rewrite Hfiles, Hsubs, Hcount, length_app. cbn [length map zsum fold_right]. lia.
  - vm_compute. reflexivity.
Qed.

Lemma c1_aggregation_law_witness :
  (exists r log,
      FolderSize.calculate_folder_size id_backend "S" "D" 4 (folder_item "A")
      = Some (r, log)
      /\ total_size r = 300 /\ file_count r = 2 /\ folder_count r = 1
      /\ aggregation_law r)
  /\
  (exists r log,
      FolderSizeV2.calculate_folder_size rest_backend "https://t" plain_quote 3
                                         "/sites/X/Docs"
      = Some (r, log)
      /\ FolderSizeV2.total_size r = 300 /\ FolderSizeV2.file_count r = 2
      /\ FolderSizeV2.folder_count r = 1
      /\ (FolderSizeV2.aggregation_law r \/ FolderSizeV2.interrupted_node r)).
Proof.
  split.
  - eexists. eexists. split; [vm_compute; reflexivity|].
    repeat (split; [reflexivity|]).
    eapply (proj1 c1_aggregation_law id_backend "S" "D" 4%nat (folder_item "A")).
    + vm_compute. reflexivity.
    + left. reflexivity.
  - eexists. eexists. split; [vm_compute; reflexivity|].
    repeat (split; [reflexivity|]).
    eapply (proj1 (proj2 c1_aggregation_law) rest_backend "https://t" plain_quote 3%nat
                  "/sites/X/Docs").
    + vm_compute. reflexivity.
    + left. reflexivity.
Defined.

(** ** C2 *)



(** ** C3 *)

Lemma id_backend_B_fails_agree :
  agree_except id_backend id_backend_B_fails (FolderSize.children_url "S" "D" "id-B").
Proof.
  intros url Hne. unfold id_backend_B_fails.
  apply String.eqb_neq in Hne. now rewrite Hne.
Qed.

Lemma id_backend_never_cursor_B :
  never_cursor id_backend (FolderSize.children_url "S" "D" "id-B").
Proof.
  intros url code page H. unfold id_backend in H.
  backend_cases H; injection H as <- <-; discriminate.
Qed.

(** C3 (failure isolation).  Let the listing of one folder identifier [x]
    fail before any page is returned (the request raises or answers with a
    status other than 200), everything else being as on [backend], and let
    the URL of that listing never be handed out as a cursor.  Then (1) the
    walk of a folder with identifier [x] returns the empty node of that
    folder: zero totals, no files, no subfolders; (2) every walk that returns
    on [backend] returns on the failing backend too, with the same fuel, and
    its report is the report of [backend] in which the nodes of [x] are
    emptied and the totals of their ancestors are aggregated again; (3) in
    particular a walk whose report holds no node of [x] (a sibling or an
    uncle of the failing folder) returns exactly the same report. *)
Theorem c3_failure_isolation backend backend' site_id drive_id x :
  agree_except backend backend' (FolderSize.children_url site_id drive_id x) ->
  listing_fails backend' (FolderSize.children_url site_id drive_id x) ->
  never_cursor backend (FolderSize.children_url site_id drive_id x) ->
  (forall fuel folder_item,
      it_id folder_item = Some x -> x <> "" ->
      FolderSize.calculate_folder_size backend' site_id drive_id (S (S fuel)) folder_item
      = Some (FolderSize.empty_result folder_item,
              [FolderSize.children_url site_id drive_id x]))
  /\
  (forall fuel folder_item r log,
      FolderSize.calculate_folder_size backend site_id drive_id fuel folder_item
      = Some (r, log) ->
      exists log',
        FolderSize.calculate_folder_size backend' site_id drive_id fuel folder_item
        = Some (prune x r, log'))
  /\
  (forall fuel folder_item r log,
      FolderSize.calculate_folder_size backend site_id drive_id fuel folder_item
      = Some (r, log) ->
      Forall (fun n => has_id x n = false) (nodes r) ->
      exists log',
        FolderSize.calculate_folder_size backend' site_id drive_id fuel folder_item
        = Some (r, log')).
Proof.
  intros Hagree Hfails Hcursor. repeat split.
  - intros fuel it Hid Hx. cbn [FolderSize.calculate_folder_size].
    rewrite Hid. cbn [truthy get_or].
    apply String.eqb_neq in Hx. rewrite Hx. cbn [negb].
    rewrite FolderSizeFacts.fs_failed_listing by exact Hfails.
    reflexivity.
  - intros fuel it r log H.
    eapply FolderSizeFacts.fs_calc_isolated; eassumption.
  - intros fuel it r log H Hx.
    destruct (FolderSizeFacts.fs_calc_isolated _ _ _ _ _ Hagree Hfails Hcursor _ _ _ _ H)
      as (log' & H').
    exists log'. rewrite H'. f_equal. f_equal.
    apply prune_untouched; [|exact Hx].
    eapply FolderSizeFacts.fs_law_all_nodes; eassumption.
Qed.

Lemma c3_failure_isolation_witness :
  (FolderSize.calculate_folder_size id_backend_B_fails "S" "D" 2 (folder_item "B")
   = Some (Node (Some "id-B") "https://sp/B" "B" 0 0 0 [] [],
           [FolderSize.children_url "S" "D" "id-B"]))
  /\
  (exists r log r' log',
      FolderSize.calculate_folder_size id_backend "S" "D" 4 (folder_item "A")
      = Some (r, log)
      /\ FolderSize.calculate_folder_size id_backend_B_fails "S" "D" 4 (folder_item "A")
         = Some (r', log')
      /\ r' = prune "id-B" r
      /\ total_size r = 300 /\ total_size r' = 100
      /\ files r' = files r)
  /\
  (exists r log log',
      FolderSize.calculate_folder_size id_backend "S" "D" 4 (folder_item "N")
      = Some (r, log)
      /\ FolderSize.calculate_folder_size id_backend_B_fails "S" "D" 4 (folder_item "N")
         = Some (r, log')).
Proof.
  destruct (c3_failure_isolation id_backend id_backend_B_fails "S" "D" "id-B"
              id_backend_B_fails_agree I id_backend_never_cursor_B)
    as (Hempty & Hprune & Hsame).
  split; [|split].
  - apply (Hempty 0%nat (folder_item "B")); [reflexivity | discriminate].
  - destruct (Hprune 4%nat (folder_item "A") _ _ eq_refl) as (log' & H').
    eexists. eexists. eexists. eexists.
    split; [vm_compute; reflexivity|].
    split; [exact H'|].
    repeat split; reflexivity.
  - destruct (Hsame 4%nat (folder_item "N") _ _ eq_refl) as (log' & H').
    + repeat constructor.
    + eexists. eexists. eexists. split; [vm_compute; reflexivity | exact H'].
Defined.

(** ** C4 *)

(** In [sharepoint_folder_size.py] a root that cannot be resolved is an
    explicit failure: [analyze_site] returns [None]. *)
Lemma fs_analyze_site_root_failure backend item_backend get_site_and_drive quote
      fuel site_url folder_path :
  (forall url, match item_backend url with
               | Raises => True
               | Status code _ => code <> 200
               end) ->
  FolderSize.analyze_site backend item_backend get_site_and_drive quote
                          fuel site_url folder_path
  = Some None.
Proof.
  intro Hfail.
  assert (Hnone : forall s d p,
             FolderSize.get_drive_item_by_path item_backend quote s d p = None).
  { intros s0 d0 p0. unfold FolderSize.get_drive_item_by_path.
    match goal with |- match item_backend ?u with _ => _ end = _ =>
      specialize (Hfail u); destruct (item_backend u) as [|code body] end;
      [reflexivity|].
    apply Z.eqb_neq in Hfail. now rewrite Hfail. }
  unfold FolderSize.analyze_site.
  destruct (get_site_and_drive site_url) as [[sid did] dname].
  destruct (negb (truthy sid) || negb (truthy did)); [reflexivity|].
  rewrite !Hnone. now destruct (_ || _).
Qed.

(** C4 (root failure), where the code departs from it.  With a backend on
    which every request fails, [analyze_folder] of
    [sharepoint_folder_size_v2.py] and [analyze_site] of
    [sharepoint_graph_api.py] (site and drive lookups succeeding) do not
    report a failure: they return the empty report of the requested folder,
    all totals zero, and [main] ends with exit status 0. *)
Theorem c4_root_failure_yields_empty_report :
  (forall site_url quote fuel folder_path,
      FolderSizeV2.analyze_folder dead_rest_backend site_url quote (S fuel) folder_path
      = Some (Some (FolderSizeV2.empty_result folder_path)))
  /\
  (let result :=
     FolderSizeV2.analyze_folder dead_rest_backend "https://t" plain_quote 1
                                 "/sites/X/Missing" in
   result = Some (Some (FolderSizeV2.Node "/sites/X/Missing" "Missing" 0 0 0 [] []))
   /\ option_map main_exit_status result = Some 0)
  /\
  (forall fuel site_url folder_path,
      GraphApi.analyze_site dead_backend (fun _ => Some "S") (fun _ => Some "D")
                            (S (S fuel)) site_url folder_path
      = Some (Some (GraphApi.empty_result
                      (if startswith folder_path "/sites/"
                       then drop_site_prefix folder_path else folder_path)
                      None)))
  /\
  (let result :=
     GraphApi.analyze_site dead_backend (fun _ => Some "S") (fun _ => Some "D")
                           2 "https://t/sites/X" "/sites/X/Missing" in
   result = Some (Some (Node None "Missing" "Missing" 0 0 0 [] []))
   /\ option_map main_exit_status result = Some 0).
Proof.
  split; [|split; [|split]].
  - intros. reflexivity.
  - split; reflexivity.
  - intros fuel site_url folder_path.
    unfold GraphApi.analyze_site. cbn [truthy get_or negb String.eqb Ascii.eqb Bool.eqb].
    cbn [GraphApi.calculate_folder_size]. unfold GraphApi.get_folder_items.
    cbn [GraphApi.page_loop]. rewrite GraphApiFacts.items_url_truthy.
    reflexivity.
  - split; vm_compute; reflexivity.
Qed.

(** ** C5 *)

(** C5 (pagination).  Let the backend serve the children of a folder as a
    chain of pages: the listing URL answers 200 with the first page, every
    page but the last carries a cursor that answers 200 with the next page,
    and the last page carries none.  Then, given fuel for one more round than
    there are pages, the page fetcher requests exactly the URLs of the chain,
    each cursor after the page that returned it, and returns the file entries
    of all pages and the folder entries of all pages, both in page order;
    nothing is dropped and nothing is duplicated.  In
    [sharepoint_folder_size.py] the folders are those that pass the
    system-folder filter (and every folder entry must carry a name, which the
    filter reads); in [sharepoint_graph_api.py] they are all folder entries. *)
Theorem c5_pagination :
  (forall backend site_id drive_id folder_id pages urls fuel,
      cursor_chain backend (FolderSize.children_url site_id drive_id folder_id) pages urls ->
      Forall (fun item => has_folder item = true -> it_name item <> None) (entries pages) ->
      (length pages < fuel)%nat ->
      FolderSize.get_folder_children backend site_id drive_id fuel folder_id
      = Some (filter is_file_entry (entries pages),
              filter is_admitted_folder (entries pages),
              urls))
  /\
  (forall backend site_id drive_id folder_path pages urls fuel,
      cursor_chain backend (GraphApi.items_url site_id drive_id folder_path) pages urls ->
      (length pages < fuel)%nat ->
      GraphApi.get_folder_items backend site_id drive_id fuel folder_path
      = Some (filter is_file_entry (entries pages),
              filter has_folder (entries pages),
              urls)).
Proof.
  split.
  - intros backend site_id drive_id folder_id pages urls fuel Hchain Hnamed Hfuel.
    unfold FolderSize.get_folder_children.
    now rewrite (FolderSizeFacts.fs_page_loop_chain _ _ _ _ Hchain
                   (FolderSizeFacts.children_url_truthy _ _ _) Hnamed fuel [] [] [] Hfuel).
  - intros backend site_id drive_id folder_path pages urls fuel Hchain Hfuel.
    unfold GraphApi.get_folder_items.
    now rewrite (GraphApiFacts.ga_page_loop_chain _ _ _ _ Hchain
                   (GraphApiFacts.items_url_truthy _ _ _) fuel [] [] [] Hfuel).
Qed.

(** Three pages of 2, 2 and 1 entries: five entries come back, in page
    order. *)
Lemma c5_pagination_witness :
  (FolderSize.get_folder_children id_backend "S" "D" 4 "id-P"
   = Some ([file_item "p1" 1; file_item "p2" 2; file_item "p3" 3],
           [folder_item "Q"; folder_item "R"],
           [FolderSize.children_url "S" "D" "id-P";
            "https://sp/next/2"; "https://sp/next/3"]))
  /\
  (GraphApi.get_folder_items path_backend "S" "D" 4 "P"
   = Some ([file_item "p1" 1; file_item "p2" 2; file_item "p3" 3],
           [folder_item "Q"; folder_item "R"],
           [GraphApi.items_url "S" "D" "P";
            "https://sp/next/2"; "https://sp/next/3"])).
Proof.
  split.
  - apply (proj1 c5_pagination id_backend "S" "D" "id-P"
             [mkPage [file_item "p1" 1; folder_item "Q"] (Some "https://sp/next/2");
              mkPage [file_item "p2" 2; file_item "p3" 3] (Some "https://sp/next/3");
              mkPage [folder_item "R"] None]).
    + eapply chain_next; [reflexivity | reflexivity | reflexivity |].
      eapply chain_next; [reflexivity | reflexivity | reflexivity |].
      apply chain_last; reflexivity.
    + repeat constructor; discriminate.
    + simpl. lia.
  - apply (proj2 c5_pagination path_backend "S" "D" "P"
             [mkPage [file_item "p1" 1; folder_item "Q"] (Some "https://sp/next/2");
              mkPage [file_item "p2" 2; file_item "p3" 3] (Some "https://sp/next/3");
              mkPage [folder_item "R"] None]).
    + eapply chain_next; [reflexivity | reflexivity | reflexivity |].
      eapply chain_next; [reflexivity | reflexivity | reflexivity |].
      apply chain_last; reflexivity.
    + simpl. lia.
Defined.

(** ** C6 *)

(** C6 (recursion target), where the code departs from it.  In
    [sharepoint_graph_api.py] the recursive call receives the bare name of
    the subfolder as its path.  Walking [A], whose subfolder [B] holds one
    file of 5 bytes at [A/B], the walk never requests the children of [A/B]:
    it requests the children of the top-level folder [B] and reports that
    folder's file of 7 bytes as the content of [A]'s subfolder. *)
Theorem c6_graph_api_recursion_target :
  path_backend (GraphApi.items_url "S" "D" "A/B")
  = Status 200 (mkPage [file_item "ab1" 5] None)
  /\
  GraphApi.calculate_folder_size path_backend "S" "D" 4 "A" None
  = Some (Node None "A" "A" 17 2 1
               [mkFileInfo "a1" 10 "" "https://sp/a1"]
               [Node None "B" "B" 7 1 0 [mkFileInfo "b1" 7 "" "https://sp/b1"] []],
          [GraphApi.items_url "S" "D" "A"; GraphApi.items_url "S" "D" "B"])
  /\
  GraphApi.items_url "S" "D" "B" <> GraphApi.items_url "S" "D" "A/B".
Proof.
  split; [reflexivity|]. split; [vm_compute; reflexivity|].
  vm_compute. discriminate.
Qed.

(** ** C7 *)

(** C7 (structured-serialize round trip).  The [result] dict of a report
    tree holds nothing but what JSON can carry (strings, integers, [None],
    lists, dicts with string keys), so loading what [export_to_json] dumps
    gives the dict back: same nesting, same values, same order of keys, of
    files and of subfolders.  The dict determines the tree: two trees with
    the same dict are the same tree. *)
Theorem c7_json_round_trip :
  (forall result : ReportNode,
      FolderSize.json_load (FolderSize.export_to_json result)
      = FolderSize.result_dict result)
  /\
  (forall n m : ReportNode,
      FolderSize.result_dict n = FolderSize.result_dict m -> n = m).
Proof.
  split.
  - intro result. apply ExportFacts.result_dict_round_trip.
  - exact ExportFacts.result_dict_inj.
Qed.

(** A tree of depth 3 with files and folders at every level. *)
Lemma c7_json_round_trip_witness :
  exists r log,
    FolderSize.calculate_folder_size id_backend "S" "D" 5 (folder_item "T")
    = Some (r, log)
    /\ FolderSize.json_load (FolderSize.export_to_json r) = FolderSize.result_dict r
    /\ r = Node (Some "id-T") "https://sp/T" "T" 6 3 2
                [mkFileInfo "t1" 1 "" "https://sp/t1"]
                [Node (Some "id-U") "https://sp/U" "U" 5 2 1
                      [mkFileInfo "u1" 2 "" "https://sp/u1"]
                      [Node (Some "id-V") "https://sp/V" "V" 3 1 0
                            [mkFileInfo "v1" 3 "" "https://sp/v1"] []]].
Proof.
  eexists. eexists. split; [vm_compute; reflexivity|]. split.
  - apply (proj1 c7_json_round_trip).
  - apply (proj2 c7_json_round_trip). vm_compute. reflexivity.
Defined.

(** ** C8 *)

(** C8 (tabular flatten).  After the header, [export_to_csv] writes the rows
    of the tree in pre-order: for a folder, one row with its own aggregated
    [total_size], [file_count] and [folder_count]; right after it one row
    per direct file, in order, with the size of the file and zero in both
    count columns; then the rows of every subfolder, in subfolder order. *)
Theorem c8_tabular_flatten (format_size : Z -> string) :
  (forall result,
      FolderSize.export_to_csv format_size result
      = FolderSize.header_row :: FolderSize.preorder_rows format_size result)
  /\
  (forall n,
      FolderSize.preorder_rows format_size n
      = FolderSize.folder_row format_size n
        :: map (FolderSize.file_row format_size) (files n)
        ++ flat_map (FolderSize.preorder_rows format_size) (subfolders n))
  /\
  (forall n,
      FolderSize.folder_row format_size n
      = [FolderSize.CStr (path n); FolderSize.CStr (name n); FolderSize.CStr "Folder";
         FolderSize.CInt (total_size n);
         FolderSize.CStr (format_size (total_size n));
         FolderSize.CInt (file_count n); FolderSize.CInt (folder_count n)])
  /\
  (forall file,
      FolderSize.file_row format_size file
      = [FolderSize.CStr (f_path file); FolderSize.CStr (f_name file);
         FolderSize.CStr "File";
         FolderSize.CInt (f_size file);
         FolderSize.CStr (format_size (f_size file));
         FolderSize.CInt 0; FolderSize.CInt 0]).
Proof.
  split; [|split; [|split]].
  - intro result. unfold FolderSize.export_to_csv, FolderSize.writerow.
    now rewrite ExportFacts.write_folder_data_spec.
  - intros [i p nm ts fc dc fs subs]. reflexivity.
  - reflexivity.
  - reflexivity.
Qed.

(** ** C9 *)

(** C9, as stated, fails: the folder entry [Orphan] of [N] has no ['id'], yet
    its node is in the subfolders of [N] and [N] counts one folder. *)
Lemma c9_counterexample :
  it_id orphan_folder = None
  /\ FolderSize.calculate_folder_size id_backend "S" "D" 3 (folder_item "N")
     = Some (Node (Some "id-N") "https://sp/N" "N" 10 1 1
                  [mkFileInfo "n1" 10 "" "https://sp/n1"]
                  [Node None "https://sp/Orphan" "Orphan" 0 0 0 [] []],
             [FolderSize.children_url "S" "D" "id-N"])
  /\ ~ (forall backend site_id drive_id fuel folder_item r log n sub,
          FolderSize.calculate_folder_size backend site_id drive_id fuel folder_item
          = Some (r, log) ->
          In n (nodes r) -> In sub (subfolders n) -> truthy (node_id sub) = true).
Proof.
  split; [reflexivity|]. split; [vm_compute; reflexivity|].
  intro H.
  specialize (H id_backend "S" "D" 3%nat (folder_item "N") _ _ _ _
                eq_refl (or_introl eq_refl) (or_introl eq_refl)).
  discriminate H.
Qed.

(** C9, amended.  A folder entry with no resolvable identifier (no ['id'], or
    an empty one) is not descended into: its walk issues no request and
    returns the empty node of the entry.  The entry is not skipped, though:
    the subfolders of a node are the nodes of the folder entries that the
    page fetcher returned, one for one and in order, with or without
    identifier, and [folder_count] counts each of them. *)
Theorem c9_unresolvable_folder backend site_id drive_id :
  (forall fuel folder_item,
      truthy (it_id folder_item) = false ->
      FolderSize.calculate_folder_size backend site_id drive_id (S fuel) folder_item
      = Some (FolderSize.empty_result folder_item, []))
  /\
  (forall fuel folder_item r log,
      FolderSize.calculate_folder_size backend site_id drive_id (S fuel) folder_item
      = Some (r, log) ->
      truthy (it_id folder_item) = true ->
      exists files folders log0,
        FolderSize.get_folder_children backend site_id drive_id fuel
                                       (get_or "" (it_id folder_item))
        = Some (files, folders, log0)
        /\ map node_id (subfolders r) = map it_id folders
        /\ folder_count r
           = Z.of_nat (length folders) + zsum (map folder_count (subfolders r))).
Proof.
  split.
  - intros fuel it Hty. cbn [FolderSize.calculate_folder_size]. now rewrite Hty.
  - intros fuel it r log H Hty.
    apply FolderSizeFacts.fs_calc_unfold in H
      as (i & fs & ds & l0 & outs & Hi & Hfetch & HF & -> & _); [|exact Hty].
    exists fs, ds, l0. rewrite Hi. cbn [get_or]. split; [exact Hfetch|].
    rewrite fold_add_subfolder, fold_add_file.
    cbn [subfolders folder_count set_folder_count FolderSize.empty_result app].
    split; [|reflexivity].
    eapply FolderSizeFacts.fs_subfolder_ids; eassumption.
Qed.

Lemma c9_unresolvable_folder_witness :
  FolderSize.calculate_folder_size id_backend "S" "D" 1 orphan_folder
  = Some (Node None "https://sp/Orphan" "Orphan" 0 0 0 [] [], [])
  /\
  (exists r log folders,
      FolderSize.calculate_folder_size id_backend "S" "D" 3 (folder_item "N")
      = Some (r, log)
      /\ folders = [orphan_folder]
      /\ map node_id (subfolders r) = map it_id folders
      /\ folder_count r
         = Z.of_nat (length folders) + zsum (map folder_count (subfolders r))).
Proof.
  destruct (c9_unresolvable_folder id_backend "S" "D") as [Hempty Hcounted].
  split.
  - apply (Hempty 0%nat orphan_folder). reflexivity.
  - destruct (Hcounted 2%nat (folder_item "N") _ _ eq_refl eq_refl)
      as (fs & ds & l0 & Hfetch & Hids & Hcount).
    vm_compute in Hfetch. injection Hfetch as <- <- <-.
    eexists. eexists. eexists.
    split; [vm_compute; reflexivity|].
    split; [reflexivity|].
    split; [exact Hids | exact Hcount].
Defined.

(** ** C10 *)










(** * Further properties of the code *)

(** ** The exporters and the summary *)

(** X1 (the JSON file is read back).  The text that [export_to_json] writes
    ([json.dump] with [indent=2]) is parsed by [json.loads] into the [result]
    dict it was made from, whatever the names and paths hold: quotes,
    backslashes, line breaks and other control characters are escaped on the
    way out and restored on the way in.  More generally every document is
    read back from its text. *)
Theorem x1_export_to_json_text_round_trip :
  (forall j : FolderSize.Json,
      PyJson.json_parse (String.length (PyJson.print_json 0 j)) (PyJson.print_json 0 j)
      = Some j)
  /\
  (forall result : ReportNode,
      PyJson.loads (PyJson.export_to_json_text result)
      = Some (FolderSize.result_dict result)).
Proof.
  assert (Hdoc : forall j : FolderSize.Json,
             PyJson.json_parse (String.length (PyJson.print_json 0 j))
                               (PyJson.print_json 0 j) = Some j).
  { intro j. apply PyJsonFacts.json_parse_print, PyJsonFacts.print_json_fuel. }
  split; [exact Hdoc|].
  intro result. unfold PyJson.loads, PyJson.export_to_json_text, PyJson.dumps.
  rewrite Hdoc. cbn [option_map]. f_equal. apply ExportFacts.result_dict_round_trip.
Qed.

(** ** The summary and the row stream *)

Module NumericReport.

(** The nodes of the report with numbers are the nodes of the report. *)
Lemma nodes_numeric_report : forall r,
  FolderSizeV2.nodes (numeric_report r) = map numeric_report (nodes r).
Proof.
  induction r as [r IH] using ReportNode_nested_ind.
  destruct r as [i p nm ts fc dc fs subs].
  cbn [numeric_report nodes FolderSizeV2.nodes subfolders FolderSizeV2.subfolders map] in *.
  f_equal. induction IH as [|s subs Hs _ IHs]; [reflexivity|].
  cbn [map flat_map]. now rewrite map_app, Hs, IHs.
Qed.

Lemma numeric_sizes (fs : list FileInfo) :
  map FolderSizeV2.f_size (map numeric_file fs) = map FolderSize.JNumber (map f_size fs).
Proof. now rewrite !map_map. Qed.

Lemma map_JNumber_inj : forall l l' : list Z,
  map FolderSize.JNumber l = map FolderSize.JNumber l' -> l = l'.
Proof.
  induction l as [|z l IH]; intros [|z' l'] H; try discriminate; [reflexivity|].
  cbn [map] in H. injection H as -> H. f_equal. now apply IH.
Qed.

(** The law of the report with numbers is the law of the report. *)
Lemma numeric_report_lawful (m : ReportNode) :
  FolderSizeV2.aggregation_law (numeric_report m) -> aggregation_law m.
Proof.
  destruct m as [i p nm ts fc dc fs subs].
  intros (sizes & Hsizes & Ht & Hf & Hd).
  cbn [numeric_report FolderSizeV2.files FolderSizeV2.subfolders FolderSizeV2.total_size
       FolderSizeV2.file_count FolderSizeV2.folder_count
       files subfolders total_size file_count folder_count] in *.
  rewrite numeric_sizes in Hsizes. apply map_JNumber_inj in Hsizes. subst sizes.
  rewrite !length_map in *.
  assert (E1 : map FolderSizeV2.total_size (map numeric_report subs) = map total_size subs).
  { rewrite map_map. apply map_ext. now intros []. }
  assert (E2 : map FolderSizeV2.file_count (map numeric_report subs) = map file_count subs).
  { rewrite map_map. apply map_ext. now intros []. }
  assert (E3 : map FolderSizeV2.folder_count (map numeric_report subs)
               = map folder_count subs).
  { rewrite map_map. apply map_ext. now intros []. }
  rewrite E1 in Ht. rewrite E2 in Hf. rewrite E3 in Hd.
  unfold aggregation_law. cbn [files subfolders total_size file_count folder_count].
  repeat split; assumption.
Qed.

(** No file loop was left in a report with numbers. *)
Lemma numeric_report_not_interrupted (m : ReportNode) :
  ~ FolderSizeV2.interrupted_node (numeric_report m).
Proof.
  destruct m as [i p nm ts fc dc fs subs].
  intros (counted & stray & sizes & Hfiles & _ & Hstray & _).
  cbn [numeric_report FolderSizeV2.files files] in Hfiles.
  assert (Hin : In stray (map numeric_file fs)).
  { rewrite Hfiles. apply in_or_app. right. now left. }
  apply in_map_iff in Hin as (f & <- & _). exact (Hstray (f_size f) eq_refl).
Qed.

End NumericReport.

Module SummaryFacts.

Lemma fold_left_extend {A B : Type} (f : B -> list A) (l : list B) : forall acc,
  fold_left (fun all x => all ++ f x) l acc = acc ++ flat_map f l.
Proof.
  induction l as [|x l IH]; intro acc; simpl.
  - now rewrite app_nil_r.
  - rewrite IH. now rewrite <- app_assoc.
Qed.

(** [_get_all_files], unfolded once. *)
Lemma get_all_files_unfold (n : ReportNode) :
  _get_all_files n = files n ++ flat_map _get_all_files (subfolders n).
Proof.
  destruct n as [i p nm ts fc dc fs subs]. cbn [_get_all_files files subfolders].
  apply fold_left_extend.
Qed.

Lemma zsum_flat_map_length {A B : Type} (f : A -> list B) (g : A -> Z) (l : list A) :
  Forall (fun a => Z.of_nat (length (f a)) = g a) l ->
  Z.of_nat (length (flat_map f l)) = zsum (map g l).
Proof.
  induction 1 as [|a l Ha _ IH]; [reflexivity|].
  cbn [flat_map map]. rewrite length_app, Nat2Z.inj_add, Ha, IH. reflexivity.
Qed.

Lemma zsum_flat_map_sizes {A : Type} (f : A -> list FileInfo) (g : A -> Z) (l : list A) :
  Forall (fun a => zsum (map f_size (f a)) = g a) l ->
  zsum (map f_size (flat_map f l)) = zsum (map g l).
Proof.
  induction 1 as [|a l Ha _ IH]; [reflexivity|].
  cbn [flat_map map]. rewrite map_app, zsum_app, Ha, IH. reflexivity.
Qed.

Lemma law_subfolders (n : ReportNode) :
  Forall aggregation_law (nodes n) ->
  aggregation_law n /\ Forall (fun s => Forall aggregation_law (nodes s)) (subfolders n).
Proof.
  destruct n as [i p nm ts fc dc fs subs]. cbn [nodes subfolders]. intro H.
  inversion H as [|? ? Hn Hrest]; subst. split; [exact Hn|].
  clear Hn H. induction subs as [|s subs IH]; constructor.
  - cbn [flat_map] in Hrest. apply Forall_app in Hrest. tauto.
  - apply IH. cbn [flat_map] in Hrest. apply Forall_app in Hrest. tauto.
Qed.

(** In a lawful tree the counters of the root count the files, the bytes and
    the nodes of the whole tree. *)
Lemma lawful_totals : forall n,
  Forall aggregation_law (nodes n) ->
  Z.of_nat (length (_get_all_files n)) = file_count n
  /\ zsum (map f_size (_get_all_files n)) = total_size n
  /\ Z.of_nat (length (nodes n)) = folder_count n + 1.
Proof.
  induction n as [n IH] using ReportNode_nested_ind. intro Hlaw.
  apply law_subfolders in Hlaw as [(Hsize & Hfiles & Hfolders) Hsubs].
  assert (Hall : Forall (fun s =>
              Z.of_nat (length (_get_all_files s)) = file_count s
              /\ zsum (map f_size (_get_all_files s)) = total_size s
              /\ Z.of_nat (length (nodes s)) = folder_count s + 1) (subfolders n)).
  { rewrite Forall_forall in *. intros s Hs. apply IH; [exact Hs | now apply Hsubs]. }
  clear IH Hsubs.
  rewrite get_all_files_unfold. split; [|split].
  - rewrite length_app, Nat2Z.inj_add, Hfiles. f_equal.
    apply zsum_flat_map_length. eapply Forall_impl; [|exact Hall]. cbv beta. tauto.
  - rewrite map_app, zsum_app, Hsize. f_equal.
    apply zsum_flat_map_sizes. eapply Forall_impl; [|exact Hall]. cbv beta. tauto.
  - destruct n as [i p nm ts fc dc fs subs]. cbn [nodes subfolders folder_count length] in *.
    rewrite Hfolders. clear Hfolders Hsize Hfiles.
    induction Hall as [|s subs (_ & _ & Hs) _ IHs]; [reflexivity|].
    cbn [flat_map map length]. rewrite length_app.
    change (zsum (folder_count s :: map folder_count subs))
      with (folder_count s + zsum (map folder_count subs)).
    cbn [length] in IHs. lia.
Qed.


Lemma walk_report_lawful r : walk_report r -> Forall aggregation_law (nodes r).
Proof.
  intros [b s d fuel it r' log H | b s d fuel p nm r' log H | b u q fuel p r' log H _].
  - eapply FolderSizeFacts.fs_law_all_nodes; eassumption.
  - eapply GraphApiFacts.ga_law_all_nodes; eassumption.
  - apply FolderSizeV2Facts.v2_node_shapes in H.
    rewrite NumericReport.nodes_numeric_report, Forall_map in H.
    eapply Forall_impl; [|exact H]. intros m [Hlaw | Hleft].
    + now apply NumericReport.numeric_report_lawful.
    + now destruct (NumericReport.numeric_report_not_interrupted m).
Qed.

(** The nodes of a node of a tree are nodes of the tree. *)
Lemma nodes_of_node : forall r n, In n (nodes r) -> incl (nodes n) (nodes r).
Proof.
  induction r as [r IH] using ReportNode_nested_ind. intros n Hn.
  destruct r as [i p nm ts fc dc fs subs]. cbn [nodes subfolders] in *.
  destruct Hn as [<- | Hn]; [apply incl_refl|].
  apply in_flat_map in Hn as (s & Hs & Hn).
  rewrite Forall_forall in IH. specialize (IH s Hs n Hn).
  intros m Hm. right. apply in_flat_map. exists s. split; [exact Hs | now apply IH].
Qed.

Lemma lawful_node r n :
  Forall aggregation_law (nodes r) -> In n (nodes r) -> Forall aggregation_law (nodes n).
Proof.
  intros Hlaw Hn. rewrite Forall_forall in *. intros m Hm.
  apply Hlaw. eapply nodes_of_node; eassumption.
Qed.

Section Rows.
Variable format_size : Z -> string.
Import FolderSize.

Lemma filter_file_rows_files (fs : list FileInfo) :
  filter is_file_row (map (file_row format_size) fs) = map (file_row format_size) fs.
Proof. induction fs as [|f fs IH]; [reflexivity|]. cbn. now rewrite IH. Qed.

Lemma filter_folder_rows_files (fs : list FileInfo) :
  filter is_folder_row (map (file_row format_size) fs) = [].
Proof. induction fs as [|f fs IH]; [reflexivity|]. cbn. exact IH. Qed.

Lemma filter_flat_map {A B : Type} (p : B -> bool) (f g : A -> list B) (l : list A) :
  Forall (fun a => filter p (f a) = g a) l ->
  filter p (flat_map f l) = flat_map g l.
Proof.
  induction 1 as [|a l Ha _ IH]; [reflexivity|].
  cbn [flat_map]. now rewrite filter_app, Ha, IH.
Qed.

Lemma file_rows_of_tree : forall n,
  filter is_file_row (preorder_rows format_size n)
  = map (file_row format_size) (_get_all_files n).
Proof.
  induction n as [n IH] using ReportNode_nested_ind.
  rewrite get_all_files_unfold, map_app.
  destruct n as [i p nm ts fc dc fs subs]. cbn [subfolders files preorder_rows] in *.
  cbn [filter is_file_row nth_error folder_row]. cbn [String.eqb Ascii.eqb Bool.eqb].
  cbn match. rewrite filter_app, filter_file_rows_files. f_equal.
  rewrite (filter_flat_map _ _ (fun s => map (file_row format_size) (_get_all_files s)) _ IH).
  clear IH. induction subs as [|s subs IHs]; [reflexivity|].
  cbn [flat_map]. now rewrite map_app, IHs.
Qed.

Lemma folder_rows_of_tree : forall n,
  filter is_folder_row (preorder_rows format_size n)
  = map (folder_row format_size) (nodes n).
Proof.
  induction n as [n IH] using ReportNode_nested_ind.
  destruct n as [i p nm ts fc dc fs subs]. cbn [subfolders files preorder_rows nodes] in *.
  cbn [filter is_folder_row nth_error folder_row map]. cbn [String.eqb Ascii.eqb Bool.eqb].
  cbn match. f_equal. rewrite filter_app, filter_folder_rows_files. cbn [app].
  rewrite (filter_flat_map _ _ (fun s => map (folder_row format_size) (nodes s)) _ IH).
  clear IH. induction subs as [|s subs IHs]; [reflexivity|].
  cbn [flat_map]. now rewrite map_app, IHs.
Qed.

Lemma preorder_rows_length : forall n,
  length (preorder_rows format_size n)
  = (length (nodes n) + length (_get_all_files n))%nat.
Proof.
  induction n as [n IH] using ReportNode_nested_ind.
  rewrite get_all_files_unfold.
  destruct n as [i p nm ts fc dc fs subs]. cbn [subfolders files preorder_rows nodes] in *.
  cbn [length]. rewrite !length_app, length_map.
  assert (H : length (flat_map (preorder_rows format_size) subs)
              = (length (flat_map nodes subs) + length (flat_map _get_all_files subs))%nat).
  { induction IH as [|s subs Hs _ IHs]; [reflexivity|].
    cbn [flat_map]. rewrite !length_app, Hs, IHs. lia. }
  rewrite H. lia.
Qed.

End Rows.
End SummaryFacts.

(** X2 (the file list and the counters agree).  At every node of a report
    that a walk returned, [_get_all_files] yields as many files as
    [file_count] says, and their sizes add up to [total_size]: the summary,
    which lists files from [_get_all_files], and the counters never
    disagree.  For [sharepoint_folder_size_v2.py] this is said of the
    reports in which every size is a number; the others have a file that no
    counter counts. *)
Theorem x2_all_files_match_counters (r n : ReportNode) :
  walk_report r ->
  In n (nodes r) ->
  Z.of_nat (length (_get_all_files n)) = file_count n
  /\ zsum (map f_size (_get_all_files n)) = total_size n.
Proof.
  intros Hr Hn.
  pose proof (SummaryFacts.lawful_node r n (SummaryFacts.walk_report_lawful r Hr) Hn) as Hlaw.
  destruct (SummaryFacts.lawful_totals n Hlaw) as (Hcount & Hsize & _).
  split; assumption.
Qed.

Lemma x2_all_files_match_counters_witness :
  (exists r log,
      FolderSize.calculate_folder_size id_backend "S" "D" 5 (folder_item "T") = Some (r, log)
      /\ _get_all_files r
         = [mkFileInfo "t1" 1 "" "https://sp/t1"; mkFileInfo "u1" 2 "" "https://sp/u1";
            mkFileInfo "v1" 3 "" "https://sp/v1"]
      /\ Z.of_nat (length (_get_all_files r)) = file_count r
      /\ zsum (map f_size (_get_all_files r)) = total_size r)
  /\
  (exists r log,
      FolderSizeV2.calculate_folder_size rest_backend "https://t" plain_quote 3
                                         "/sites/X/Docs"
      = Some (numeric_report r, log)
      /\ _get_all_files r
         = [mkFileInfo "d1" 100 "" "/sites/X/Docs/d1";
            mkFileInfo "s1" 200 "" "/sites/X/Docs/Sub/s1"]
      /\ Z.of_nat (length (_get_all_files r)) = file_count r
      /\ zsum (map f_size (_get_all_files r)) = total_size r).
Proof.
  split.
  - eexists. eexists. split; [vm_compute; reflexivity|].
    split; [vm_compute; reflexivity|].
    eapply x2_all_files_match_counters.
    + eapply (report_folder_size id_backend "S" "D" 5%nat (folder_item "T")).
      vm_compute. reflexivity.
    + left. reflexivity.
  - pose (docs := Node None "/sites/X/Docs" "Docs" 300 2 1
                       [mkFileInfo "d1" 100 "" "/sites/X/Docs/d1"]
                       [Node None "/sites/X/Docs/Sub" "Sub" 200 1 0
                             [mkFileInfo "s1" 200 "" "/sites/X/Docs/Sub/s1"] []]).
    exists docs. eexists. split; [vm_compute; reflexivity|].
    split; [vm_compute; reflexivity|].
    apply (x2_all_files_match_counters docs docs).
    + eapply (report_v2 rest_backend "https://t" plain_quote 3%nat "/sites/X/Docs" docs).
      * vm_compute. reflexivity.
      * repeat constructor.
    + left. reflexivity.
Defined.

Module FolderSizeV2Counts.
Import FolderSizeV2 FolderSizeV2Facts.

(** The nodes of a node of a tree are nodes of the tree. *)
Lemma v2_nodes_of_node : forall r n, In n (nodes r) -> incl (nodes n) (nodes r).
Proof.
  induction r as [r IH] using v2_nested_ind. intros n Hn.
  destruct r as [p nm ts fc dc fs subs]. cbn [nodes subfolders] in *.
  destruct Hn as [<- | Hn]; [apply incl_refl|].
  apply in_flat_map in Hn as (s & Hs & Hn).
  rewrite Forall_forall in IH. specialize (IH s Hs n Hn).
  intros m Hm. right. apply in_flat_map. exists s. split; [exact Hs | now apply IH].
Qed.

(** Where [folder_count] obeys its law, it counts the nodes below. *)
Lemma v2_folder_count_nodes : forall n,
  Forall (fun m => folder_count m
                   = Z.of_nat (length (subfolders m)) + zsum (map folder_count (subfolders m)))
         (nodes n) ->
  Z.of_nat (length (nodes n)) = folder_count n + 1.
Proof.
  induction n as [n IH] using v2_nested_ind. intro Hlaw.
  destruct n as [p nm ts fc dc fs subs]. cbn [nodes subfolders folder_count length] in *.
  inversion Hlaw as [|? ? Hd Hrest]; subst. cbn [subfolders folder_count] in Hd.
  rewrite Hd. clear Hd Hlaw.
  induction subs as [|s subs IHs]; [reflexivity|].
  inversion IH as [|? ? Hs IH']; subst.
  cbn [flat_map] in Hrest. apply Forall_app in Hrest as [Hrs Hrest].
  specialize (Hs Hrs). specialize (IHs IH' Hrest).
  cbn [flat_map map length]. rewrite length_app.
  change (zsum (folder_count s :: map folder_count subs))
    with (folder_count s + zsum (map folder_count subs)).
  cbn [length] in IHs. lia.
Qed.

End FolderSizeV2Counts.

(** X3 (what [folder_count] counts).  At every node of a report that a walk
    returned, [folder_count] is the number of nodes below it: every folder
    that has a node in the tree is counted once, at each of its ancestors.
    In [sharepoint_folder_size_v2.py] this holds of every report, whatever
    the sizes are. *)
Theorem x3_folder_count_counts_nodes :
  (forall r n : ReportNode,
      walk_report r ->
      In n (nodes r) ->
      folder_count n = Z.of_nat (length (nodes n)) - 1)
  /\
  (forall backend site_url quote fuel folder_path r log n,
      FolderSizeV2.calculate_folder_size backend site_url quote fuel folder_path
      = Some (r, log) ->
      In n (FolderSizeV2.nodes r) ->
      FolderSizeV2.folder_count n = Z.of_nat (length (FolderSizeV2.nodes n)) - 1).
Proof.
  split.
  - intros r n Hr Hn.
    pose proof (SummaryFacts.lawful_node r n (SummaryFacts.walk_report_lawful r Hr) Hn)
      as Hlaw.
    destruct (SummaryFacts.lawful_totals n Hlaw) as (_ & _ & Hnodes). lia.
  - intros backend site_url quote fuel p r log n H Hn.
    apply FolderSizeV2Facts.v2_folder_law in H.
    assert (Hlaw : Forall (fun m =>
               FolderSizeV2.folder_count m
               = Z.of_nat (length (FolderSizeV2.subfolders m))
                 + zsum (map FolderSizeV2.folder_count (FolderSizeV2.subfolders m)))
              (FolderSizeV2.nodes n)).
    { rewrite Forall_forall in *. intros m Hm. apply H.
      eapply FolderSizeV2Counts.v2_nodes_of_node; eassumption. }
    apply FolderSizeV2Counts.v2_folder_count_nodes in Hlaw. lia.
Qed.

Lemma x3_folder_count_counts_nodes_witness :
  (exists r log,
      FolderSize.calculate_folder_size id_backend "S" "D" 4 (folder_item "A") = Some (r, log)
      /\ length (nodes r) = 2%nat
      /\ folder_count r = Z.of_nat (length (nodes r)) - 1)
  /\
  (exists r log,
      FolderSizeV2.calculate_folder_size rest_backend "https://t" plain_quote 3
                                         "/sites/X/Docs"
      = Some (r, log)
      /\ length (FolderSizeV2.nodes r) = 2%nat
      /\ FolderSizeV2.folder_count r = Z.of_nat (length (FolderSizeV2.nodes r)) - 1)
  /\
  (exists r log,
      FolderSizeV2.calculate_folder_size rest_backend_verbose "https://t" plain_quote 3
                                         "/sites/X/Docs"
      = Some (r, log)
      /\ length (FolderSizeV2.nodes r) = 1%nat
      /\ FolderSizeV2.folder_count r = Z.of_nat (length (FolderSizeV2.nodes r)) - 1).
Proof.
  split; [|split].
  - eexists. eexists. split; [vm_compute; reflexivity|].
    split; [vm_compute; reflexivity|].
    eapply (proj1 x3_folder_count_counts_nodes).
    + eapply (report_folder_size id_backend "S" "D" 4%nat (folder_item "A")).
      vm_compute. reflexivity.
    + left. reflexivity.
  - eexists. eexists. split; [vm_compute; reflexivity|].
    split; [vm_compute; reflexivity|].
    eapply (proj2 x3_folder_count_counts_nodes rest_backend "https://t" plain_quote 3%nat
                  "/sites/X/Docs").
    + vm_compute. reflexivity.
    + left. reflexivity.
  - eexists. eexists. split; [vm_compute; reflexivity|].
    split; [vm_compute; reflexivity|].
    eapply (proj2 x3_folder_count_counts_nodes rest_backend_verbose "https://t" plain_quote
                  3%nat "/sites/X/Docs").
    + vm_compute. reflexivity.
    + left. reflexivity.
Defined.

(** X4 (inventory of the CSV).  Whatever the tree, the rows of type ['File']
    that [export_to_csv] writes are the rows of [_get_all_files], in the same
    order, and the rows of type ['Folder'] are the rows of the nodes of the
    tree, the root first.  For the report of a walk the file therefore has
    [folder_count + file_count + 2] rows: the header, the root and one row
    for every folder and every file counted.  For
    [sharepoint_folder_size_v2.py] this is said of the reports in which
    every size is a number. *)
Theorem x4_csv_inventory (format_size : Z -> string) :
  (forall result,
      filter is_file_row (FolderSize.export_to_csv format_size result)
      = map (FolderSize.file_row format_size) (_get_all_files result)
      /\ filter is_folder_row (FolderSize.export_to_csv format_size result)
         = map (FolderSize.folder_row format_size) (nodes result))
  /\
  (forall result,
      walk_report result ->
      Z.of_nat (length (FolderSize.export_to_csv format_size result))
      = folder_count result + file_count result + 2).
Proof.
  assert (Hrows : forall result,
             FolderSize.export_to_csv format_size result
             = FolderSize.header_row :: FolderSize.preorder_rows format_size result).
  { intro result. unfold FolderSize.export_to_csv, FolderSize.writerow.
    now rewrite ExportFacts.write_folder_data_spec. }
  split.
  - intro result. rewrite Hrows. cbn [filter]. unfold FolderSize.header_row at 1 3.
    cbn [is_file_row is_folder_row nth_error String.eqb Ascii.eqb Bool.eqb].
    split; [apply SummaryFacts.file_rows_of_tree | apply SummaryFacts.folder_rows_of_tree].
  - intros result Hr. rewrite Hrows. cbn [length].
    rewrite SummaryFacts.preorder_rows_length.
    destruct (SummaryFacts.lawful_totals result (SummaryFacts.walk_report_lawful _ Hr))
      as (Hfiles & _ & Hnodes).
    lia.
Qed.

Lemma x4_csv_inventory_witness :
  exists r log,
    FolderSize.calculate_folder_size id_backend "S" "D" 4 (folder_item "A") = Some (r, log)
    /\ folder_count r = 1 /\ file_count r = 2
    /\ Z.of_nat (length (FolderSize.export_to_csv format_size r))
       = folder_count r + file_count r + 2.
Proof.
  eexists. eexists. split; [vm_compute; reflexivity|].
  split; [reflexivity|]. split; [reflexivity|].
  apply (proj2 (x4_csv_inventory format_size)).
  eapply (report_folder_size id_backend "S" "D" 4%nat (folder_item "A")).
  vm_compute. reflexivity.
Defined.

Module SortFacts.








End SortFacts.


(** ** [format_size] *)

Module FormatFacts.

Lemma round_half_even_near (a d : Z) :
  0 < d -> 2 * Z.abs (a - round_half_even a d * d) <= d.
Proof.
  intro Hd. unfold round_half_even.
  pose proof (Z.div_mod a d ltac:(lia)) as Hdm.
  pose proof (Z.mod_pos_bound a d Hd) as Hr.
  destruct (2 * (a mod d) <? d) eqn:H1; [apply Z.ltb_lt in H1; nia|].
  apply Z.ltb_ge in H1.
  destruct (d <? 2 * (a mod d)) eqn:H2; [apply Z.ltb_lt in H2; nia|].
  apply Z.ltb_ge in H2.
  destruct (Z.even (a / d)); nia.
Qed.

Lemma round_half_even_bounds (a d lo hi : Z) :
  0 < d -> lo * d <= a -> a <= hi * d ->
  lo <= round_half_even a d <= hi.
Proof.
  intros Hd Hlo Hhi. unfold round_half_even.
  pose proof (Z.div_mod a d ltac:(lia)) as Hdm.
  pose proof (Z.mod_pos_bound a d Hd) as Hr.
  assert (Hq : lo <= a / d) by (apply Z.div_le_lower_bound; lia).
  destruct (Z.eq_dec a (hi * d)) as [-> | Hne].
  - rewrite Z.div_mul, Z.mod_mul by lia. change (2 * 0) with 0.
    assert (Hb : (0 <? d) = true) by now apply Z.ltb_lt.
    rewrite Hb. nia.
  - assert (Hq2 : a / d < hi) by (apply Z.div_lt_upper_bound; lia).
    destruct (2 * (a mod d) <? d); [lia|].
    destruct (d <? 2 * (a mod d)); [lia|].
    destruct (Z.even (a / d)); lia.
Qed.

Lemma round_half_even_exact (a : Z) : round_half_even a 1 = a.
Proof.
  unfold round_half_even. rewrite Z.div_1_r, Z.mod_1_r. reflexivity.
Qed.

Lemma format_size_from_unit (units : list string) : forall (k : nat) (n den : Z),
  0 < den -> (k <= length units)%nat ->
  (k = 0%nat \/ 1024 ^ Z.of_nat k * den <= n) ->
  (k = length units \/ n < 1024 ^ Z.of_nat (S k) * den) ->
  format_size_from units n den
  = (format_2f n (1024 ^ Z.of_nat k * den) ++ " " ++ nth k units "PB")%string.
Proof.
  induction units as [|unit rest IH]; intros k n den Hden Hk Hlo Hhi.
  - cbn [length] in Hk. assert (k = 0%nat) by lia. subst k.
    cbn [format_size_from nth]. now rewrite Z.pow_0_r, Z.mul_1_l.
  - cbn [format_size_from]. destruct k as [|k].
    + cbn [nth]. rewrite Z.pow_0_r, Z.mul_1_l.
      destruct Hhi as [Hhi | Hhi]; [discriminate|].
      change (1024 ^ Z.of_nat 1) with 1024 in Hhi.
      apply Z.ltb_lt in Hhi. now rewrite Hhi.
    + destruct Hlo as [Hlo | Hlo]; [discriminate|].
      assert (Hpow : 1024 ^ Z.of_nat (S k) = 1024 ^ Z.of_nat k * 1024).
      { rewrite Nat2Z.inj_succ, Z.pow_succ_r by lia. lia. }
      assert (Hpos : 0 < 1024 ^ Z.of_nat k) by (apply Z.pow_pos_nonneg; lia).
      assert (Hge : (n <? 1024 * den) = false).
      { apply Z.ltb_ge. rewrite Hpow in Hlo. nia. }
      rewrite Hge. cbn [nth length] in *.
      assert (Hlo' : k = 0%nat \/ 1024 ^ Z.of_nat k * (1024 * den) <= n).
      { right. rewrite Hpow in Hlo. lia. }
      assert (Hhi' : k = length rest \/ n < 1024 ^ Z.of_nat (S k) * (1024 * den)).
      { destruct Hhi as [Hhi | Hhi]; [left; lia | right].
        assert (Hpow2 : 1024 ^ Z.of_nat (S (S k)) = 1024 ^ Z.of_nat (S k) * 1024).
        { rewrite (Nat2Z.inj_succ (S k)), Z.pow_succ_r by lia. lia. }
        rewrite Hpow2 in Hhi. lia. }
      rewrite (IH k n (1024 * den) ltac:(lia) ltac:(lia) Hlo' Hhi').
      now rewrite Hpow, Z.mul_assoc.
Qed.

End FormatFacts.

Example format_size_samples :
  format_size 0 = "0.00 B"%string
  /\ format_size 1023 = "1023.00 B"%string
  /\ format_size 1024 = "1.00 KB"%string
  /\ format_size 1152 = "1.12 KB"%string
  /\ format_size 1536 = "1.50 KB"%string
  /\ format_size 1048575 = "1024.00 KB"%string
  /\ format_size 1048576 = "1.00 MB"%string
  /\ format_size (5 * 1024 ^ 5) = "5.00 PB"%string
  /\ format_size (2000 * 1024 ^ 5) = "2000.00 PB"%string.
Proof. vm_compute. repeat split. Qed.


(** X6 (what [format_size] shows).  For a size [n] below [2^53] the unit is
    the [k]-th of B, KB, MB, GB, TB, PB with [1024^k <= n < 1024^(k+1)] (PB
    from [1024^5] on), and the number shown is [n / 1024^k] rounded to the
    nearest hundredth: exact below 1024 bytes, at least 1.00 from KB on, and
    at most 1024.00 below PB, a value that is reached: the last bytes before
    the next unit are shown as 1024.00 of the smaller one. *)
Theorem x6_format_size (n : Z) (k : nat) :
  0 <= n < 2 ^ 53 ->
  (k <= 5)%nat ->
  (k = 0%nat \/ 1024 ^ Z.of_nat k <= n) ->
  (k = 5%nat \/ n < 1024 ^ Z.of_nat (S k)) ->
  exists hundredths,
    format_size n
    = (PyJson.print_int (hundredths / 100) ++ "." ++ two_digits (hundredths mod 100)
         ++ " " ++ nth k size_units "PB")%string
    /\ 2 * Z.abs (100 * n - hundredths * 1024 ^ Z.of_nat k) <= 1024 ^ Z.of_nat k
    /\ (k = 0%nat -> hundredths = 100 * n)
    /\ (k <> 0%nat -> 100 <= hundredths)
    /\ (k <> 5%nat -> hundredths <= 102400).
Proof.
  intros Hn Hk Hlo Hhi.
  assert (Hpos : 0 < 1024 ^ Z.of_nat k) by (apply Z.pow_pos_nonneg; lia).
  exists (round_half_even (100 * n) (1024 ^ Z.of_nat k)).
  split; [|split; [|split; [|split]]].
  - unfold format_size.
    assert (Hlo' : k = 0%nat \/ 1024 ^ Z.of_nat k * 1 <= n) by now rewrite Z.mul_1_r.
    assert (Hhi' : k = length size_units \/ n < 1024 ^ Z.of_nat (S k) * 1)
      by now rewrite Z.mul_1_r.
    rewrite (FormatFacts.format_size_from_unit size_units k n 1 ltac:(lia) Hk Hlo' Hhi').
    rewrite Z.mul_1_r. unfold format_2f.
    assert (Hsign : (n <? 0) = false) by (apply Z.ltb_ge; lia).
    rewrite Hsign, Z.abs_eq by lia. cbn [append].
    now rewrite !string_append_assoc.
  - apply FormatFacts.round_half_even_near. exact Hpos.
  - intros ->. change (1024 ^ Z.of_nat 0) with 1. apply FormatFacts.round_half_even_exact.
  - intro Hk0. destruct Hlo as [? | Hlo]; [contradiction|].
    apply (FormatFacts.round_half_even_bounds (100 * n) _ 100 (100 * n)); nia.
  - intro Hk5. destruct Hhi as [? | Hhi]; [contradiction|].
    assert (Hpow : 1024 ^ Z.of_nat (S k) = 1024 ^ Z.of_nat k * 1024).
    { rewrite Nat2Z.inj_succ, Z.pow_succ_r by lia. lia. }
    rewrite Hpow in Hhi.
    apply (FormatFacts.round_half_even_bounds (100 * n) _ 0 102400); nia.
Qed.

Lemma x6_format_size_witness :
  exists hundredths,
    format_size 1048575
    = (PyJson.print_int (hundredths / 100) ++ "." ++ two_digits (hundredths mod 100)
         ++ " " ++ "KB")%string
    /\ 2 * Z.abs (100 * 1048575 - hundredths * 1024 ^ Z.of_nat 1) <= 1024 ^ Z.of_nat 1
    /\ (1%nat = 0%nat -> hundredths = 100 * 1048575)
    /\ (1%nat <> 0%nat -> 100 <= hundredths)
    /\ (1%nat <> 5%nat -> hundredths <= 102400).
Proof.
  apply (x6_format_size 1048575 1).
  - vm_compute. split; [discriminate | reflexivity].
  - repeat constructor.
  - right. vm_compute. discriminate.
  - right. vm_compute. reflexivity.
Defined.

(** ** Site, drive and folder lookup *)

Module LookupFacts.

Lemma find_first {A : Type} (p : A -> bool) (before after : list A) (d : A) :
  Forall (fun x => p x = false) before -> p d = true ->
  find p (before ++ d :: after) = Some d.
Proof.
  induction 1 as [|x before Hx _ IH]; intro Hd; cbn [app find].
  - now rewrite Hd.
  - rewrite Hx. now apply IH.
Qed.

Lemma find_none {A : Type} (p : A -> bool) (l : list A) :
  Forall (fun x => p x = false) l -> find p l = None.
Proof. induction 1 as [|x l Hx _ IH]; cbn [find]; [reflexivity | now rewrite Hx]. Qed.

Lemma pick_drive_in (drives : list Drive) (d : Drive) :
  pick_drive drives = Some d -> In d drives.
Proof.
  unfold pick_drive. destruct (find is_document_library drives) as [x|] eqn:Hf.
  - intros [= <-]. now apply find_some in Hf.
  - destruct drives as [|first rest]; [discriminate|]. intros [= <-]. now left.
Qed.

(** ['/'.join(s.split('/'))] is [s]. *)
Lemma split_slash_nonempty (s : string) : split_slash s <> [].
Proof.
  induction s as [|c s IH]; cbn [split_slash]; [discriminate|].
  destruct (Ascii.eqb c "/"); [discriminate|].
  destruct (split_slash s); discriminate.
Qed.

Lemma join_slash_cons (x : string) (l : list string) :
  l <> [] -> join_slash (x :: l) = (x ++ "/" ++ join_slash l)%string.
Proof. destruct l; [contradiction | reflexivity]. Qed.

Lemma join_split_slash (s : string) : join_slash (split_slash s) = s.
Proof.
  induction s as [|c s IH]; [reflexivity|]. cbn [split_slash].
  pose proof (split_slash_nonempty s) as Hne.
  destruct (Ascii.eqb c "/") eqn:Hc.
  - apply Ascii.eqb_eq in Hc. subst c.
    rewrite (join_slash_cons _ _ Hne), IH. reflexivity.
  - destruct (split_slash s) as [|h t]; [contradiction|].
    destruct t as [|h' t].
    + cbn [join_slash] in *. now rewrite IH.
    + rewrite join_slash_cons in * by discriminate.
      rewrite <- IH. reflexivity.
Qed.

(** Splitting after a component without slash. *)
Lemma split_slash_component (host rest : string) :
  has_char "/" host = false ->
  split_slash (host ++ String "/" rest) = host :: split_slash rest.
Proof.
  induction host as [|c host IH]; cbn [has_char append split_slash]; intro H.
  - reflexivity.
  - apply orb_false_iff in H as [Hc Hhost]. rewrite Hc, (IH Hhost). reflexivity.
Qed.

Lemma split_slash_last (host : string) :
  has_char "/" host = false -> split_slash host = [host].
Proof.
  induction host as [|c host IH]; cbn [has_char split_slash]; intro H; [reflexivity|].
  apply orb_false_iff in H as [Hc Hhost]. now rewrite Hc, (IH Hhost).
Qed.

Lemma prefix_https_colon (s : string) :
  String.prefix "https://" s = true -> has_char ":" s = true.
Proof.
  destruct s as [|c1 [|c2 [|c3 [|c4 [|c5 [|c6 s]]]]]]; cbn [String.prefix];
    repeat match goal with
           | |- context [Ascii.ascii_dec ?a ?b] => destruct (Ascii.ascii_dec a b); try discriminate
           | |- context [Ascii.eqb ?a ?b] => destruct (Ascii.eqb a b) eqn:?; try discriminate
           end; try discriminate.
  all: intros _; subst; cbn; try reflexivity.
Qed.

End LookupFacts.

Module UrlFacts.
Import LookupFacts.

Lemma has_char_app (c : ascii) (a b : string) :
  has_char c (a ++ b) = has_char c a || has_char c b.
Proof.
  induction a as [|x a IH]; cbn [append has_char]; [reflexivity|].
  now rewrite IH, orb_assoc.
Qed.

Lemma remove_https_no_colon (s : string) :
  has_char ":" s = false -> remove_https s = s.
Proof.
  unfold remove_https. induction s as [|c s IH]; intro H; [reflexivity|].
  cbn [remove_https_from].
  destruct (String.prefix "https://" (String c s)) eqn:Hp.
  - apply prefix_https_colon in Hp. congruence.
  - cbn [has_char] in H. apply orb_false_iff in H as [_ H]. now rewrite IH.
Qed.

Lemma remove_https_scheme (s : string) :
  remove_https ("https://" ++ s)%string = remove_https s.
Proof. destruct s; reflexivity. Qed.

End UrlFacts.

Module PathFacts.
Import LookupFacts.

Lemma drop_site_prefix_rest (site rest : string) :
  has_char "/" site = false ->
  drop_site_prefix ("/sites/" ++ site ++ "/" ++ rest)%string = rest.
Proof.
  intro Hsite. unfold drop_site_prefix.
  assert (Hsplit : split_slash ("/sites/" ++ site ++ "/" ++ rest)%string
                   = EmptyString :: "sites"%string :: site :: split_slash rest).
  { change ("/sites/" ++ site ++ "/" ++ rest)%string
      with (String "/" ("sites" ++ String "/" (site ++ String "/" rest)))%string.
    cbn [split_slash Ascii.eqb Bool.eqb].
    rewrite (split_slash_component "sites" _ eq_refl).
    now rewrite (split_slash_component site rest Hsite). }
  rewrite Hsplit. pose proof (split_slash_nonempty rest) as Hne.
  destruct (split_slash rest) as [|h t] eqn:Hrest; [contradiction|].
  cbn [length Nat.ltb Nat.leb skipn]. rewrite <- Hrest. apply join_split_slash.
Qed.

Lemma drop_site_prefix_bare (site : string) :
  has_char "/" site = false -> drop_site_prefix ("/sites/" ++ site)%string = EmptyString.
Proof.
  intro Hsite. unfold drop_site_prefix.
  assert (Hsplit : split_slash ("/sites/" ++ site)%string
                   = [EmptyString; "sites"%string; site]).
  { change ("/sites/" ++ site)%string with (String "/" ("sites" ++ String "/" site))%string.
    cbn [split_slash Ascii.eqb Bool.eqb].
    rewrite (split_slash_component "sites" _ eq_refl).
    now rewrite (split_slash_last site Hsite). }
  now rewrite Hsplit.
Qed.

Lemma startswith_append (p s : string) : startswith (p ++ s) p = true.
Proof.
  unfold startswith. induction p as [|c p IH]; cbn [append String.prefix].
  - destruct s; reflexivity.
  - destruct (Ascii.ascii_dec c c) as [_|Hne]; [exact IH | contradiction].
Qed.

End PathFacts.

Module ResolveFacts.

Lemma get_site_and_drive_inv site_backend drives_backend site_url :
  FolderSize.get_site_and_drive site_backend drives_backend site_url
  = (None, None, None)
  \/ exists site drives drive,
       site_backend (site_api_url site_url) = Status 200 site
       /\ drives_backend (drives_url (st_id site)) = Status 200 drives
       /\ In drive drives
       /\ FolderSize.get_site_and_drive site_backend drives_backend site_url
          = (st_id site, dr_id drive, dr_name drive).
Proof.
  unfold FolderSize.get_site_and_drive.
  destruct (site_backend (site_api_url site_url)) as [|code site] eqn:Hsite;
    [now left|].
  destruct (code =? 200) eqn:Hcode; [|now left]. apply Z.eqb_eq in Hcode. subst code.
  destruct (drives_backend (drives_url (st_id site))) as [|dcode drives] eqn:Hdrives;
    [now left|].
  destruct (dcode =? 200) eqn:Hdcode; [|now left]. apply Z.eqb_eq in Hdcode. subst dcode.
  destruct (pick_drive drives) as [drive|] eqn:Hpick; [|now left].
  right. exists site, drives, drive.
  split; [first [reflexivity | assumption]|].
  split; [first [reflexivity | assumption]|].
  split; [now apply LookupFacts.pick_drive_in | reflexivity].
Qed.

Lemma startswith_peel (a b c : string) :
  startswith (a ++ b) (a ++ c) = startswith b c.
Proof.
  unfold startswith. induction a as [|x a IH]; cbn [append String.prefix]; [reflexivity|].
  destruct (Ascii.ascii_dec x x) as [_|Hne]; [exact IH | contradiction].
Qed.

Lemma get_drive_item_by_path_inv item_backend quote site_id drive_id item_path item :
  FolderSize.get_drive_item_by_path item_backend quote site_id drive_id item_path
  = Some item ->
  exists url,
    startswith url ("https://graph.microsoft.com/v1.0/sites/" ++ site_id
                      ++ "/drives/" ++ drive_id ++ "/root")%string = true
    /\ item_backend url = Status 200 (Some item).
Proof.
  unfold FolderSize.get_drive_item_by_path. intro H.
  match type of H with
  | match item_backend ?u with _ => _ end = _ => exists u; split
  end.
  - destruct (negb (truthy (Some item_path)) || String.eqb item_path "/").
    + rewrite !startswith_peel. reflexivity.
    + rewrite !startswith_peel. reflexivity.
  - match type of H with
    | match item_backend ?u with _ => _ end = _ =>
        destruct (item_backend u) as [|code body]; [discriminate|]
    end.
    destruct (code =? 200) eqn:Hc; [|discriminate].
    apply Z.eqb_eq in Hc. now subst.
Qed.

End ResolveFacts.

(** X7 (which drive is analysed).  When the site and its drives are
    answered with 200, [get_site_and_drive] settles on the first drive named
    ['Documents'] or ['Shared Documents'], wherever it stands in the list;
    without such a drive it takes the first one, and without any drive it
    fails.  Whatever the backends do, its answer is all [None] or the identifier
    of the site with identifier and name of one of the drives listed for that
    site.  [get_drive_id] of [sharepoint_graph_api.py] makes the same choice. *)
Theorem x7_document_library_choice :
  (forall site_backend drives_backend site_url site drives,
      site_backend (site_api_url site_url) = Status 200 site ->
      drives_backend (drives_url (st_id site)) = Status 200 drives ->
      (forall before library after,
          drives = before ++ library :: after ->
          Forall (fun drive => is_document_library drive = false) before ->
          is_document_library library = true ->
          FolderSize.get_site_and_drive site_backend drives_backend site_url
          = (st_id site, dr_id library, dr_name library))
      /\
      (forall first rest,
          drives = first :: rest ->
          Forall (fun drive => is_document_library drive = false) drives ->
          FolderSize.get_site_and_drive site_backend drives_backend site_url
          = (st_id site, dr_id first, dr_name first))
      /\
      (drives = [] ->
       FolderSize.get_site_and_drive site_backend drives_backend site_url
       = (None, None, None)))
  /\
  (forall site_backend drives_backend site_url,
      FolderSize.get_site_and_drive site_backend drives_backend site_url
      = (None, None, None)
      \/ exists site drives drive,
           site_backend (site_api_url site_url) = Status 200 site
           /\ drives_backend (drives_url (st_id site)) = Status 200 drives
           /\ In drive drives
           /\ FolderSize.get_site_and_drive site_backend drives_backend site_url
              = (st_id site, dr_id drive, dr_name drive))
  /\
  (forall drives_backend site_id drives,
      drives_backend (drives_url (Some site_id)) = Status 200 drives ->
      (forall before library after,
          drives = before ++ library :: after ->
          Forall (fun drive => is_document_library drive = false) before ->
          is_document_library library = true ->
          GraphApi.get_drive_id drives_backend site_id = dr_id library)
      /\
      (forall first rest,
          drives = first :: rest ->
          Forall (fun drive => is_document_library drive = false) drives ->
          GraphApi.get_drive_id drives_backend site_id = dr_id first)
      /\
      (drives = [] -> GraphApi.get_drive_id drives_backend site_id = None)).
Proof.
  split; [|split].
  - intros site_backend drives_backend site_url site drives Hsite Hdrives.
    unfold FolderSize.get_site_and_drive. rewrite Hsite. cbn [Z.eqb Pos.eqb].
    rewrite Hdrives. cbn [Z.eqb Pos.eqb]. unfold pick_drive.
    split; [|split].
    + intros before library after -> Hbefore Hlib.
      now rewrite (LookupFacts.find_first _ _ _ _ Hbefore Hlib).
    + intros first rest -> Hnone. now rewrite (LookupFacts.find_none _ _ Hnone).
    + intros ->. reflexivity.
  - exact ResolveFacts.get_site_and_drive_inv.
  - intros drives_backend site_id drives Hdrives.
    unfold GraphApi.get_drive_id. rewrite Hdrives. cbn [Z.eqb Pos.eqb]. unfold pick_drive.
    split; [|split].
    + intros before library after -> Hbefore Hlib.
      now rewrite (LookupFacts.find_first _ _ _ _ Hbefore Hlib).
    + intros first rest -> Hnone. now rewrite (LookupFacts.find_none _ _ Hnone).
    + intros ->. reflexivity.
Qed.

Lemma x7_document_library_choice_witness :
  FolderSize.get_site_and_drive site_backend drives_backend
                                "https://contoso.sharepoint.com/sites/Sales"
  = (Some "S", Some "D", Some "Documents")
  /\ GraphApi.get_drive_id drives_backend "S" = Some "D".
Proof.
  destruct x7_document_library_choice as (Hfs & _ & Hga). split.
  - refine (proj1 (Hfs site_backend drives_backend
                       "https://contoso.sharepoint.com/sites/Sales"
                       (mkSite (Some "S") (Some "Sales")) [archive_drive; documents_drive]
                       eq_refl eq_refl)
                  [archive_drive] documents_drive [] eq_refl _ eq_refl).
    repeat constructor.
  - refine (proj1 (Hga drives_backend "S" [archive_drive; documents_drive] eq_refl)
                  [archive_drive] documents_drive [] eq_refl _ eq_refl).
    repeat constructor.
Defined.

(** X8 (no report without a resolved folder).  [analyze_site] of
    [sharepoint_folder_size.py] returns a report only if the site was
    answered with 200 and carries an identifier, one of the drives listed for
    it carries an identifier, and the folder item was fetched with 200 from
    an address under the root of that drive; the report is then the walk of
    that very item with these identifiers.  In every other case it returns
    [None] (or the walk does not end). *)
Theorem x8_report_needs_resolved_root
        backend item_backend site_backend drives_backend quote fuel site_url folder_path r :
  FolderSize.analyze_site_at backend item_backend site_backend drives_backend quote
                             fuel site_url folder_path
  = Some (Some r) ->
  exists site drives drive site_id drive_id url folder_item log,
    site_backend (site_api_url site_url) = Status 200 site
    /\ st_id site = Some site_id
    /\ drives_backend (drives_url (Some site_id)) = Status 200 drives
    /\ In drive drives
    /\ dr_id drive = Some drive_id
    /\ startswith url ("https://graph.microsoft.com/v1.0/sites/" ++ site_id
                         ++ "/drives/" ++ drive_id ++ "/root")%string = true
    /\ item_backend url = Status 200 (Some folder_item)
    /\ FolderSize.calculate_folder_size backend site_id drive_id fuel folder_item
       = Some (r, log).
Proof.
  unfold FolderSize.analyze_site_at, FolderSize.analyze_site. intro H.
  destruct (ResolveFacts.get_site_and_drive_inv site_backend drives_backend site_url)
    as [Hnone | (site & drives & drive & Hsite & Hdrives & Hin & Hlookup)].
  - rewrite Hnone in H. discriminate.
  - rewrite Hlookup in H.
    destruct (st_id site) as [site_id|] eqn:Hsid; [|discriminate].
    destruct (dr_id drive) as [drive_id|] eqn:Hdid;
      [|rewrite orb_true_r in H; discriminate].
    destruct (negb (truthy (Some site_id)) || negb (truthy (Some drive_id)));
      [discriminate|].
    cbn [get_or] in H.
    match type of H with
    | match ?lookup with _ => _ end = _ =>
        destruct lookup as [folder_item|] eqn:Hget; [|discriminate]
    end.
    assert (Hitem : exists item_path,
               FolderSize.get_drive_item_by_path item_backend quote site_id drive_id
                                                 item_path = Some folder_item).
    { match type of Hget with
      | (if ?c then _ else _) = _ => destruct c; eexists; exact Hget
      end. }
    destruct Hitem as (item_path & Hitem).
    apply ResolveFacts.get_drive_item_by_path_inv in Hitem as (url & Hurl & Hb).
    destruct (FolderSize.calculate_folder_size backend site_id drive_id fuel folder_item)
      as [[r' log]|] eqn:Hcalc; [|discriminate].
    injection H as <-.
    exists site, drives, drive, site_id, drive_id, url, folder_item, log.
    repeat split; auto.
Qed.

Lemma x8_report_needs_resolved_root_witness :
  exists site drives drive site_id drive_id url folder_item log,
    site_backend (site_api_url "https://contoso.sharepoint.com/sites/Sales")
    = Status 200 site
    /\ st_id site = Some site_id
    /\ drives_backend (drives_url (Some site_id)) = Status 200 drives
    /\ In drive drives
    /\ dr_id drive = Some drive_id
    /\ startswith url ("https://graph.microsoft.com/v1.0/sites/" ++ site_id
                         ++ "/drives/" ++ drive_id ++ "/root")%string = true
    /\ item_backend url = Status 200 (Some folder_item)
    /\ FolderSize.calculate_folder_size id_backend site_id drive_id 5 folder_item
       = Some (Node (Some "id-T") "https://sp/T" "T" 6 3 2
                    [mkFileInfo "t1" 1 "" "https://sp/t1"]
                    [Node (Some "id-U") "https://sp/U" "U" 5 2 1
                          [mkFileInfo "u1" 2 "" "https://sp/u1"]
                          [Node (Some "id-V") "https://sp/V" "V" 3 1 0
                                [mkFileInfo "v1" 3 "" "https://sp/v1"] []]],
               log).
Proof.
  apply (x8_report_needs_resolved_root id_backend item_backend site_backend drives_backend
           plain_quote 5%nat "https://contoso.sharepoint.com/sites/Sales"
           "/sites/Sales/T/").
  vm_compute. reflexivity.
Defined.

(** X9 (the address of the site).  For a site URL made of a host name and a
    path, neither of them holding a colon, with or without the ['https://']
    in front, the site is looked up at [/sites/{host}:/{path}]; a URL that is
    a bare host name is looked up at [/sites/{host}:/]. *)
Theorem x9_site_api_url (host site_path : string) :
  has_char "/" host = false ->
  has_char ":" host = false ->
  has_char ":" site_path = false ->
  site_api_url ("https://" ++ host ++ "/" ++ site_path)%string
  = ("https://graph.microsoft.com/v1.0/sites/" ++ host ++ ":/" ++ site_path)%string
  /\ site_api_url (host ++ "/" ++ site_path)%string
     = ("https://graph.microsoft.com/v1.0/sites/" ++ host ++ ":/" ++ site_path)%string
  /\ site_api_url ("https://" ++ host)%string
     = ("https://graph.microsoft.com/v1.0/sites/" ++ host ++ ":/")%string.
Proof.
  intros Hslash Hhost Hpath.
  assert (Hclean : remove_https (host ++ "/" ++ site_path)%string
                   = (host ++ "/" ++ site_path)%string).
  { apply UrlFacts.remove_https_no_colon.
    rewrite UrlFacts.has_char_app, Hhost. cbn [append has_char orb Ascii.eqb].
    exact Hpath. }
  assert (Hurl : site_api_url (host ++ "/" ++ site_path)%string
                 = ("https://graph.microsoft.com/v1.0/sites/" ++ host ++ ":/" ++ site_path)%string).
  { unfold site_api_url. rewrite Hclean.
    change ("/" ++ site_path)%string with (String "/" site_path).
    rewrite (LookupFacts.split_slash_component _ _ Hslash).
    cbn [hd tl]. now rewrite LookupFacts.join_split_slash. }
  split; [|split].
  - unfold site_api_url.
    change ("https://" ++ host ++ "/" ++ site_path)%string
      with ("https://" ++ (host ++ "/" ++ site_path))%string.
    rewrite UrlFacts.remove_https_scheme. exact Hurl.
  - exact Hurl.
  - unfold site_api_url. rewrite UrlFacts.remove_https_scheme.
    rewrite (UrlFacts.remove_https_no_colon _ Hhost).
    rewrite (LookupFacts.split_slash_last _ Hslash). reflexivity.
Qed.

Lemma x9_site_api_url_witness :
  site_api_url "https://contoso.sharepoint.com/sites/Sales"
  = "https://graph.microsoft.com/v1.0/sites/contoso.sharepoint.com:/sites/Sales".
Proof.
  exact (proj1 (x9_site_api_url "contoso.sharepoint.com" "sites/Sales"
                                eq_refl eq_refl eq_refl)).
Defined.

(** X10 (how the folder path is cleaned up).  A folder path given with its
    ['/sites/<site>/'] prefix is analysed like the path without it, and
    ['/sites/<site>'] alone like the empty path, in [sharepoint_folder_size.py]
    and in [sharepoint_graph_api.py].  In [sharepoint_folder_size.py] a path
    that, slashes stripped, is empty, ['Documents'] or ['Shared Documents'] is
    analysed like the empty path: it stands for the root of the library. *)
Theorem x10_folder_path_cleanup :
  (forall site rest backend item_backend get_site_and_drive quote fuel site_url,
      has_char "/" site = false ->
      startswith rest "/sites/" = false ->
      FolderSize.analyze_site backend item_backend get_site_and_drive quote fuel site_url
                              ("/sites/" ++ site ++ "/" ++ rest)%string
      = FolderSize.analyze_site backend item_backend get_site_and_drive quote fuel site_url
                                rest
      /\ FolderSize.analyze_site backend item_backend get_site_and_drive quote fuel
                                 site_url ("/sites/" ++ site)%string
         = FolderSize.analyze_site backend item_backend get_site_and_drive quote fuel
                                   site_url EmptyString)
  /\
  (forall folder_path backend item_backend get_site_and_drive quote fuel site_url,
      startswith folder_path "/sites/" = false ->
      in_strings (strip_slash folder_path)
                 [EmptyString; "Shared Documents"; "Documents"]%string = true ->
      FolderSize.analyze_site backend item_backend get_site_and_drive quote fuel site_url
                              folder_path
      = FolderSize.analyze_site backend item_backend get_site_and_drive quote fuel site_url
                                EmptyString)
  /\
  (forall site rest backend get_site_id get_drive_id fuel site_url,
      has_char "/" site = false ->
      startswith rest "/sites/" = false ->
      GraphApi.analyze_site backend get_site_id get_drive_id fuel site_url
                            ("/sites/" ++ site ++ "/" ++ rest)%string
      = GraphApi.analyze_site backend get_site_id get_drive_id fuel site_url rest
      /\ GraphApi.analyze_site backend get_site_id get_drive_id fuel site_url
                               ("/sites/" ++ site)%string
         = GraphApi.analyze_site backend get_site_id get_drive_id fuel site_url
                                 EmptyString).
Proof.
  split; [|split].
  - intros site rest backend item_backend get_site_and_drive quote fuel site_url Hsite Hrest.
    unfold FolderSize.analyze_site.
    destruct (get_site_and_drive site_url) as [[site_id drive_id] drive_name].
    destruct (negb (truthy site_id) || negb (truthy drive_id)); [split; reflexivity|].
    rewrite (PathFacts.drop_site_prefix_rest site rest Hsite),
            (PathFacts.drop_site_prefix_bare site Hsite), Hrest,
            !PathFacts.startswith_append.
    change (truthy (Some ("/sites/" ++ site ++ "/" ++ rest)%string)) with true.
    change (truthy (Some ("/sites/" ++ site)%string)) with true.
    cbv iota. split; [|reflexivity].
    destruct rest as [|c rest']; reflexivity.
  - intros p backend item_backend get_site_and_drive quote fuel site_url Hp Hroot.
    unfold FolderSize.analyze_site.
    destruct (get_site_and_drive site_url) as [[site_id drive_id] drive_name].
    destruct (negb (truthy site_id) || negb (truthy drive_id)); [reflexivity|].
    rewrite Hp. destruct (truthy (Some p)) eqn:Htruthy.
    + rewrite Hroot, orb_true_r. reflexivity.
    + destruct p; [reflexivity | discriminate].
  - intros site rest backend get_site_id get_drive_id fuel site_url Hsite Hrest.
    unfold GraphApi.analyze_site.
    destruct (negb (truthy (get_site_id site_url))); [split; reflexivity|].
    destruct (negb (truthy (get_drive_id _))); [split; reflexivity|].
    rewrite (PathFacts.drop_site_prefix_rest site rest Hsite),
            (PathFacts.drop_site_prefix_bare site Hsite), Hrest,
            !PathFacts.startswith_append.
    split; reflexivity.
Qed.

Lemma x10_folder_path_cleanup_witness :
  (forall backend item_backend get_site_and_drive quote fuel site_url,
      FolderSize.analyze_site backend item_backend get_site_and_drive quote fuel site_url
                              "/sites/Sales/Reports/2024"%string
      = FolderSize.analyze_site backend item_backend get_site_and_drive quote fuel site_url
                                "Reports/2024"%string)
  /\
  (forall backend item_backend get_site_and_drive quote fuel site_url,
      FolderSize.analyze_site backend item_backend get_site_and_drive quote fuel site_url
                              "//Documents/"%string
      = FolderSize.analyze_site backend item_backend get_site_and_drive quote fuel site_url
                                EmptyString)
  /\
  (forall backend get_site_id get_drive_id fuel site_url,
      GraphApi.analyze_site backend get_site_id get_drive_id fuel site_url
                            "/sites/Sales/Reports/2024"%string
      = GraphApi.analyze_site backend get_site_id get_drive_id fuel site_url
                              "Reports/2024"%string).
Proof.
  destruct x10_folder_path_cleanup as (Hfs & Hroot & Hga).
  split; [|split].
  - intros backend item_backend get_site_and_drive quote fuel site_url.
    exact (proj1 (Hfs "Sales" "Reports/2024" backend item_backend get_site_and_drive
                      quote fuel site_url eq_refl eq_refl))%string.
  - intros backend item_backend get_site_and_drive quote fuel site_url.
    exact (Hroot "//Documents/"%string backend item_backend get_site_and_drive quote fuel
                 site_url eq_refl eq_refl).
  - intros backend get_site_id get_drive_id fuel site_url.
    exact (proj1 (Hga "Sales" "Reports/2024" backend get_site_id get_drive_id
                      fuel site_url eq_refl eq_refl))%string.
Defined.

(** ** sharepoint_folder_size_v2.py: listings and requests *)

Module FolderSizeV2Listing.
Import FolderSizeV2 FolderSizeV2Facts.

#[local] Arguments files_url : simpl never.
#[local] Arguments folders_url : simpl never.

(** A length that is a number or is absent gives a size that is a number. *)
Lemma v2_number_length (file : RestItem) :
  has_number_length file = true ->
  exists z, f_size (file_info_of file) = FolderSize.JNumber z.
Proof.
  unfold has_number_length, file_info_of. cbn [f_size].
  destruct (Length file) as [[|z|s|items|members]|]; try discriminate;
    intros _; cbn [get_or]; eauto.
Qed.

Lemma v2_number_lengths (file_entries : list RestItem) :
  forallb has_number_length file_entries = true ->
  exists sizes,
    map (fun file => f_size (file_info_of file)) file_entries
    = map FolderSize.JNumber sizes.
Proof.
  induction file_entries as [|file rest IH]; intro H; [now exists []|].
  cbn [forallb] in H. apply andb_true_iff in H as [Hfile Hrest].
  destruct (v2_number_length _ Hfile) as (z & Hz). destruct (IH Hrest) as (sizes & Hs).
  exists (z :: sizes). cbn [map]. now rewrite Hz, Hs.
Qed.

Lemma v2_other_length (file : RestItem) :
  has_number_length file = false ->
  forall z, f_size (file_info_of file) <> FolderSize.JNumber z.
Proof.
  unfold has_number_length, file_info_of. cbn [f_size].
  destruct (Length file) as [[|z|s|items|members]|]; try discriminate;
    intros _ z'; cbn [get_or]; discriminate.
Qed.

Section Facts.

Variable backend : RestBackend.
Variable site_url : string.
Variable quote : string -> string.

Local Abbreviation calc := (calculate_folder_size backend site_url quote).
Local Abbreviation child_path :=
  (fun folder : RestItem => get_or EmptyString (ServerRelativeUrl folder)).

Lemma v2_calc_path fuel folder_path r log :
  calc fuel folder_path = Some (r, log) -> path r = folder_path.
Proof. intro H. now apply v2_calc_identity in H. Qed.

(** With every folder entry named, the filter is [filter]. *)
Lemma v2_filter_named (folders : list RestItem) :
  Forall (fun f => Name f <> None) folders ->
  filter_system_folders folders
  = Returned (filter (fun f => negb (is_system_name (get_or EmptyString (Name f))))
                     folders).
Proof.
  induction 1 as [|f folders Hf _ IH]; [reflexivity|].
  cbn [filter_system_folders filter].
  destruct (Name f) as [n|]; [|contradiction]. rewrite IH. cbn [get_or].
  unfold is_system_name. rewrite negb_orb.
  destruct (negb (startswith n "_") && negb (String.eqb n "Forms")); reflexivity.
Qed.

Lemma v2_subfolder_paths (rec : string -> option (ReportNode * list string))
      folders outs :
  Forall2 (fun folder out => rec (child_path folder) = Some out) folders outs ->
  (forall p out, rec p = Some out -> path (fst out) = p) ->
  map path (map fst outs) = map child_path folders.
Proof.
  intros HF Hrec. induction HF as [|d o ds os Hd _ IH]; [reflexivity|].
  cbn [map]. f_equal; [|exact IH]. eapply Hrec. exact Hd.
Qed.

End Facts.
End FolderSizeV2Listing.

Module FolderSizeV2Requests.
Import FolderSizeV2 FolderSizeV2Facts FolderSizeV2Listing.

#[local] Arguments files_url : simpl never.
#[local] Arguments folders_url : simpl never.

Section Facts.

Variable backend : RestBackend.
Variable site_url : string.
Variable quote : string -> string.

Local Abbreviation calc := (calculate_folder_size backend site_url quote).

Lemma v2_get_folder_items_log folder_path :
  let '(out, log) := get_folder_items backend site_url quote folder_path in
  (log = [files_url site_url quote folder_path]
   \/ log = [files_url site_url quote folder_path; folders_url site_url quote folder_path])
  /\ ((out <> Raised \/ forall url, backend url <> Raises) ->
      log = [files_url site_url quote folder_path; folders_url site_url quote folder_path]).
Proof.
  unfold get_folder_items.
  destruct (backend (files_url site_url quote folder_path)) as [|fc fd] eqn:Hf.
  - split; [now left|]. intros [H | H]; [contradiction | now apply H in Hf].
  - destruct (backend (folders_url site_url quote folder_path)) as [|dc dd] eqn:Hd.
    + split; [now right | reflexivity].
    + destruct (dc =? 200); [|split; [now right | reflexivity]].
      destruct (filter_system_folders dd); split; try (now right); reflexivity.
Qed.

(** The requests of a node without subfolders. *)
Lemma v2_leaf_requests (leaf : ReportNode) folder_path log :
  path leaf = folder_path -> subfolders leaf = [] ->
  (log = [files_url site_url quote folder_path]
   \/ log = [files_url site_url quote folder_path; folders_url site_url quote folder_path]) ->
  Forall (fun url => exists n, In n (nodes leaf) /\ In url (v2_requests_of site_url quote n))
         log
  /\ (length (nodes leaf) <= length log <= 2 * length (nodes leaf))%nat.
Proof.
  intros Hpath Hsubs Hlog. destruct leaf as [p nm ts fc dc fs subs].
  cbn [path subfolders] in *. subst. cbn [nodes subfolders flat_map length]. split.
  - apply Forall_forall. intros url Hurl. eexists. split; [left; reflexivity|].
    unfold v2_requests_of. cbn [path].
    destruct Hlog as [-> | ->]; cbn [In] in *; tauto.
  - destruct Hlog as [-> | ->]; cbn [length]; lia.
Qed.

Lemma v2_requests fuel : forall folder_path r log,
  calc fuel folder_path = Some (r, log) ->
  Forall (fun url => exists n, In n (nodes r) /\ In url (v2_requests_of site_url quote n)) log
  /\ (length (nodes r) <= length log <= 2 * length (nodes r))%nat
  /\ ((forall url, backend url <> Raises) ->
      length log = (2 * length (nodes r))%nat).
Proof.
  induction fuel as [|fuel IH]; intros p r log H; [discriminate|].
  pose proof (v2_get_folder_items_log p) as Hlog.
  apply v2_calc_cases in H
    as [(Hraised & -> & ->)
       | [(fs & ds & counted & stray & more & sizes & Hitems & _ & _ & _ & ->)
         | (fs & ds & sizes & outs & l0 & Hitems & _ & HF & -> & ->)]].
  - destruct (get_folder_items backend site_url quote p) as [out l0].
    cbn [fst snd] in *. destruct Hlog as [Hl0 Hfull].
    destruct (v2_leaf_requests (empty_result p) p l0 eq_refl eq_refl Hl0) as [Hall Hlen].
    split; [exact Hall|]. split; [exact Hlen|].
    intro Hnever. rewrite Hfull by now right. reflexivity.
  - rewrite Hitems in Hlog. destruct Hlog as [Hl0 Hfull].
    match goal with |- context [nodes ?leaf] =>
      destruct (v2_leaf_requests leaf p log eq_refl eq_refl Hl0) as [Hall Hlen]
    end.
    split; [exact Hall|]. split; [exact Hlen|].
    intros _. rewrite Hfull by (left; discriminate). reflexivity.
  - rewrite Hitems in Hlog. destruct Hlog as [_ Hfull].
    rewrite Hfull by (left; discriminate). clear Hfull Hitems.
    cbn [nodes subfolders app].
    set (root := Node _ _ _ _ _ _ _).
    assert (Hsubs : Forall (fun out =>
               Forall (fun url => exists n, In n (nodes (fst out))
                                            /\ In url (v2_requests_of site_url quote n))
                      (snd out)
               /\ (length (nodes (fst out)) <= length (snd out)
                   <= 2 * length (nodes (fst out)))%nat
               /\ ((forall url, backend url <> Raises) ->
                   length (snd out) = (2 * length (nodes (fst out)))%nat)) outs).
    { clear - HF IH. induction HF as [|d [s l] ds0 outs0 Hd _ IHF]; constructor; eauto. }
    clear HF IH.
    assert (Hlen : (length (flat_map nodes (map fst outs)) <= length (concat (map snd outs))
                    <= 2 * length (flat_map nodes (map fst outs)))%nat
                   /\ ((forall url, backend url <> Raises) ->
                       length (concat (map snd outs))
                       = (2 * length (flat_map nodes (map fst outs)))%nat)).
    { induction Hsubs as [|[s l] outs0 (_ & Hs & Hs') _ IHs];
        [cbn; split; [lia | reflexivity]|].
      cbn [map fst snd flat_map concat] in *. rewrite !length_app.
      destruct IHs as [IH1 IH2]. split; [lia|]. intro Hn.
      rewrite (Hs' Hn), (IH2 Hn). lia. }
    split; [|split].
    + assert (Hroot : forall url,
                 In url [files_url site_url quote p; folders_url site_url quote p] ->
                 exists n, In n (root :: flat_map nodes (map fst outs))
                           /\ In url (v2_requests_of site_url quote n)).
      { intros url Hurl. exists root. split; [now left | exact Hurl]. }
      constructor; [apply Hroot; cbn; tauto|].
      constructor; [apply Hroot; cbn; tauto|].
      apply Forall_forall. intros url Hurl.
      apply in_concat in Hurl as (l & Hl & Hurl).
      apply in_map_iff in Hl as ([s l'] & <- & Hout). cbn [snd] in Hurl.
      rewrite Forall_forall in Hsubs. destruct (Hsubs _ Hout) as (Hs & _).
      cbn [fst snd] in Hs. rewrite Forall_forall in Hs.
      destruct (Hs _ Hurl) as (n & Hn & Hreq).
      exists n. split; [|exact Hreq]. right. apply in_flat_map.
      exists s. split; [|exact Hn].
      apply in_map_iff. exists (s, l'). split; [reflexivity | exact Hout].
    + cbn [length app]. lia.
    + intro Hn. cbn [length app]. rewrite (proj2 Hlen Hn). lia.
Qed.

End Facts.
End FolderSizeV2Requests.

(** X11 (from the two listings to the node, [sharepoint_folder_size_v2.py]).
    Let the Folders request of a folder be answered with 200, every entry
    carrying a name, and take for its file entries those of the Files
    request when it is answered with 200, none otherwise (any other status
    there is taken for an empty folder).  When the length of every file
    entry is a number, or is absent, the files of the node are the file
    entries, the subfolders are the walks of the folder entries that are not
    system folders, one for one and in order, each at the [ServerRelativeUrl]
    of its entry, and [folder_count] counts each of them.  When a length is
    something else (a string, as [odata=verbose] writes it), the node stops
    at the first such entry: its files are the entries up to that one, it
    included, [file_count] counts those before it, and no subfolder is
    walked. *)
Theorem x11_v2_listing_to_report backend site_url quote fuel folder_path r log
        files_code files_data folders_data :
  FolderSizeV2.calculate_folder_size backend site_url quote (S fuel) folder_path
  = Some (r, log) ->
  backend (FolderSizeV2.files_url site_url quote folder_path)
  = Status files_code files_data ->
  backend (FolderSizeV2.folders_url site_url quote folder_path)
  = Status 200 folders_data ->
  Forall (fun f => FolderSizeV2.Name f <> None) folders_data ->
  let file_entries := if files_code =? 200 then files_data else [] in
  let folders :=
    filter (fun f => negb (is_system_name (get_or EmptyString (FolderSizeV2.Name f))))
           folders_data in
  (forallb has_number_length file_entries = true ->
   FolderSizeV2.files r = map FolderSizeV2.file_info_of file_entries
   /\ map FolderSizeV2.path (FolderSizeV2.subfolders r)
      = map (fun f => get_or EmptyString (FolderSizeV2.ServerRelativeUrl f)) folders
   /\ FolderSizeV2.folder_count r
      = Z.of_nat (length folders)
        + zsum (map FolderSizeV2.folder_count (FolderSizeV2.subfolders r)))
  /\
  (forall counted stray rest,
      file_entries = counted ++ stray :: rest ->
      forallb has_number_length counted = true ->
      has_number_length stray = false ->
      FolderSizeV2.files r = map FolderSizeV2.file_info_of (counted ++ [stray])
      /\ FolderSizeV2.file_count r = Z.of_nat (length counted)
      /\ FolderSizeV2.subfolders r = []
      /\ FolderSizeV2.folder_count r = 0).
Proof.
  intros H Hfiles Hfolders Hnamed file_entries folders.
  cbn [FolderSizeV2.calculate_folder_size] in H.
  unfold FolderSizeV2.get_folder_items in H.
  rewrite Hfiles, Hfolders in H. cbn [Z.eqb Pos.eqb] in H.
  rewrite (FolderSizeV2Listing.v2_filter_named _ Hnamed) in H.
  fold file_entries folders in H.
  split.
  - intro Hnumbers.
    destruct (FolderSizeV2Listing.v2_number_lengths _ Hnumbers) as (sizes & Hsizes).
    rewrite (FolderSizeV2Facts.v2_process_files_numbers _ _ Hsizes) in H.
    apply FolderSizeV2Facts.v2_process_subfolders_spec in H as (outs & HF & -> & _).
    rewrite FolderSizeV2Facts.v2_fold_add_counted_subfolder.
    cbn [FolderSizeV2.files FolderSizeV2.subfolders FolderSizeV2.folder_count
         FolderSizeV2.empty_result app].
    split; [reflexivity|]. split.
    + eapply FolderSizeV2Listing.v2_subfolder_paths; [exact HF|].
      intros p [s l] Hs. eapply FolderSizeV2Listing.v2_calc_path. exact Hs.
    + rewrite length_map. apply Forall2_length in HF. rewrite HF. lia.
  - intros counted stray rest Hsplit Hcounted Hstray.
    destruct (FolderSizeV2Listing.v2_number_lengths _ Hcounted) as (sizes & Hsizes).
    rewrite Hsplit in H.
    rewrite (FolderSizeV2Facts.v2_process_files_stray _ _ _ _ Hsizes
               (FolderSizeV2Listing.v2_other_length _ Hstray)) in H.
    injection H as <- _.
    cbn [FolderSizeV2.files FolderSizeV2.subfolders FolderSizeV2.folder_count
         FolderSizeV2.file_count FolderSizeV2.empty_result app].
    repeat split.
Qed.

Lemma x11_v2_listing_to_report_witness :
  (exists r,
      FolderSizeV2.files r
      = [FolderSizeV2.mkFileInfo "d1" (FolderSize.JNumber 100) "" "/sites/X/Docs/d1"]
      /\ map FolderSizeV2.path (FolderSizeV2.subfolders r) = ["/sites/X/Docs/Sub"]
      /\ FolderSizeV2.folder_count r
         = 1 + zsum (map FolderSizeV2.folder_count (FolderSizeV2.subfolders r)))
  /\
  (exists r,
      FolderSizeV2.files r
      = [FolderSizeV2.mkFileInfo "d1" (FolderSize.JString "100") "" "/sites/X/Docs/d1"]
      /\ FolderSizeV2.file_count r = 0
      /\ FolderSizeV2.subfolders r = []
      /\ FolderSizeV2.folder_count r = 0).
Proof.
  split.
  - eexists.
    refine (proj1 (x11_v2_listing_to_report rest_backend "https://t" plain_quote 2%nat
                     "/sites/X/Docs" _ _ 200
                     [rest_file "d1" 100 "/sites/X/Docs/d1"]
                     [rest_folder "Sub" "/sites/X/Docs/Sub";
                      rest_folder "Forms" "/sites/X/Docs/Forms";
                      rest_folder "_private" "/sites/X/Docs/_private"]
                     _ eq_refl eq_refl _) eq_refl).
    + vm_compute. reflexivity.
    + repeat constructor; discriminate.
  - eexists.
    refine (proj2 (x11_v2_listing_to_report rest_backend_verbose "https://t" plain_quote
                     2%nat "/sites/X/Docs" _ _ 200
                     [rest_file_verbose "d1" "100" "/sites/X/Docs/d1"]
                     [rest_folder "Sub" "/sites/X/Docs/Sub";
                      rest_folder "Forms" "/sites/X/Docs/Forms";
                      rest_folder "_private" "/sites/X/Docs/_private"]
                     _ eq_refl eq_refl _)
                  [] (rest_file_verbose "d1" "100" "/sites/X/Docs/d1") []
                  eq_refl eq_refl eq_refl).
    + vm_compute. reflexivity.
    + repeat constructor; discriminate.
Defined.

(** X12 (the requests of a walk, [sharepoint_folder_size_v2.py]).  Every
    request of a walk is the Files or the Folders request of a folder that
    has a node in the report; there are at least as many requests as nodes
    and at most twice as many, and exactly twice as many when no request
    raises: the folders of the report are visited once each and nothing else
    is asked for. *)
Theorem x12_v2_requests backend site_url quote fuel folder_path r log :
  FolderSizeV2.calculate_folder_size backend site_url quote fuel folder_path
  = Some (r, log) ->
  Forall (fun url => exists n, In n (FolderSizeV2.nodes r)
                               /\ In url (v2_requests_of site_url quote n))
         log
  /\ (length (FolderSizeV2.nodes r) <= length log <= 2 * length (FolderSizeV2.nodes r))%nat
  /\ ((forall url, backend url <> Raises) ->
      length log = (2 * length (FolderSizeV2.nodes r))%nat).
Proof. apply FolderSizeV2Requests.v2_requests. Qed.

Lemma x12_v2_requests_witness :
  exists r log,
    FolderSizeV2.calculate_folder_size rest_backend "https://t" plain_quote 3 "/sites/X/Docs"
    = Some (r, log)
    /\ length log = 4%nat
    /\ Forall (fun url => exists n, In n (FolderSizeV2.nodes r)
                                    /\ In url (v2_requests_of "https://t" plain_quote n))
              log
    /\ (length (FolderSizeV2.nodes r) <= length log
        <= 2 * length (FolderSizeV2.nodes r))%nat.
Proof.
  eexists. eexists. split; [vm_compute; reflexivity|]. split; [reflexivity|].
  assert (H := x12_v2_requests rest_backend "https://t" plain_quote 3%nat "/sites/X/Docs").
  specialize (H _ _ ltac:(vm_compute; reflexivity)).
  destruct H as (Hall & Hlen & _). split; assumption.
Defined.

(** ** sharepoint_folder_size.py: requests and broken listings *)

Module FolderSizeRequests.
Import FolderSize FolderSizeFacts.

#[local] Arguments children_url : simpl never.

Section Facts.

Variable backend : Backend.
Variables site_id drive_id : string.

Local Abbreviation calc := (calculate_folder_size backend site_id drive_id).

(** What the page loop requests: the address it starts from, then cursors. *)
Lemma fs_page_loop_requests fuel : forall api_url files folders log files' folders' log',
  page_loop backend fuel api_url files folders log = Some (files', folders', log') ->
  exists more,
    log' = log ++ more
    /\ Forall (fun url => api_url = Some url \/ cursor_of backend more url) more.
Proof.
  induction fuel as [|fuel IH]; intros api fs ds log fs' ds' log' H; [discriminate|].
  cbn [page_loop] in H.
  assert (Hnone : Some (fs, ds, log) = Some (fs', ds', log') ->
                  exists more, log' = log ++ more
                    /\ Forall (fun url => api = Some url \/ cursor_of backend more url) more).
  { intros [= <- <- <-]. exists []. split; [now rewrite app_nil_r | constructor]. }
  destruct api as [url|]; [|now apply Hnone].
  destruct (truthy (Some url)); [|now apply Hnone].
  assert (Hone : Some (fs, ds, log ++ [url]) = Some (fs', ds', log') ->
                 exists more, log' = log ++ more
                   /\ Forall (fun u => Some url = Some u \/ cursor_of backend more u) more).
  { intros [= <- <- <-]. exists [url]. split; [reflexivity|]. constructor; [now left | constructor]. }
  destruct (backend url) as [|code page] eqn:Hb; [now apply Hone|].
  destruct (code =? 200) eqn:Hcode; [|now apply Hone].
  apply Z.eqb_eq in Hcode. subst code.
  destruct (scan_items (value page) fs ds) as [[fs1 ds1] [|]].
  - injection H as <- <- <-. exists [url]. split; [reflexivity|].
    constructor; [now left | constructor].
  - apply IH in H as (more & -> & Hmore).
    exists (url :: more). split; [now rewrite <- app_assoc|].
    constructor; [now left|].
    eapply Forall_impl; [|exact Hmore]. intros u [Hu | (prev & pg & Hin & Hprev & Hnext)].
    + right. exists url, page. split; [now left | split; assumption].
    + right. exists prev, pg. split; [now right | split; assumption].
Qed.

Lemma cursor_of_incl (l l' : list string) (url : string) :
  incl l l' -> cursor_of backend l url -> cursor_of backend l' url.
Proof.
  intros Hincl (prev & page & Hin & Hprev & Hnext).
  exists prev, page. split; [now apply Hincl | split; assumption].
Qed.

Lemma fs_requests fuel : forall folder_item r log,
  calc fuel folder_item = Some (r, log) ->
  Forall (fun url =>
            (exists n folder_id,
                In n (nodes r) /\ node_id n = Some folder_id
                /\ url = children_url site_id drive_id folder_id)
            \/ cursor_of backend log url) log.
Proof.
  induction fuel as [|fuel IH]; intros it r log H; [discriminate|].
  destruct (truthy (it_id it)) eqn:Hty.
  - pose proof (fs_calc_identity _ _ _ _ _ _ _ H) as (Hid & _).
    apply fs_calc_unfold in H as (i & fs & ds & l0 & outs & Hi & Hfetch & HF & Hr & ->);
      [|exact Hty].
    unfold get_folder_children in Hfetch.
    apply fs_page_loop_requests in Hfetch as (more & -> & Hmore). cbn [app] in *.
    apply Forall_app. split.
    + eapply Forall_impl; [|exact Hmore]. intros u [Hu | Hu].
      * left. exists r, i. split; [destruct r; now left|].
        split; [congruence | congruence].
      * right. eapply cursor_of_incl; [|exact Hu]. now apply incl_appl.
    + apply Forall_forall. intros u Hu.
      apply in_concat in Hu as (l & Hl & Hu).
      apply in_map_iff in Hl as ([s l'] & <- & Hout). cbn [snd] in Hu.
      assert (Hcall : exists d, calc fuel d = Some (s, l')).
      { clear - HF Hout. induction HF as [|d o ds0 os Hd _ IHF]; [destruct Hout|].
        destruct Hout as [-> | Hout]; [now exists d | now apply IHF]. }
      destruct Hcall as (d & Hd). specialize (IH _ _ _ Hd).
      rewrite Forall_forall in IH. destruct (IH _ Hu) as [(n & j & Hn & Hj & ->) | Hc].
      * left. exists n, j. split; [|split; [exact Hj | reflexivity]].
        subst r. rewrite fold_add_subfolder. cbn [nodes subfolders].
        right. apply in_flat_map. exists s. split; [|exact Hn].
        apply in_or_app. right. apply in_map_iff. now exists (s, l').
      * right. eapply cursor_of_incl; [|exact Hc].
        apply incl_appr. intros x Hx. apply in_concat. exists l'.
        split; [|exact Hx]. apply in_map_iff. now exists (s, l').
  - cbn [calculate_folder_size] in H. rewrite Hty in H. cbn [negb] in H.
    injection H as <- <-. constructor.
Qed.

End Facts.
End FolderSizeRequests.

Module PartialListing.

Section Facts.

Variable backend : Backend.
Variables site_id drive_id : string.

Lemma fs_page_loop_broken url pages urls :
  broken_chain backend url pages urls ->
  Forall (fun item => has_folder item = true -> it_name item <> None) (entries pages) ->
  forall fuel files folders log,
    (length pages < fuel)%nat ->
    FolderSize.page_loop backend fuel (Some url) files folders log
    = Some (files ++ filter is_file_entry (entries pages),
            folders ++ filter is_admitted_folder (entries pages),
            log ++ urls).
Proof.
  unfold entries.
  induction 1 as [url Hurl Hfails | url page next pages urls Hurl Hb Hnext Hch IH];
    intros HN fuel fs ds log Hfuel.
  - destruct fuel as [|fuel]; [cbn in Hfuel; lia|].
    cbn [FolderSize.page_loop]. rewrite Hurl. unfold listing_fails in Hfails.
    cbn [map concat filter]. rewrite !app_nil_r.
    destruct (backend url) as [|code page]; [reflexivity|].
    apply Z.eqb_neq in Hfails. now rewrite Hfails.
  - cbn [map concat] in HN. apply Forall_app in HN as [HN1 HN2].
    destruct fuel as [|fuel]; cbn [length] in Hfuel; [lia|].
    cbn [FolderSize.page_loop]. rewrite Hurl, Hb. cbn [Z.eqb Pos.eqb].
    rewrite FolderSizeFacts.fs_scan_items_named by assumption. rewrite Hnext.
    rewrite IH by (assumption || lia).
    cbn [concat map]. rewrite !filter_app, <- !app_assoc. reflexivity.
Qed.

Lemma ga_page_loop_broken url pages urls :
  broken_chain backend url pages urls ->
  forall fuel files folders log,
    (length pages < fuel)%nat ->
    GraphApi.page_loop backend fuel (Some url) files folders log
    = Some (files ++ filter is_file_entry (entries pages),
            folders ++ filter has_folder (entries pages),
            log ++ urls).
Proof.
  unfold entries.
  induction 1 as [url Hurl Hfails | url page next pages urls Hurl Hb Hnext Hch IH];
    intros fuel fs ds log Hfuel.
  - destruct fuel as [|fuel]; [cbn in Hfuel; lia|].
    cbn [GraphApi.page_loop]. rewrite Hurl. unfold listing_fails in Hfails.
    cbn [map concat filter]. rewrite !app_nil_r.
    destruct (backend url) as [|code page]; [reflexivity|].
    apply Z.eqb_neq in Hfails. now rewrite Hfails.
  - destruct fuel as [|fuel]; cbn [length] in Hfuel; [lia|].
    cbn [GraphApi.page_loop]. rewrite Hurl, Hb. cbn [Z.eqb Pos.eqb].
    rewrite GraphApiFacts.ga_scan_items_spec, Hnext.
    rewrite IH by lia.
    cbn [concat map]. rewrite !filter_app, <- !app_assoc. reflexivity.
Qed.

End Facts.
End PartialListing.

(** X13 (the requests of a walk, [sharepoint_folder_size.py]).  Every request
    of a walk goes either to the children of a folder identifier that has a
    node in the report, or to a cursor that an earlier request of the same
    walk was answered with.  No other address is asked for: in particular not
    the children of a system folder, nor of a folder without identifier. *)
Theorem x13_folder_size_requests backend site_id drive_id fuel folder_item r log :
  FolderSize.calculate_folder_size backend site_id drive_id fuel folder_item
  = Some (r, log) ->
  Forall (fun url =>
            (exists n folder_id,
                In n (nodes r) /\ node_id n = Some folder_id
                /\ url = FolderSize.children_url site_id drive_id folder_id)
            \/ cursor_of backend log url) log.
Proof. apply FolderSizeRequests.fs_requests. Qed.

Lemma x13_folder_size_requests_witness :
  exists r log,
    FolderSize.calculate_folder_size id_backend "S" "D" 4 (folder_item "A") = Some (r, log)
    /\ log = [FolderSize.children_url "S" "D" "id-A"; FolderSize.children_url "S" "D" "id-B"]
    /\ Forall (fun url =>
                 (exists n folder_id,
                     In n (nodes r) /\ node_id n = Some folder_id
                     /\ url = FolderSize.children_url "S" "D" folder_id)
                 \/ cursor_of id_backend log url) log.
Proof.
  eexists. eexists. split; [vm_compute; reflexivity|]. split; [reflexivity|].
  apply (x13_folder_size_requests id_backend "S" "D" 4%nat (folder_item "A")).
  vm_compute. reflexivity.
Defined.

(** X14 (a listing that breaks off).  Let the backend serve some pages of the
    children of a folder and let the request that follows them fail (it
    raises or answers a status other than 200).  Then the page fetcher
    returns the entries of the pages received so far, files and folders in
    page order, without any sign of the failure: the listing is cut short and
    the walk goes on with what it has.  With no page received the listing is
    empty.  This holds for [get_folder_children] of
    [sharepoint_folder_size.py] (every folder entry carrying a name) and for
    [get_folder_items] of [sharepoint_graph_api.py]. *)
Theorem x14_truncated_listing :
  (forall backend site_id drive_id folder_id pages urls fuel,
      broken_chain backend (FolderSize.children_url site_id drive_id folder_id) pages urls ->
      Forall (fun item => has_folder item = true -> it_name item <> None) (entries pages) ->
      (length pages < fuel)%nat ->
      FolderSize.get_folder_children backend site_id drive_id fuel folder_id
      = Some (filter is_file_entry (entries pages),
              filter is_admitted_folder (entries pages),
              urls))
  /\
  (forall backend site_id drive_id folder_path pages urls fuel,
      broken_chain backend (GraphApi.items_url site_id drive_id folder_path) pages urls ->
      (length pages < fuel)%nat ->
      GraphApi.get_folder_items backend site_id drive_id fuel folder_path
      = Some (filter is_file_entry (entries pages),
              filter has_folder (entries pages),
              urls)).
Proof.
  split.
  - intros backend site_id drive_id folder_id pages urls fuel Hchain Hnamed Hfuel.
    unfold FolderSize.get_folder_children.
    now rewrite (PartialListing.fs_page_loop_broken backend _ _ _ Hchain Hnamed).
  - intros backend site_id drive_id folder_path pages urls fuel Hchain Hfuel.
    unfold GraphApi.get_folder_items.
    now rewrite (PartialListing.ga_page_loop_broken backend _ _ _ Hchain).
Qed.

Lemma id_backend_page3_fails_chain :
  broken_chain id_backend_page3_fails (FolderSize.children_url "S" "D" "id-P")
               [mkPage [file_item "p1" 1; folder_item "Q"] (Some "https://sp/next/2");
                mkPage [file_item "p2" 2; file_item "p3" 3] (Some "https://sp/next/3")]
               [FolderSize.children_url "S" "D" "id-P";
                "https://sp/next/2"; "https://sp/next/3"].
Proof.
  eapply chain_goes_on; [reflexivity | reflexivity | reflexivity |].
  eapply chain_goes_on; [reflexivity | reflexivity | reflexivity |].
  apply chain_fails; [reflexivity|]. vm_compute. discriminate.
Qed.

Lemma path_backend_page3_fails_chain :
  broken_chain path_backend_page3_fails (GraphApi.items_url "S" "D" "P")
               [mkPage [file_item "p1" 1; folder_item "Q"] (Some "https://sp/next/2");
                mkPage [file_item "p2" 2; file_item "p3" 3] (Some "https://sp/next/3")]
               [GraphApi.items_url "S" "D" "P";
                "https://sp/next/2"; "https://sp/next/3"].
Proof.
  eapply chain_goes_on; [reflexivity | reflexivity | reflexivity |].
  eapply chain_goes_on; [reflexivity | reflexivity | reflexivity |].
  apply chain_fails; [reflexivity|]. vm_compute. discriminate.
Qed.

(** Two pages of [P] arrive, the third request fails: the four entries of the
    two pages come back, the folder [R] of the third page is missing. *)
Lemma x14_truncated_listing_witness :
  FolderSize.get_folder_children id_backend_page3_fails "S" "D" 3 "id-P"
  = Some ([file_item "p1" 1; file_item "p2" 2; file_item "p3" 3],
          [folder_item "Q"],
          [FolderSize.children_url "S" "D" "id-P";
           "https://sp/next/2"; "https://sp/next/3"])
  /\
  GraphApi.get_folder_items path_backend_page3_fails "S" "D" 3 "P"
  = Some ([file_item "p1" 1; file_item "p2" 2; file_item "p3" 3],
          [folder_item "Q"],
          [GraphApi.items_url "S" "D" "P";
           "https://sp/next/2"; "https://sp/next/3"]).
Proof.
  split.
  - refine (proj1 x14_truncated_listing id_backend_page3_fails "S" "D" "id-P" _ _ 3%nat
                  id_backend_page3_fails_chain _ _).
    + repeat constructor; discriminate.
    + cbn. lia.
  - refine (proj2 x14_truncated_listing path_backend_page3_fails "S" "D" "P" _ _ 3%nat
                  path_backend_page3_fails_chain _).
    cbn. lia.
Defined.


(** X15 (a listing whose cursors never end).  Let the pages of the children
    of a folder each be answered with 200 and each hand out a cursor that
    leads to such a page again (a page whose cursor is its own address is the
    simplest case).  Then the page fetcher never returns, and neither does
    the walk of that folder: no number of steps is enough, there is no limit
    on the pages and no check for a cursor seen before.  This holds for
    [get_folder_children] and [calculate_folder_size] of
    [sharepoint_folder_size.py] (every folder entry carrying a name, the
    folder having a non-empty identifier) and for [get_folder_items] and
    [calculate_folder_size] of [sharepoint_graph_api.py]. *)
Theorem x15_endless_listing :
  (forall backend site_id drive_id folder_id,
      endless_listing folders_named backend
                      (FolderSize.children_url site_id drive_id folder_id) ->
      (forall fuel,
          FolderSize.get_folder_children backend site_id drive_id fuel folder_id = None)
      /\ (forall fuel folder_item,
             it_id folder_item = Some folder_id -> folder_id <> "" ->
             FolderSize.calculate_folder_size backend site_id drive_id fuel folder_item
             = None))
  /\
  (forall backend site_id drive_id folder_path,
      endless_listing (fun _ => True) backend
                      (GraphApi.items_url site_id drive_id folder_path) ->
      (forall fuel,
          GraphApi.get_folder_items backend site_id drive_id fuel folder_path = None)
      /\ (forall fuel folder_name,
             GraphApi.calculate_folder_size backend site_id drive_id fuel
                                            folder_path folder_name
             = None)).
Proof.
  split.
  - intros backend site_id drive_id folder_id (visited & Hurl & Hstep).
    assert (Hlist : forall fuel,
               FolderSize.get_folder_children backend site_id drive_id fuel folder_id = None).
    { intro fuel. unfold FolderSize.get_folder_children.
      now apply (EndlessListing.fs_page_loop_endless backend visited). }
    split; [exact Hlist|].
    intros [|fuel] it Hid Hne; [reflexivity|].
    cbn [FolderSize.calculate_folder_size]. rewrite Hid. cbn [truthy get_or].
    apply String.eqb_neq in Hne. rewrite Hne. cbn [negb].
    now rewrite Hlist.
  - intros backend site_id drive_id folder_path (visited & Hurl & Hstep).
    assert (Hlist : forall fuel,
               GraphApi.get_folder_items backend site_id drive_id fuel folder_path = None).
    { intro fuel. unfold GraphApi.get_folder_items.
      now apply (EndlessListing.ga_page_loop_endless backend visited). }
    split; [exact Hlist|].
    intros [|fuel] nm; [reflexivity|].
    cbn [GraphApi.calculate_folder_size]. now rewrite Hlist.
Qed.


Lemma x15_endless_listing_witness :
  (forall fuel,
      FolderSize.calculate_folder_size loop_backend "S" "D" fuel (folder_item "A") = None)
  /\ (forall fuel,
         GraphApi.calculate_folder_size loop_backend "S" "D" fuel "A" None = None).
Proof.
  split.
  - intro fuel.
    refine (proj2 (proj1 x15_endless_listing loop_backend "S" "D" "id-A" _)
                  fuel (folder_item "A") eq_refl _).
    + apply loop_backend_endless; [reflexivity|].
      repeat constructor. discriminate.
    + discriminate.
  - intro fuel.
    refine (proj2 (proj2 x15_endless_listing loop_backend "S" "D" "A" _) fuel None).
    apply loop_backend_endless; [reflexivity | exact I].
Defined.

Module FolderSizeV2Isolation.
Import FolderSizeV2 FolderSizeV2Facts.

#[local] Arguments files_url : simpl never.
#[local] Arguments folders_url : simpl never.

(** Pruning leaves alone a tree in which the path [x] does not occur. *)
Lemma prune_path_untouched (x : string) : forall n,
  Forall (fun m => folder_count m
                   = Z.of_nat (length (subfolders m)) + zsum (map folder_count (subfolders m)))
         (nodes n) ->
  Forall (fun m => path m <> x) (nodes n) ->
  prune_path x n = n.
Proof.
  induction n as [n IH] using v2_nested_ind. intros Hlaw Hpath.
  destruct n as [p nm ts fc dc fs subs].
  cbn [nodes subfolders] in *.
  inversion Hlaw as [|? ? Hd Hlaws]; subst.
  inversion Hpath as [|? ? Hx Hpaths]; subst.
  apply Forall_flat_map in Hlaws, Hpaths.
  cbn [prune_path path]. cbn [path] in Hx. apply String.eqb_neq in Hx. rewrite Hx.
  cbn [path name total_size file_count folder_count files subfolders] in *.
  assert (Hsubs : map (prune_path x) subs = subs).
  { clear - IH Hlaws Hpaths.
    induction subs as [|s subs IHs]; [reflexivity|].
    inversion IH; inversion Hlaws; inversion Hpaths; subst. simpl.
    f_equal; auto. }
  rewrite Hsubs. f_equal; lia.
Qed.

Section Isolation.

Variables backend backend' : RestBackend.
Variable site_url : string.
Variable quote : string -> string.
Variable x : string.

Hypothesis Hagree : forall p,
  p <> x ->
  backend' (files_url site_url quote p) = backend (files_url site_url quote p)
  /\ backend' (folders_url site_url quote p) = backend (folders_url site_url quote p).
Hypothesis Hfails : fst (get_folder_items backend' site_url quote x) = Raised.

Lemma v2_failed_listing fuel :
  exists log,
    calculate_folder_size backend' site_url quote (S fuel) x
    = Some (empty_result x, log).
Proof.
  cbn [calculate_folder_size].
  destruct (get_folder_items backend' site_url quote x) as [[|[fs ds]] l0];
    [eauto | discriminate].
Qed.

Lemma v2_calc_isolated fuel : forall folder_path r log,
  calculate_folder_size backend site_url quote fuel folder_path = Some (r, log) ->
  exists log',
    calculate_folder_size backend' site_url quote fuel folder_path
    = Some (prune_path x r, log').
Proof.
  induction fuel as [|fuel IH]; intros p r log H; [discriminate|].
  pose proof (v2_calc_identity _ _ _ _ _ _ _ H) as (Hpath & Hname).
  destruct (String.eqb_spec p x) as [-> | Hpx].
  - destruct (v2_failed_listing fuel) as (log' & Hcalc). exists log'. rewrite Hcalc.
    f_equal. f_equal. destruct r as [q nm ts fc dc fs subs].
    cbn [path name] in *. subst.
    cbn [prune_path path name]. rewrite String.eqb_refl. reflexivity.
  - assert (Hsame : get_folder_items backend' site_url quote p
                    = get_folder_items backend site_url quote p).
    { unfold get_folder_items. destruct (Hagree p Hpx) as [-> ->]. reflexivity. }
    apply String.eqb_neq in Hpx.
    apply v2_calc_cases in H
      as [(Hraised & -> & ->)
         | [(fs & ds & counted & stray & more & sizes & Hitems & -> & Hsizes & Hstray & ->)
           | (fs & ds & sizes & outs & l0 & Hitems & Hsizes & HF & -> & ->)]];
      cbn [calculate_folder_size]; rewrite Hsame.
    + destruct (get_folder_items backend site_url quote p) as [[|[fs ds]] l0];
        [|discriminate].
      eexists. f_equal. f_equal. unfold empty_result. cbn [prune_path path].
      now rewrite Hpx.
    + rewrite Hitems, (v2_process_files_stray _ _ _ _ Hsizes Hstray).
      eexists. f_equal. f_equal. unfold empty_result.
      cbn [prune_path path name total_size file_count folder_count files subfolders
           map app length zsum fold_right].
      rewrite Hpx. f_equal; lia.
    + assert (Houts : exists outs',
                 Forall2 (fun folder out =>
                            calculate_folder_size backend' site_url quote fuel
                              (get_or EmptyString (ServerRelativeUrl folder))
                            = Some out) ds outs'
                 /\ map fst outs' = map (prune_path x) (map fst outs)).
      { clear - HF IH. induction HF as [|d [s l] ds outs Hd _ (outs' & HF' & Hm)].
        - exists []. split; constructor.
        - apply IH in Hd as (l' & Hd). exists ((prune_path x s, l') :: outs').
          split; [constructor; assumption|]. simpl. now rewrite Hm. }
      destruct Houts as (outs' & HF' & Hm).
      rewrite Hitems, (v2_process_files_numbers _ _ Hsizes).
      rewrite (v2_process_subfolders_build _ _ _ HF'). eexists. f_equal. f_equal.
      rewrite Hm, v2_fold_add_counted_subfolder.
      unfold empty_result.
      cbn [prune_path path name total_size file_count folder_count files subfolders app].
      rewrite Hpx. rewrite !length_map.
      apply Forall2_length in HF, HF'. f_equal; lia.
Qed.

End Isolation.
End FolderSizeV2Isolation.

(** X16 (failure isolation, [sharepoint_folder_size_v2.py]).  Let the listing
    of the folder at path [x] raise (one of its two requests raises, or the
    filter does), everything else being as on [backend].  Then the walk of
    [x] returns the empty node of [x]; every walk that returns on [backend]
    returns on the failing backend too, with the same fuel, and its report is
    the report of [backend] in which the nodes at [x] are emptied and the
    totals of their ancestors have lost what those nodes had brought in; and
    a walk whose report holds no node at [x] returns exactly the same
    report. *)
Theorem x16_v2_failure_isolation backend backend' site_url quote x :
  (forall p,
      p <> x ->
      backend' (FolderSizeV2.files_url site_url quote p)
      = backend (FolderSizeV2.files_url site_url quote p)
      /\ backend' (FolderSizeV2.folders_url site_url quote p)
         = backend (FolderSizeV2.folders_url site_url quote p)) ->
  fst (FolderSizeV2.get_folder_items backend' site_url quote x) = FolderSizeV2.Raised ->
  (forall fuel,
      exists log,
        FolderSizeV2.calculate_folder_size backend' site_url quote (S fuel) x
        = Some (FolderSizeV2.empty_result x, log))
  /\
  (forall fuel folder_path r log,
      FolderSizeV2.calculate_folder_size backend site_url quote fuel folder_path
      = Some (r, log) ->
      exists log',
        FolderSizeV2.calculate_folder_size backend' site_url quote fuel folder_path
        = Some (prune_path x r, log'))
  /\
  (forall fuel folder_path r log,
      FolderSizeV2.calculate_folder_size backend site_url quote fuel folder_path
      = Some (r, log) ->
      Forall (fun n => FolderSizeV2.path n <> x) (FolderSizeV2.nodes r) ->
      exists log',
        FolderSizeV2.calculate_folder_size backend' site_url quote fuel folder_path
        = Some (r, log')).
Proof.
  intros Hagree Hfails. split; [|split].
  - intro fuel.
    exact (FolderSizeV2Isolation.v2_failed_listing backend' site_url quote x Hfails fuel).
  - intros fuel p r log H.
    exact (FolderSizeV2Isolation.v2_calc_isolated backend backend' site_url quote x
             Hagree Hfails fuel p r log H).
  - intros fuel p r log H Hpaths.
    destruct (FolderSizeV2Isolation.v2_calc_isolated backend backend' site_url quote x
                Hagree Hfails fuel p r log H) as (log' & Hcalc).
    exists log'. rewrite Hcalc. f_equal. f_equal.
    apply FolderSizeV2Isolation.prune_path_untouched; [|exact Hpaths].
    eapply FolderSizeV2Facts.v2_folder_law. exact H.
Qed.

(** Two texts that end alike in length end alike. *)
Lemma string_append_inj_suffix : forall a b s t : string,
  String.length s = String.length t -> (a ++ s = b ++ t)%string -> a = b /\ s = t.
Proof.
  induction a as [|c a IH]; intros b s t Hlen E.
  - destruct b as [|c' b]; cbn [append] in E; [now split|].
    exfalso. subst s. cbn [String.length] in Hlen.
    rewrite string_length_append in Hlen. lia.
  - destruct b as [|c' b]; cbn [append] in E.
    + exfalso. subst t. cbn [String.length] in Hlen.
      rewrite string_length_append in Hlen. lia.
    + injection E as -> E. destruct (IH b s t Hlen E) as [-> ->]. now split.
Qed.

Lemma rest_backend_sub_fails_agree :
  forall p,
    p <> "/sites/X/Docs/Sub" ->
    rest_backend_sub_fails (FolderSizeV2.files_url "https://t" plain_quote p)
    = rest_backend (FolderSizeV2.files_url "https://t" plain_quote p)
    /\ rest_backend_sub_fails (FolderSizeV2.folders_url "https://t" plain_quote p)
       = rest_backend (FolderSizeV2.folders_url "https://t" plain_quote p).
Proof.
  intros p Hp. unfold rest_backend_sub_fails.
  assert (Hfiles : String.eqb (FolderSizeV2.files_url "https://t" plain_quote p)
                     (FolderSizeV2.files_url "https://t" plain_quote "/sites/X/Docs/Sub")
                   = false).
  { apply String.eqb_neq. intro E. apply Hp.
    unfold FolderSizeV2.files_url, plain_quote in E.
    apply string_append_inj_l in E. apply string_append_inj_l in E.
    now apply string_append_inj_r in E. }
  assert (Hfolders : String.eqb (FolderSizeV2.folders_url "https://t" plain_quote p)
                       (FolderSizeV2.files_url "https://t" plain_quote "/sites/X/Docs/Sub")
                     = false).
  { apply String.eqb_neq. intro E.
    unfold FolderSizeV2.files_url, FolderSizeV2.folders_url, plain_quote in E.
    apply string_append_inj_l in E. apply string_append_inj_l in E.
    change (p ++ "')/Folders")%string with (p ++ ("')/Fold" ++ "ers"))%string in E.
    change ("/sites/X/Docs/Sub" ++ "')/Files")%string
      with ("/sites/X/Docs/Sub" ++ ("')/Fi" ++ "les"))%string in E.
    rewrite <- !string_append_assoc in E.
    apply string_append_inj_suffix in E as [_ E]; [discriminate | reflexivity]. }
  now rewrite Hfiles, Hfolders.
Qed.

(** The listing of [Sub] raises: the walk of [Docs] still returns, [Sub] is
    an empty node and the 200 bytes of its file are gone from the total. *)
Lemma x16_v2_failure_isolation_witness :
  exists log,
    FolderSizeV2.calculate_folder_size rest_backend_sub_fails "https://t" plain_quote 3
                                       "/sites/X/Docs"
    = Some (FolderSizeV2.Node
              "/sites/X/Docs" "Docs" 100 1 1
              [FolderSizeV2.mkFileInfo "d1" (FolderSize.JNumber 100) ""
                                       "/sites/X/Docs/d1"]
              [FolderSizeV2.Node "/sites/X/Docs/Sub" "Sub" 0 0 0 [] []],
            log).
Proof.
  destruct (x16_v2_failure_isolation rest_backend rest_backend_sub_fails "https://t"
              plain_quote "/sites/X/Docs/Sub"
              rest_backend_sub_fails_agree eq_refl) as (_ & Hpruned & _).
  exact (Hpruned 3%nat "/sites/X/Docs" _ _ eq_refl).
Defined.

Module PyCsvFacts.
Import PyCsv.


Lemma string_append_nil_r (s : string) : (s ++ EmptyString)%string = s.
Proof. induction s as [|c s IH]; cbn [append]; [reflexivity | now rewrite IH]. Qed.

Lemma is_special_newline (c : ascii) : is_special c = false -> is_newline c = false.
Proof.
  unfold is_special, is_newline. intro H.
  apply orb_false_iff in H as [H Hlf]. apply orb_false_iff in H as [_ Hcr].
  now rewrite Hcr, Hlf.
Qed.

Lemma is_special_parts (c : ascii) :
  is_special c = false ->
  Ascii.eqb c delimiter = false /\ Ascii.eqb c quotechar = false
  /\ Ascii.eqb c cr = false /\ Ascii.eqb c lf = false.
Proof.
  unfold is_special. intro H.
  apply orb_false_iff in H as [H Hlf]. apply orb_false_iff in H as [H Hcr].
  apply orb_false_iff in H as [Hcomma Hq]. auto.
Qed.

(** A character that is no line break ends no line as long as text follows. *)
Lemma is_line_end_plain (c next : ascii) (rest : string) :
  Ascii.eqb c cr = false -> Ascii.eqb c lf = false ->
  is_line_end c (String next rest) = false.
Proof. intros Hcr Hlf. unfold is_line_end. now rewrite Hcr, Hlf. Qed.

(** The characters of an unquoted field are added one by one. *)
Lemma feed_in_field (s : string) : forall fs buffer rs next rest,
  needs_quotes s = false ->
  feed (mkReader IN_FIELD fs buffer rs) (s ++ String next rest)
  = feed (mkReader IN_FIELD fs (buffer ++ s) rs) (String next rest).
Proof.
  induction s as [|c s IH]; intros fs buffer rs next rest Hs.
  - cbn [append]. now rewrite string_append_nil_r.
  - cbn [needs_quotes] in Hs. apply orb_false_iff in Hs as [Hc Hs].
    destruct (is_special_parts c Hc) as (Hcomma & Hq & Hcr & Hlf).
    cbn [append feed]. unfold process_char. cbn [state].
    rewrite (is_special_newline c Hc), Hcomma.
    assert (Hend : is_line_end c (s ++ String next rest) = false).
    { destruct s; cbn [append]; now apply is_line_end_plain. }
    rewrite Hend. unfold add_char. cbn [fields field records].
    rewrite (IH fs _ rs next rest Hs).
    now rewrite string_append_assoc.
Qed.

(** The body of a quoted field, up to the closing quote. *)
Lemma feed_in_quoted_field (s : string) : forall fs buffer rs next rest,
  feed (mkReader IN_QUOTED_FIELD fs buffer rs)
       (double_quotes s ++ String quotechar (String next rest))
  = feed (mkReader QUOTE_IN_QUOTED_FIELD fs (buffer ++ s) rs) (String next rest).
Proof.
  induction s as [|c s IH]; intros fs buffer rs next rest.
  - cbn [double_quotes append feed]. unfold process_char. cbn [state].
    change (Ascii.eqb quotechar quotechar) with true. cbv iota.
    rewrite (is_line_end_plain quotechar next rest eq_refl eq_refl).
    unfold goto. cbn [fields field records]. now rewrite string_append_nil_r.
  - cbn [double_quotes]. destruct (Ascii.eqb c quotechar) eqn:Hq.
    + apply Ascii.eqb_eq in Hq. subst c.
      cbn [append feed]. unfold process_char at 1. cbn [state].
      change (Ascii.eqb quotechar quotechar) with true. cbv iota.
      rewrite (is_line_end_plain quotechar quotechar _ eq_refl eq_refl).
      unfold goto. cbn [fields field records].
      cbn [feed]. unfold process_char at 1. cbn [state].
      change (Ascii.eqb quotechar quotechar) with true. cbv iota.
      assert (Hend : is_line_end quotechar (double_quotes s ++ String quotechar (String next rest))
                     = false).
      { destruct (double_quotes s); cbn [append]; now apply is_line_end_plain. }
      rewrite Hend. unfold add_char. cbn [fields field records].
      rewrite IH. now rewrite string_append_assoc.
    + cbn [append feed]. unfold process_char at 1. cbn [state]. rewrite Hq.
      unfold add_char. cbn [fields field records].
      assert (Hboth : forall r text,
                 state r = IN_QUOTED_FIELD ->
                 (if is_line_end c text then feed (process_eol r) text else feed r text)
                 = feed r text).
      { intros r text Hr. destruct (is_line_end c text); [|reflexivity].
        unfold process_eol. now rewrite Hr. }
      rewrite Hboth by reflexivity.
      rewrite IH. now rewrite string_append_assoc.
Qed.

(** At the start of a record a character that is no line break is handled
    as at the start of a field. *)
Lemma process_char_start_record (fs : list string) (rs : list (list string)) (c : ascii) :
  is_newline c = false ->
  process_char (mkReader START_RECORD fs EmptyString rs) c
  = process_char (mkReader START_FIELD fs EmptyString rs) c.
Proof. intro H. unfold process_char. cbn [state]. now rewrite H. Qed.

(** A field and the delimiter after it. *)
Lemma feed_field_comma (s : string) (fs : list string) (rs : list (list string))
      (next : ascii) (rest : string) :
  feed (mkReader START_FIELD fs EmptyString rs)
       (write_field s ++ String delimiter (String next rest))
  = feed (mkReader START_FIELD (fs ++ [s]) EmptyString rs) (String next rest).
Proof.
  unfold write_field. destruct (needs_quotes s) eqn:Hs.
  - cbn [append feed]. unfold process_char at 1, start_field. cbn [state].
    change (is_newline quotechar) with false. change (Ascii.eqb quotechar quotechar) with true.
    cbv iota.
    assert (Hend : is_line_end quotechar
                     ((double_quotes s ++ String quotechar EmptyString)
                        ++ String delimiter (String next rest)) = false).
    { destruct (double_quotes s); cbn [append]; now apply is_line_end_plain. }
    rewrite Hend. unfold goto. cbn [fields field records].
    rewrite string_append_assoc. cbn [append].
    rewrite feed_in_quoted_field. cbn [append feed].
    unfold process_char. cbn [state].
    change (Ascii.eqb delimiter quotechar) with false. change (Ascii.eqb delimiter delimiter) with true.
    cbv iota.
    rewrite (is_line_end_plain delimiter next rest eq_refl eq_refl).
    reflexivity.
  - destruct s as [|c s].
    + cbn [append feed]. unfold process_char, start_field. cbn [state].
      change (is_newline delimiter) with false. change (Ascii.eqb delimiter quotechar) with false.
      change (Ascii.eqb delimiter delimiter) with true. cbv iota.
      rewrite (is_line_end_plain delimiter next rest eq_refl eq_refl).
      reflexivity.
    + cbn [needs_quotes] in Hs. apply orb_false_iff in Hs as [Hc Hs].
      destruct (is_special_parts c Hc) as (Hcomma & Hq & Hcr & Hlf).
      cbn [append feed]. unfold process_char at 1, start_field. cbn [state].
      rewrite (is_special_newline c Hc), Hq, Hcomma.
      assert (Hend : is_line_end c (s ++ String delimiter (String next rest)) = false).
      { destruct s; cbn [append]; now apply is_line_end_plain. }
      rewrite Hend. unfold add_char. cbn [fields field records append].
      rewrite (feed_in_field s _ _ _ _ _ Hs). cbn [append feed].
      unfold process_char. cbn [state].
      change (is_newline delimiter) with false. change (Ascii.eqb delimiter delimiter) with true.
      cbv iota.
      rewrite (is_line_end_plain delimiter next rest eq_refl eq_refl).
      reflexivity.
Qed.

(** The line terminator after the last field of a record. *)
Lemma feed_crlf (st : State) (fs : list string) (buffer : string)
      (rs : list (list string)) (rest : string) :
  st = IN_FIELD \/ st = QUOTE_IN_QUOTED_FIELD \/ st = START_FIELD ->
  feed (mkReader st fs buffer rs) (crlf ++ rest)
  = feed (mkReader START_RECORD [] EmptyString (rs ++ [fs ++ [buffer]])) rest.
Proof.
  intro Hst. unfold crlf. cbn [append feed].
  assert (Hcr : process_char (mkReader st fs buffer rs) cr
                = Some (mkReader EAT_CRNL (fs ++ [buffer]) EmptyString rs)).
  { destruct Hst as [-> | [-> | ->]]; reflexivity. }
  rewrite Hcr.
  change (is_line_end cr (String lf rest)) with false. cbv iota.
  cbn [feed]. unfold process_char. cbn [state].
  change (is_newline lf) with true. cbv iota.
  assert (Hend : is_line_end lf rest = true) by (destruct rest; reflexivity).
  rewrite Hend. reflexivity.
Qed.

(** The last field of a record and the line terminator. *)
Lemma feed_field_crlf (s : string) (fs : list string) (rs : list (list string))
      (rest : string) :
  feed (mkReader START_FIELD fs EmptyString rs) (write_field s ++ crlf ++ rest)
  = feed (mkReader START_RECORD [] EmptyString (rs ++ [fs ++ [s]])) rest.
Proof.
  unfold write_field. destruct (needs_quotes s) eqn:Hs.
  - cbn [append feed]. unfold process_char at 1, start_field. cbn [state].
    change (is_newline quotechar) with false. change (Ascii.eqb quotechar quotechar) with true.
    cbv iota.
    assert (Hend : is_line_end quotechar
                     ((double_quotes s ++ String quotechar EmptyString) ++ crlf ++ rest)
                   = false).
    { destruct (double_quotes s); cbn [append]; now apply is_line_end_plain. }
    rewrite Hend. unfold goto. cbn [fields field records].
    rewrite string_append_assoc. cbn [append].
    change (crlf ++ rest)%string with (String cr (String lf rest)).
    rewrite feed_in_quoted_field. cbn [append].
    change (String cr (String lf rest)) with (crlf ++ rest)%string.
    rewrite feed_crlf by tauto. reflexivity.
  - destruct s as [|c s].
    + cbn [append]. rewrite feed_crlf by tauto. reflexivity.
    + cbn [needs_quotes] in Hs. apply orb_false_iff in Hs as [Hc Hs].
      destruct (is_special_parts c Hc) as (Hcomma & Hq & Hcr & Hlf).
      cbn [append feed]. unfold process_char at 1, start_field. cbn [state].
      rewrite (is_special_newline c Hc), Hq, Hcomma.
      assert (Hend : is_line_end c (s ++ crlf ++ rest) = false).
      { destruct s; cbn [append]; now apply is_line_end_plain. }
      rewrite Hend. unfold add_char. cbn [fields field records append].
      change (crlf ++ rest)%string with (String cr (String lf rest)).
      rewrite (feed_in_field s _ _ _ _ _ Hs).
      change (String cr (String lf rest)) with (crlf ++ rest)%string.
      rewrite feed_crlf by tauto. reflexivity.
Qed.

(** The first character of what is written for fields that do not come out
    as the empty text is no line break. *)
Lemma join_fields_cons (f f' : string) (l : list string) :
  join_fields (f :: f' :: l) = (f ++ String delimiter (join_fields (f' :: l)))%string.
Proof. reflexivity. Qed.

(** The fields of a record from some field on, up to the line terminator. *)
Lemma feed_fields (l : list string) : forall f fs rs rest,
  feed (mkReader START_FIELD fs EmptyString rs)
       (join_fields (map write_field (f :: l)) ++ crlf ++ rest)
  = feed (mkReader START_RECORD [] EmptyString (rs ++ [fs ++ f :: l])) rest.
Proof.
  induction l as [|f' l IH]; intros f fs rs rest.
  - cbn [map join_fields]. apply feed_field_crlf.
  - cbn [map]. rewrite join_fields_cons, string_append_assoc. cbn [append].
    assert (Hnext : exists next tail,
               (join_fields (write_field f' :: map write_field l) ++ crlf ++ rest)%string
               = String next tail).
    { destruct (join_fields (write_field f' :: map write_field l)) as [|c t];
        unfold crlf; cbn [append]; eauto. }
    destruct Hnext as (next & tail & Hnext). rewrite Hnext.
    rewrite feed_field_comma. rewrite <- Hnext.
    change (write_field f' :: map write_field l) with (map write_field (f' :: l)).
    rewrite IH. now rewrite <- app_assoc.
Qed.

(** At the start of a record the text of a field, or of several, does not
    begin with a line break. *)
Lemma feed_start_record (fs : list string) (rs : list (list string)) (c : ascii)
      (text : string) :
  is_newline c = false ->
  feed (mkReader START_RECORD fs EmptyString rs) (String c text)
  = feed (mkReader START_FIELD fs EmptyString rs) (String c text).
Proof. intro H. cbn [feed]. now rewrite (process_char_start_record fs rs c H). Qed.

Lemma write_field_head (s : string) (rest : string) :
  s <> EmptyString ->
  exists c tail, (write_field s ++ rest)%string = String c tail /\ is_newline c = false.
Proof.
  intro Hne. unfold write_field. destruct (needs_quotes s) eqn:Hs.
  - eexists. eexists. split; reflexivity.
  - destruct s as [|c s]; [contradiction|].
    cbn [needs_quotes] in Hs. apply orb_false_iff in Hs as [Hc _].
    exists c. eexists. split; [reflexivity | now apply is_special_newline].
Qed.

(** One character that ends no line. *)
Lemma feed_cons (r : Reader) (c : ascii) (rest : string) (r1 : Reader) :
  process_char r c = Some r1 -> is_line_end c rest = false ->
  feed r (String c rest) = feed r1 rest.
Proof. intros Hc Hend. cbn [feed]. now rewrite Hc, Hend. Qed.

(** One record. *)
Lemma feed_record (record : list string) (rs : list (list string)) (rest : string) :
  feed (mkReader START_RECORD [] EmptyString rs) (write_record record ++ rest)
  = feed (mkReader START_RECORD [] EmptyString (rs ++ [record])) rest.
Proof.
  destruct record as [|f l].
  - (* no field: a bare line terminator *)
    cbn [write_record map join_fields append]. unfold crlf. cbn [append feed].
    unfold process_char. cbn [state]. change (is_newline cr) with true. cbv iota.
    change (is_line_end cr (String lf rest)) with false. cbv iota.
    unfold goto. cbn [fields field records state feed]. unfold process_char. cbn [state].
    change (is_newline lf) with true. cbv iota.
    assert (Hend : is_line_end lf rest = true) by (destruct rest; reflexivity).
    rewrite Hend. reflexivity.
  - assert (Hgeneral : forall text,
               (join_fields (map write_field (f :: l)) ++ crlf ++ rest)%string = text ->
               (exists c tail, text = String c tail /\ is_newline c = false) ->
               feed (mkReader START_RECORD [] EmptyString rs) text
               = feed (mkReader START_RECORD [] EmptyString (rs ++ [f :: l])) rest).
    { intros text <- (c & tail & Htext & Hc).
      rewrite Htext, (feed_start_record [] rs c tail Hc), <- Htext.
      now rewrite feed_fields. }
    destruct l as [|f' l].
    + destruct f as [|c f].
      * (* a single empty field: a pair of quotes *)
        cbn [write_record append].
        rewrite (feed_cons (mkReader START_RECORD [] EmptyString rs) quotechar
                           (String quotechar (crlf ++ rest))
                           (mkReader IN_QUOTED_FIELD [] EmptyString rs) eq_refl eq_refl).
        rewrite (feed_cons (mkReader IN_QUOTED_FIELD [] EmptyString rs) quotechar
                           (crlf ++ rest)
                           (mkReader QUOTE_IN_QUOTED_FIELD [] EmptyString rs) eq_refl eq_refl).
        rewrite feed_crlf by tauto. reflexivity.
      * change (write_record [String c f])
          with (join_fields (map write_field [String c f]) ++ crlf)%string.
        rewrite string_append_assoc. apply Hgeneral; [reflexivity|].
        cbn [map join_fields]. apply write_field_head. discriminate.
    + assert (Hrecord : write_record (f :: f' :: l)
                        = (join_fields (map write_field (f :: f' :: l)) ++ crlf)%string).
      { destruct f; reflexivity. }
      rewrite Hrecord, string_append_assoc. apply Hgeneral; [reflexivity|].
      cbn [map]. rewrite join_fields_cons, string_append_assoc.
      destruct f as [|c f].
      * exists delimiter. eexists. split; reflexivity.
      * apply write_field_head. discriminate.
Qed.

Lemma feed_csv_text (rows : list (list string)) : forall rs,
  feed (mkReader START_RECORD [] EmptyString rs) (csv_text rows)
  = Some (mkReader START_RECORD [] EmptyString (rs ++ rows)).
Proof.
  induction rows as [|record rows IH]; intro rs; cbn [csv_text].
  - cbn [feed]. now rewrite app_nil_r.
  - rewrite feed_record, IH. now rewrite <- app_assoc.
Qed.

(** Whatever was written row by row is read back row by row. *)
Theorem csv_reader_csv_text (rows : list (list string)) :
  csv_reader (csv_text rows) = Some rows.
Proof. unfold csv_reader. now rewrite feed_csv_text. Qed.


(** A record as it is written: a field with a delimiter or a quote goes
    between quotes, its quotes doubled; a plain or empty field is bare. *)
Example write_record_sample :
  let q := String quotechar EmptyString in
  write_record ["a,b"; "plain"; "say " ++ q ++ "hi" ++ q; ""]%string
  = (q ++ "a,b" ++ q ++ ",plain,"
       ++ q ++ "say " ++ q ++ q ++ "hi" ++ q ++ q ++ q ++ "," ++ crlf)%string.
Proof. reflexivity. Qed.

(** A line break inside a field does not end the record. *)
Example csv_reader_sample :
  csv_reader (csv_text [["two" ++ crlf ++ "lines"; "x"]; []; [""]])%string
  = Some [["two" ++ crlf ++ "lines"; "x"]; []; [""]]%string.
Proof. reflexivity. Qed.

End PyCsvFacts.

(** X17 (the text of the CSV file, [export_to_csv] of the three files).
    Whatever rows are written with [writer.writerow], [csv.reader] reads the
    text back as those very rows: no cell is split, merged or altered,
    whatever characters it holds (delimiters, quotes, line breaks).  So the
    file that [export_to_csv] writes is read back as the header and the rows
    of the report, a path or name as it is and a number as its decimal
    text. *)
Theorem x17_csv_text_round_trip :
  (forall rows : list (list string),
      PyCsv.csv_reader (PyCsv.csv_text rows) = Some rows)
  /\
  (forall (format_size : Z -> string) (result : ReportNode),
      PyCsv.csv_reader (PyCsv.export_to_csv_text format_size result)
      = Some (map (map PyCsv.cell_text) (FolderSize.export_to_csv format_size result))).
Proof.
  split.
  - exact PyCsvFacts.csv_reader_csv_text.
  - intros format_size result. unfold PyCsv.export_to_csv_text.
    apply PyCsvFacts.csv_reader_csv_text.
Qed.
